(** * Declaration surface of the Deno shim

    The repository's source file [packages/shim-deno/lib/shim-deno.lib.d.ts] is a TypeScript
    declaration file.  This development embeds it as data: the abstract syntax of the
    declarations it contains, transcribed declaration by declaration and in source order,
    followed by the queries and the theorems that settle what the specification says about
    that surface.

    What the transcription leaves out is what carries no declaration: comments (the
    [reference] directive of line 3 among them), parentheses around types, the bar that may
    precede the first alternative of a union, and the quotes of the one quoted property name
    (change, line 3309).  The private name of line 1691 is the property [#private].  Of the
    documentation comments the development keeps the calls of the namespace's functions in
    their code examples, as [documented_calls]. *)

From Stdlib Require Import String List ZArith Bool Arith Lia.
Import ListNotations.
Open Scope string_scope.
Open Scope list_scope.

Set Warnings "-register-all".

(** ** Syntax of TypeScript declarations *)

Module TS.

(** Modifier keywords in front of a declaration or a member; [Ambient] is [declare]. *)
Inductive modifier := Export | Ambient | Static | Readonly.

(** A parameter or member is required, optional ([name?]) or, for parameters, a rest
    parameter ([...name]). *)
Inductive presence := Required | Optional | Rest.

(** Expressions and statements.  An ambient declaration has neither an initialiser nor a body;
    the syntax still has room for them, so that their absence is a property of the file. *)
Inductive expr :=
| ENum (n : Z)
| EStr (s : string)
| EIdent (x : string)
| ECall (f : expr) (args : list expr).

Inductive stmt :=
| SExpr (e : expr)
| SReturn (e : option expr)
| SBlock (body : list stmt).

Definition block := list stmt.

Record param_ (T : Type) := Param {
  p_name : string;
  p_presence : presence;
  p_type : T
}.
Arguments Param {T}.
Arguments p_name {T}.
Arguments p_presence {T}.
Arguments p_type {T}.

(** [<name extends constraint = default>] *)
Record tparam_ (T : Type) := TParam {
  tp_name : string;
  tp_constraint : option T;
  tp_default : option T
}.
Arguments TParam {T}.
Arguments tp_name {T}.
Arguments tp_constraint {T}.
Arguments tp_default {T}.

(** Members of a class, of an interface or of an object type. *)
Inductive member_ (T : Type) :=
| MProperty (mods : list modifier) (name : string) (pr : presence)
            (type : option T) (init : option expr)
| MMethod (mods : list modifier) (name : string) (pr : presence)
          (tparams : list (tparam_ T)) (params : list (param_ T))
          (ret : option T) (body : option block)
| MGetter (mods : list modifier) (name : string) (ret : option T) (body : option block)
| MSetter (mods : list modifier) (name : string) (arg : param_ T) (body : option block)
| MConstructor (params : list (param_ T)) (body : option block)
| MCall (tparams : list (tparam_ T)) (params : list (param_ T)) (ret : option T)
| MIndex (mods : list modifier) (key : string) (key_type : T) (value_type : T).
Arguments MProperty {T}.
Arguments MMethod {T}.
Arguments MGetter {T}.
Arguments MSetter {T}.
Arguments MConstructor {T}.
Arguments MCall {T}.
Arguments MIndex {T}.

(** Types.  A reference carries its qualified name ([Deno.SeekMode] is
    [TRef ["Deno"; "SeekMode"] []]) and its type arguments. *)
Inductive ty :=
| TNumber | TString | TBoolean | TVoid | TNever | TUnknown | TAny | TNull | TUndefined
| TBigint
| TStringLit (s : string)
| TNumberLit (n : Z)
| TBooleanLit (b : bool)
| TRef (name : list string) (args : list ty)
| TArray (elem : ty)
| TTuple (elems : list ty)
| TRest (elem : ty)
| TReadonly (t : ty)
| TUnion (alts : list ty)
| TIntersection (parts : list ty)
| TObject (members : list (member_ ty))
| TFunction (tparams : list (tparam_ ty)) (params : list (param_ ty)) (ret : ty)
| TTypeof (name : list string)
| TUniqueSymbol
| TIndexed (obj idx : ty)
| TConditional (chk ext thn els : ty)
| TImport (module : string) (name : list string) (args : list ty).

Definition param := param_ ty.
Definition tparam := tparam_ ty.
Definition member := member_ ty.

(** Declarations of a file, of a namespace or of an ambient module. *)
Inductive decl :=
| DImport (names : list string) (from : string)
| DConst (mods : list modifier) (name : string) (type : option ty) (init : option expr)
| DFunction (mods : list modifier) (name : string) (tparams : list tparam)
            (params : list param) (ret : option ty) (body : option block)
| DClass (mods : list modifier) (name : string) (tparams : list tparam)
         (extends : option ty) (implements : list ty) (members : list member)
| DInterface (mods : list modifier) (name : string) (tparams : list tparam)
             (extends : list ty) (members : list member)
| DTypeAlias (mods : list modifier) (name : string) (tparams : list tparam) (type : ty)
| DEnum (mods : list modifier) (name : string) (members : list (string * option expr))
| DNamespace (mods : list modifier) (name : string) (body : list decl)
| DModule (mods : list modifier) (name : string) (body : list decl)
| DStatement (s : stmt).

End TS.
Import TS.

(** ** The declaration file

    Every entry below carries the number of the source line it starts on. *)

(** Body of [export namespace errors], source lines 4214-4269. *)
Definition Deno_errors : list decl := [
  (* 4215 *) DClass [Export] "AddrInUse" [] (Some (TRef ["Error"] [])) [] [];
  (* 4218 *) DClass [Export] "AddrNotAvailable" [] (Some (TRef ["Error"] [])) [] [];
  (* 4221 *) DClass [Export] "AlreadyExists" [] (Some (TRef ["Error"] [])) [] [];
  (* 4224 *) DClass [Export] "BadResource" [] (Some (TRef ["Error"] [])) [] [];
  (* 4227 *) DClass [Export] "BrokenPipe" [] (Some (TRef ["Error"] [])) [] [];
  (* 4230 *) DClass [Export] "Busy" [] (Some (TRef ["Error"] [])) [] [];
  (* 4233 *) DClass [Export] "ConnectionAborted" [] (Some (TRef ["Error"] [])) [] [];
  (* 4236 *) DClass [Export] "ConnectionRefused" [] (Some (TRef ["Error"] [])) [] [];
  (* 4239 *) DClass [Export] "ConnectionReset" [] (Some (TRef ["Error"] [])) [] [];
  (* 4242 *) DClass [Export] "Http" [] (Some (TRef ["Error"] [])) [] [];
  (* 4245 *) DClass [Export] "Interrupted" [] (Some (TRef ["Error"] [])) [] [];
  (* 4248 *) DClass [Export] "InvalidData" [] (Some (TRef ["Error"] [])) [] [];
  (* 4251 *) DClass [Export] "NotConnected" [] (Some (TRef ["Error"] [])) [] [];
  (* 4254 *) DClass [Export] "NotFound" [] (Some (TRef ["Error"] [])) []
               [(* 4255 *) MProperty [] "code" Required (Some TString) None];
  (* 4258 *) DClass [Export] "PermissionDenied" [] (Some (TRef ["Error"] [])) [] [];
  (* 4261 *) DClass [Export] "TimedOut" [] (Some (TRef ["Error"] [])) [] [];
  (* 4264 *) DClass [Export] "UnexpectedEof" [] (Some (TRef ["Error"] [])) [] [];
  (* 4267 *) DClass [Export] "WriteZero" [] (Some (TRef ["Error"] [])) [] []
].

(** Body of [export declare namespace Deno], source lines 178-4631. *)
Definition Deno : list decl := [
  (* 179 *) DConst [Export] "File" (Some (TTypeof ["FsFile"])) None;
  (* 181 *) DClass [Export] "FsFile" [] None [TRef ["Deno"; "FsFile"] []]
              [(* 182 *) MProperty [Readonly] "rid" Required (Some TNumber) None;
               (* 183 *) MConstructor [Param "rid" Required TNumber] None;
               (* 184 *) MGetter [] "readable"
                           (Some (TRef ["ReadableStream"] [TRef ["Uint8Array"] []]))
                           None;
               (* 185 *) MGetter [] "writable"
                           (Some (TRef ["WritableStream"] [TRef ["Uint8Array"] []]))
                           None;
               (* 186 *) MMethod [] "write" Required []
                           [Param "p" Required (TRef ["Uint8Array"] [])]
                           (Some (TRef ["Promise"] [TNumber]))
                           None;
               (* 187 *) MMethod [] "writeSync" Required []
                           [Param "p" Required (TRef ["Uint8Array"] [])]
                           (Some TNumber)
                           None;
               (* 188 *) MMethod [] "truncate" Required [] [Param "len" Optional TNumber]
                           (Some (TRef ["Promise"] [TVoid]))
                           None;
               (* 189 *) MMethod [] "truncateSync" Required [] [Param "len" Optional TNumber]
                           (Some TVoid)
                           None;
               (* 190 *) MMethod [] "read" Required [] [Param "p" Required (TRef ["Uint8Array"] [])]
                           (Some (TRef ["Promise"] [TUnion [TNumber; TNull]]))
                           None;
               (* 191 *) MMethod [] "readSync" Required []
                           [Param "p" Required (TRef ["Uint8Array"] [])]
                           (Some (TUnion [TNumber; TNull]))
                           None;
               (* 192 *) MMethod [] "seek" Required []
                           [Param "_offset" Required TNumber;
                            Param "_whence" Required (TRef ["Deno"; "SeekMode"] [])]
                           (Some (TRef ["Promise"] [TNumber]))
                           None;
               (* 193 *) MMethod [] "seekSync" Required []
                           [Param "_offset" Required TNumber;
                            Param "_whence" Required (TRef ["Deno"; "SeekMode"] [])]
                           (Some TNumber)
                           None;
               (* 194 *) MMethod [] "stat" Required [] []
                           (Some (TRef ["Promise"] [TRef ["Deno"; "FileInfo"] []]))
                           None;
               (* 195 *) MMethod [] "statSync" Required [] [] (Some (TRef ["Deno"; "FileInfo"] []))
                           None;
               (* 196 *) MMethod [] "close" Required [] [] (Some TVoid) None];
  (* 199 *) DClass [Export] "Permissions" [] None [TRef ["Deno"; "Permissions"] []]
              [(* 200 *) MMethod [] "query" Required []
                           [Param "desc" Required (TRef ["Deno"; "PermissionDescriptor"] [])]
                           (Some (TRef ["Promise"] [TRef ["PermissionStatus"] []]))
                           None;
               (* 201 *) MMethod [] "querySync" Required []
                           [Param "_desc" Required (TRef ["Deno"; "PermissionDescriptor"] [])]
                           (Some (TRef ["PermissionStatus"] []))
                           None;
               (* 202 *) MMethod [] "revoke" Required []
                           [Param "desc" Required (TRef ["Deno"; "PermissionDescriptor"] [])]
                           (Some (TRef ["Promise"] [TRef ["PermissionStatus"] []]))
                           None;
               (* 203 *) MMethod [] "revokeSync" Required []
                           [Param "_desc" Required (TRef ["Deno"; "PermissionDescriptor"] [])]
                           (Some (TRef ["PermissionStatus"] []))
                           None;
               (* 204 *) MMethod [] "request" Required []
                           [Param "desc" Required (TRef ["Deno"; "PermissionDescriptor"] [])]
                           (Some (TRef ["Promise"] [TRef ["PermissionStatus"] []]))
                           None;
               (* 205 *) MMethod [] "requestSync" Required []
                           [Param "desc" Required (TRef ["Deno"; "PermissionDescriptor"] [])]
                           (Some (TRef ["PermissionStatus"] []))
                           None];
  (* 208 *) DClass [Export] "PermissionStatus" [] (Some (TRef ["EventTarget"] []))
              [TRef ["Deno"; "PermissionStatus"] []]
              [(* 209 *) MProperty [Readonly] "state" Required
                           (Some (TRef ["Deno"; "PermissionState"] []))
                           None;
               (* 210 *) MProperty [] "onchange" Required
                           (Some
                              (TUnion
                                 [TFunction []
                                    [Param "this" Required (TRef ["PermissionStatus"] []);
                                     Param "ev" Required (TRef ["Event"] [])]
                                    TAny;
                                  TNull]))
                           None];
  (* 213 *) DEnum [Export] "SeekMode"
              [("Start", Some (ENum 0)); ("Current", Some (ENum 1)); ("End", Some (ENum 2))];
  (* 226 *) DFunction [Export] "isatty" [] [Param "fd" Required TNumber] (Some TBoolean) None;
  (* 246 *) DFunction [Export] "chdir" []
              [Param "directory" Required (TUnion [TString; TRef ["URL"] []])]
              (Some TVoid)
              None;
  (* 280 *) DFunction [Export] "chmod" []
              [Param "path" Required (TUnion [TString; TRef ["URL"] []]);
               Param "mode" Required TNumber]
              (Some (TRef ["Promise"] [TVoid]))
              None;
  (* 298 *) DFunction [Export] "chmodSync" []
              [Param "path" Required (TUnion [TString; TRef ["URL"] []]);
               Param "mode" Required TNumber]
              (Some TVoid)
              None;
  (* 318 *) DFunction [Export] "chown" []
              [Param "path" Required (TUnion [TString; TRef ["URL"] []]);
               Param "uid" Required (TUnion [TNumber; TNull]);
               Param "gid" Required (TUnion [TNumber; TNull])]
              (Some (TRef ["Promise"] [TVoid]))
              None;
  (* 338 *) DFunction [Export] "chownSync" []
              [Param "path" Required (TUnion [TString; TRef ["URL"] []]);
               Param "uid" Required (TUnion [TNumber; TNull]);
               Param "gid" Required (TUnion [TNumber; TNull])]
              (Some TVoid)
              None;
  (* 352 *) DFunction [Export] "close" [] [Param "rid" Required TNumber] (Some TVoid) None;
  (* 369 *) DFunction [Export] "connect" [] [Param "options" Required (TRef ["ConnectOptions"] [])]
              (Some (TRef ["Promise"] [TRef ["TcpConn"] []]))
              None;
  (* 389 *) DFunction [Export] "connect" [] [Param "options" Required (TRef ["ConnectOptions"] [])]
              (Some (TRef ["Promise"] [TRef ["TcpConn"] []]))
              None;
  (* 409 *) DFunction [Export] "connect" []
              [Param "options" Required (TRef ["UnixConnectOptions"] [])]
              (Some (TRef ["Promise"] [TRef ["UnixConn"] []]))
              None;
  (* 429 *) DFunction [Export] "connectTls" []
              [Param "options" Required (TRef ["ConnectTlsOptions"] [])]
              (Some (TRef ["Promise"] [TRef ["TlsConn"] []]))
              None;
  (* 449 *) DFunction [Export] "connectTls" []
              [Param "options" Required (TRef ["ConnectTlsOptions"] [])]
              (Some (TRef ["Promise"] [TRef ["TlsConn"] []]))
              None;
  (* 464 *) DFunction [Export] "copy" []
              [Param "src" Required (TRef ["Reader"] []);
               Param "dst" Required (TRef ["Writer"] []);
               Param "options" Optional
                 (TObject [(* 464 *) MProperty [] "bufSize" Optional (Some TNumber) None])]
              (Some (TRef ["Promise"] [TNumber]))
              None;
  (* 481 *) DFunction [Export] "copyFile" []
              [Param "fromPath" Required (TUnion [TString; TRef ["URL"] []]);
               Param "toPath" Required (TUnion [TString; TRef ["URL"] []])]
              (Some (TRef ["Promise"] [TVoid]))
              None;
  (* 498 *) DFunction [Export] "copyFileSync" []
              [Param "fromPath" Required (TUnion [TString; TRef ["URL"] []]);
               Param "toPath" Required (TUnion [TString; TRef ["URL"] []])]
              (Some TVoid)
              None;
  (* 512 *) DFunction [Export] "create" []
              [Param "path" Required (TUnion [TString; TRef ["URL"] []])]
              (Some (TRef ["Promise"] [TRef ["FsFile"] []]))
              None;
  (* 526 *) DFunction [Export] "createSync" []
              [Param "path" Required (TUnion [TString; TRef ["URL"] []])]
              (Some (TRef ["FsFile"] []))
              None;
  (* 544 *) DFunction [Export] "cwd" [] [] (Some TString) None;
  (* 557 *) DFunction [Export] "execPath" [] [] (Some TString) None;
  (* 571 *) DFunction [Export] "exit" [] [Param "code" Optional TNumber] (Some TNever) None;
  (* 586 *) DFunction [Export] "fdatasync" [] [Param "rid" Required TNumber]
              (Some (TRef ["Promise"] [TVoid]))
              None;
  (* 603 *) DFunction [Export] "fdatasyncSync" [] [Param "rid" Required TNumber] (Some TVoid) None;
  (* 617 *) DFunction [Export] "fstat" [] [Param "rid" Required TNumber]
              (Some (TRef ["Promise"] [TRef ["FileInfo"] []]))
              None;
  (* 632 *) DFunction [Export] "fstatSync" [] [Param "rid" Required TNumber]
              (Some (TRef ["FileInfo"] []))
              None;
  (* 650 *) DFunction [Export] "fsync" [] [Param "rid" Required TNumber]
              (Some (TRef ["Promise"] [TVoid]))
              None;
  (* 668 *) DFunction [Export] "fsyncSync" [] [Param "rid" Required TNumber] (Some TVoid) None;
  (* 708 *) DFunction [Export] "ftruncate" []
              [Param "rid" Required TNumber; Param "len" Optional TNumber]
              (Some (TRef ["Promise"] [TVoid]))
              None;
  (* 749 *) DFunction [Export] "ftruncateSync" []
              [Param "rid" Required TNumber; Param "len" Optional TNumber]
              (Some TVoid)
              None;
  (* 762 *) DFunction [Export] "gid" [] [] (Some (TUnion [TNumber; TNull])) None;
  (* 775 *) DFunction [Export] "hostname" [] [] (Some TString) None;
  (* 814 *) DFunction [Export] "inspect" []
              [Param "value" Required TUnknown;
               Param "options" Optional (TRef ["InspectOptions"] [])]
              (Some TString)
              None;
  (* 841 *) DFunction [Export] "kill" []
              [Param "pid" Required TNumber; Param "signo" Optional (TRef ["Signal"] [])]
              (Some TVoid)
              None;
  (* 854 *) DFunction [Export] "link" []
              [Param "oldpath" Required TString; Param "newpath" Required TString]
              (Some (TRef ["Promise"] [TVoid]))
              None;
  (* 867 *) DFunction [Export] "linkSync" []
              [Param "oldpath" Required TString; Param "newpath" Required TString]
              (Some TVoid)
              None;
  (* 883 *) DFunction [Export] "listen" []
              [Param "options" Required
                 (TIntersection
                    [TRef ["TcpListenOptions"] [];
                     TObject
                       [(* 883 *) MProperty [] "transport" Optional (Some (TStringLit "tcp")) None]])]
              (Some (TRef ["Listener"] []))
              None;
  (* 898 *) DFunction [Export] "listen" []
              [Param "options" Required
                 (TIntersection
                    [TRef ["UnixListenOptions"] [];
                     TObject
                       [(* 898 *) MProperty [] "transport" Required (Some (TStringLit "unix")) None]])]
              (Some (TRef ["Listener"] []))
              None;
  (* 912 *) DFunction [Export] "listenTls" []
              [Param "options" Required (TRef ["ListenTlsOptions"] [])]
              (Some (TRef ["TlsListener"] []))
              None;
  (* 931 *) DFunction [Export] "loadavg" [] [] (Some (TArray TNumber)) None;
  (* 948 *) DFunction [Export] "lstat" []
              [Param "path" Required (TUnion [TString; TRef ["URL"] []])]
              (Some (TRef ["Promise"] [TRef ["FileInfo"] []]))
              None;
  (* 965 *) DFunction [Export] "lstatSync" []
              [Param "path" Required (TUnion [TString; TRef ["URL"] []])]
              (Some (TRef ["FileInfo"] []))
              None;
  (* 988 *) DFunction [Export] "makeTempDir" []
              [Param "options" Optional (TRef ["MakeTempOptions"] [])]
              (Some (TRef ["Promise"] [TString]))
              None;
  (* 1011 *) DFunction [Export] "makeTempDirSync" []
               [Param "options" Optional (TRef ["MakeTempOptions"] [])]
               (Some TString)
               None;
  (* 1035 *) DFunction [Export] "makeTempFile" []
               [Param "options" Optional (TRef ["MakeTempOptions"] [])]
               (Some (TRef ["Promise"] [TString]))
               None;
  (* 1059 *) DFunction [Export] "makeTempFileSync" []
               [Param "options" Optional (TRef ["MakeTempOptions"] [])]
               (Some TString)
               None;
  (* 1066 *) DFunction [Export] "memoryUsage" [] [] (Some (TRef ["MemoryUsage"] [])) None;
  (* 1083 *) DFunction [Export] "mkdir" []
               [Param "path" Required (TUnion [TString; TRef ["URL"] []]);
                Param "options" Optional (TRef ["MkdirOptions"] [])]
               (Some (TRef ["Promise"] [TVoid]))
               None;
  (* 1100 *) DFunction [Export] "mkdirSync" []
               [Param "path" Required (TUnion [TString; TRef ["URL"] []]);
                Param "options" Optional (TRef ["MkdirOptions"] [])]
               (Some TVoid)
               None;
  (* 1119 *) DFunction [Export] "open" []
               [Param "path" Required (TUnion [TString; TRef ["URL"] []]);
                Param "options" Optional (TRef ["OpenOptions"] [])]
               (Some (TRef ["Promise"] [TRef ["FsFile"] []]))
               None;
  (* 1138 *) DFunction [Export] "openSync" []
               [Param "path" Required (TUnion [TString; TRef ["URL"] []]);
                Param "options" Optional (TRef ["OpenOptions"] [])]
               (Some (TRef ["FsFile"] []))
               None;
  (* 1153 *) DFunction [Export] "osRelease" [] [] (Some TString) None;
  (* 1166 *) DFunction [Export] "osUptime" [] [] (Some TNumber) None;
  (* 1195 *) DFunction [Export] "read" []
               [Param "rid" Required TNumber; Param "buffer" Required (TRef ["Uint8Array"] [])]
               (Some (TRef ["Promise"] [TUnion [TNumber; TNull]]))
               None;
  (* 1213 *) DFunction [Export] "readDir" []
               [Param "path" Required (TUnion [TString; TRef ["URL"] []])]
               (Some (TRef ["AsyncIterable"] [TRef ["DirEntry"] []]))
               None;
  (* 1231 *) DFunction [Export] "readDirSync" []
               [Param "path" Required (TUnion [TString; TRef ["URL"] []])]
               (Some (TRef ["Iterable"] [TRef ["DirEntry"] []]))
               None;
  (* 1248 *) DFunction [Export] "readFile" []
               [Param "path" Required (TUnion [TString; TRef ["URL"] []]);
                Param "options" Optional (TRef ["ReadFileOptions"] [])]
               (Some (TRef ["Promise"] [TRef ["Uint8Array"] []]))
               None;
  (* 1265 *) DFunction [Export] "readFileSync" []
               [Param "path" Required (TUnion [TString; TRef ["URL"] []])]
               (Some (TRef ["Uint8Array"] []))
               None;
  (* 1281 *) DFunction [Export] "readLink" []
               [Param "path" Required (TUnion [TString; TRef ["URL"] []])]
               (Some (TRef ["Promise"] [TString]))
               None;
  (* 1298 *) DFunction [Export] "readLinkSync" []
               [Param "path" Required (TUnion [TString; TRef ["URL"] []])]
               (Some TString)
               None;
  (* 1330 *) DFunction [Export] "readSync" []
               [Param "rid" Required TNumber; Param "buffer" Required (TRef ["Uint8Array"] [])]
               (Some (TUnion [TNumber; TNull]))
               None;
  (* 1345 *) DFunction [Export] "readTextFile" []
               [Param "path" Required (TUnion [TString; TRef ["URL"] []]);
                Param "options" Optional (TRef ["ReadFileOptions"] [])]
               (Some (TRef ["Promise"] [TString]))
               None;
  (* 1360 *) DFunction [Export] "readTextFileSync" []
               [Param "path" Required (TUnion [TString; TRef ["URL"] []])]
               (Some TString)
               None;
  (* 1381 *) DFunction [Export] "realPath" []
               [Param "path" Required (TUnion [TString; TRef ["URL"] []])]
               (Some (TRef ["Promise"] [TString]))
               None;
  (* 1403 *) DFunction [Export] "realPathSync" []
               [Param "path" Required (TUnion [TString; TRef ["URL"] []])]
               (Some TString)
               None;
  (* 1420 *) DFunction [Export] "remove" []
               [Param "path" Required (TUnion [TString; TRef ["URL"] []]);
                Param "options" Optional (TRef ["RemoveOptions"] [])]
               (Some (TRef ["Promise"] [TVoid]))
               None;
  (* 1437 *) DFunction [Export] "removeSync" []
               [Param "path" Required (TUnion [TString; TRef ["URL"] []]);
                Param "options" Optional (TRef ["RemoveOptions"] [])]
               (Some TVoid)
               None;
  (* 1459 *) DFunction [Export] "rename" []
               [Param "oldpath" Required (TUnion [TString; TRef ["URL"] []]);
                Param "newpath" Required (TUnion [TString; TRef ["URL"] []])]
               (Some (TRef ["Promise"] [TVoid]))
               None;
  (* 1480 *) DFunction [Export] "renameSync" []
               [Param "oldpath" Required (TUnion [TString; TRef ["URL"] []]);
                Param "newpath" Required (TUnion [TString; TRef ["URL"] []])]
               (Some TVoid)
               None;
  (* 1505 *) DFunction [Export] "resolveDns" []
               [Param "query" Required TString;
                Param "recordType" Required
                  (TUnion
                     [TStringLit "A";
                      TStringLit "AAAA";
                      TStringLit "ANAME";
                      TStringLit "CNAME";
                      TStringLit "NS";
                      TStringLit "PTR"]);
                Param "options" Optional (TRef ["ResolveDnsOptions"] [])]
               (Some (TRef ["Promise"] [TArray TString]))
               None;
  (* 1530 *) DFunction [Export] "resolveDns" []
               [Param "query" Required TString;
                Param "recordType" Required (TStringLit "CAA");
                Param "options" Optional (TRef ["ResolveDnsOptions"] [])]
               (Some (TRef ["Promise"] [TArray (TRef ["CAARecord"] [])]))
               None;
  (* 1555 *) DFunction [Export] "resolveDns" []
               [Param "query" Required TString;
                Param "recordType" Required (TStringLit "MX");
                Param "options" Optional (TRef ["ResolveDnsOptions"] [])]
               (Some (TRef ["Promise"] [TArray (TRef ["MXRecord"] [])]))
               None;
  (* 1580 *) DFunction [Export] "resolveDns" []
               [Param "query" Required TString;
                Param "recordType" Required (TStringLit "NAPTR");
                Param "options" Optional (TRef ["ResolveDnsOptions"] [])]
               (Some (TRef ["Promise"] [TArray (TRef ["NAPTRRecord"] [])]))
               None;
  (* 1605 *) DFunction [Export] "resolveDns" []
               [Param "query" Required TString;
                Param "recordType" Required (TStringLit "SOA");
                Param "options" Optional (TRef ["ResolveDnsOptions"] [])]
               (Some (TRef ["Promise"] [TArray (TRef ["SOARecord"] [])]))
               None;
  (* 1630 *) DFunction [Export] "resolveDns" []
               [Param "query" Required TString;
                Param "recordType" Required (TStringLit "SRV");
                Param "options" Optional (TRef ["ResolveDnsOptions"] [])]
               (Some (TRef ["Promise"] [TArray (TRef ["SRVRecord"] [])]))
               None;
  (* 1655 *) DFunction [Export] "resolveDns" []
               [Param "query" Required TString;
                Param "recordType" Required (TStringLit "TXT");
                Param "options" Optional (TRef ["ResolveDnsOptions"] [])]
               (Some (TRef ["Promise"] [TArray (TArray TString)]))
               None;
  (* 1680 *) DFunction [Export] "resolveDns" []
               [Param "query" Required TString;
                Param "recordType" Required (TRef ["RecordType"] []);
                Param "options" Optional (TRef ["ResolveDnsOptions"] [])]
               (Some
                  (TRef ["Promise"]
                     [TUnion
                        [TArray TString;
                         TArray (TRef ["CAARecord"] []);
                         TArray (TRef ["MXRecord"] []);
                         TArray (TRef ["NAPTRRecord"] []);
                         TArray (TRef ["SOARecord"] []);
                         TArray (TRef ["SRVRecord"] []);
                         TArray (TArray TString)]]))
               None;
  (* 1690 *) DClass [Export] "Process"
               [TParam "T" (Some (TRef ["Deno"; "RunOptions"] []))
                  (Some (TRef ["Deno"; "RunOptions"] []))]
               None
               [TRef ["Deno"; "Process"] [TRef ["T"] []]]
               [(* 1691 *) MProperty [] "#private" Required None None;
                (* 1692 *) MGetter [] "rid" (Some TNumber) None;
                (* 1693 *) MGetter [] "pid" (Some TNumber) None;
                (* 1694 *) MGetter [] "stdin"
                             (Some
                                (TConditional (TIndexed (TRef ["T"] []) (TStringLit "stdin"))
                                   (TStringLit "piped")
                                   (TIntersection
                                      [TRef ["Deno"; "Writer"] [];
                                       TRef ["Deno"; "Closer"] [];
                                       TObject
                                         [(* 1695 *) MProperty [] "writable" Required
                                                       (Some
                                                          (TImport "stream/web" ["WritableStream"]
                                                             [TRef ["Uint8Array"] []]))
                                                       None]])
                                   (TUnion
                                      [TIntersection
                                         [TRef ["Deno"; "Writer"] [];
                                          TRef ["Deno"; "Closer"] [];
                                          TObject
                                            [(* 1697 *) MProperty [] "writable" Required
                                                          (Some
                                                             (TImport "stream/web"
                                                                ["WritableStream"]
                                                                [TRef ["Uint8Array"] []]))
                                                          None]];
                                       TNull])))
                             None;
                (* 1699 *) MGetter [] "stdout"
                             (Some
                                (TConditional (TIndexed (TRef ["T"] []) (TStringLit "stdout"))
                                   (TStringLit "piped")
                                   (TIntersection
                                      [TRef ["Deno"; "Reader"] [];
                                       TRef ["Deno"; "Closer"] [];
                                       TObject
                                         [(* 1700 *) MProperty [] "readable" Required
                                                       (Some
                                                          (TImport "stream/web" ["ReadableStream"]
                                                             [TRef ["Uint8Array"] []]))
                                                       None]])
                                   (TUnion
                                      [TIntersection
                                         [TRef ["Deno"; "Reader"] [];
                                          TRef ["Deno"; "Closer"] [];
                                          TObject
                                            [(* 1702 *) MProperty [] "readable" Required
                                                          (Some
                                                             (TImport "stream/web"
                                                                ["ReadableStream"]
                                                                [TRef ["Uint8Array"] []]))
                                                          None]];
                                       TNull])))
                             None;
                (* 1704 *) MGetter [] "stderr"
                             (Some
                                (TConditional (TIndexed (TRef ["T"] []) (TStringLit "stderr"))
                                   (TStringLit "piped")
                                   (TIntersection
                                      [TRef ["Deno"; "Reader"] [];
                                       TRef ["Deno"; "Closer"] [];
                                       TObject
                                         [(* 1705 *) MProperty [] "readable" Required
                                                       (Some
                                                          (TImport "stream/web" ["ReadableStream"]
                                                             [TRef ["Uint8Array"] []]))
                                                       None]])
                                   (TUnion
                                      [TIntersection
                                         [TRef ["Deno"; "Reader"] [];
                                          TRef ["Deno"; "Closer"] [];
                                          TObject
                                            [(* 1707 *) MProperty [] "readable" Required
                                                          (Some
                                                             (TImport "stream/web"
                                                                ["ReadableStream"]
                                                                [TRef ["Uint8Array"] []]))
                                                          None]];
                                       TNull])))
                             None;
                (* 1709 *) MMethod [] "status" Required [] []
                             (Some (TRef ["Promise"] [TRef ["Deno"; "ProcessStatus"] []]))
                             None;
                (* 1710 *) MMethod [] "output" Required [] []
                             (Some (TRef ["Promise"] [TRef ["Uint8Array"] []]))
                             None;
                (* 1711 *) MMethod [] "stderrOutput" Required [] []
                             (Some (TRef ["Promise"] [TRef ["Uint8Array"] []]))
                             None;
                (* 1712 *) MMethod [] "close" Required [] [] (Some TVoid) None;
                (* 1713 *) MMethod [] "kill" Required [] [Param "signo" Optional TString]
                             (Some TVoid)
                             None];
  (* 1766 *) DFunction [Export] "run"
               [TParam "T" (Some (TRef ["RunOptions"] [])) (Some (TRef ["RunOptions"] []))]
               [Param "opt" Required (TRef ["T"] [])]
               (Some (TRef ["Process"] [TRef ["T"] []]))
               None;
  (* 1818 *) DFunction [Export] "run"
               [TParam "T" (Some (TRef ["UnstableRunOptions"] []))
                  (Some (TRef ["UnstableRunOptions"] []))]
               [Param "opt" Required (TRef ["T"] [])]
               (Some (TRef ["Process"] [TRef ["T"] []]))
               None;
  (* 1819 *) DTypeAlias [Export] "UnstableRunOptions" []
               (TIntersection
                  [TRef ["RunOptions"] [];
                   TObject
                     [(* 1820 *) MProperty [] "clearEnv" Optional (Some TBoolean) None;
                      (* 1821 *) MProperty [] "gid" Optional (Some TNumber) None;
                      (* 1822 *) MProperty [] "uid" Optional (Some TNumber) None]]);
  (* 1837 *) DFunction [Export] "shutdown" [] [Param "rid" Required TNumber]
               (Some (TRef ["Promise"] [TVoid]))
               None;
  (* 1853 *) DFunction [Export] "stat" []
               [Param "path" Required (TUnion [TString; TRef ["URL"] []])]
               (Some (TRef ["Promise"] [TRef ["FileInfo"] []]))
               None;
  (* 1869 *) DFunction [Export] "statSync" []
               [Param "path" Required (TUnion [TString; TRef ["URL"] []])]
               (Some (TRef ["FileInfo"] []))
               None;
  (* 1885 *) DFunction [Export] "symlink" []
               [Param "oldpath" Required (TUnion [TString; TRef ["URL"] []]);
                Param "newpath" Required (TUnion [TString; TRef ["URL"] []]);
                Param "options" Optional (TRef ["SymlinkOptions"] [])]
               (Some (TRef ["Promise"] [TVoid]))
               None;
  (* 1901 *) DFunction [Export] "symlinkSync" []
               [Param "oldpath" Required (TUnion [TString; TRef ["URL"] []]);
                Param "newpath" Required (TUnion [TString; TRef ["URL"] []]);
                Param "options" Optional (TRef ["SymlinkOptions"] [])]
               (Some TVoid)
               None;
  (* 1938 *) DFunction [Export] "test" [] [Param "t" Required (TRef ["TestDefinition"] [])]
               (Some TVoid)
               None;
  (* 1961 *) DFunction [Export] "test" []
               [Param "name" Required TString;
                Param "fn" Required
                  (TFunction [] [Param "t" Required (TRef ["TestContext"] [])]
                     (TUnion [TVoid; TRef ["Promise"] [TVoid]]))]
               (Some TVoid)
               None;
  (* 1984 *) DFunction [Export] "test" []
               [Param "fn" Required
                  (TFunction [] [Param "t" Required (TRef ["TestContext"] [])]
                     (TUnion [TVoid; TRef ["Promise"] [TVoid]]))]
               (Some TVoid)
               None;
  (* 2007 *) DFunction [Export] "test" []
               [Param "name" Required TString;
                Param "options" Required
                  (TRef ["Omit"]
                     [TRef ["TestDefinition"] []; TUnion [TStringLit "fn"; TStringLit "name"]]);
                Param "fn" Required
                  (TFunction [] [Param "t" Required (TRef ["TestContext"] [])]
                     (TUnion [TVoid; TRef ["Promise"] [TVoid]]))]
               (Some TVoid)
               None;
  (* 2042 *) DFunction [Export] "test" []
               [Param "options" Required
                  (TRef ["Omit"] [TRef ["TestDefinition"] []; TStringLit "fn"]);
                Param "fn" Required
                  (TFunction [] [Param "t" Required (TRef ["TestContext"] [])]
                     (TUnion [TVoid; TRef ["Promise"] [TVoid]]))]
               (Some TVoid)
               None;
  (* 2071 *) DFunction [Export] "test" []
               [Param "options" Required
                  (TRef ["Omit"]
                     [TRef ["TestDefinition"] []; TUnion [TStringLit "fn"; TStringLit "name"]]);
                Param "fn" Required
                  (TFunction [] [Param "t" Required (TRef ["TestContext"] [])]
                     (TUnion [TVoid; TRef ["Promise"] [TVoid]]))]
               (Some TVoid)
               None;
  (* 2096 *) DFunction [Export] "truncate" []
               [Param "name" Required TString; Param "len" Optional TNumber]
               (Some (TRef ["Promise"] [TVoid]))
               None;
  (* 2123 *) DFunction [Export] "truncateSync" []
               [Param "name" Required TString; Param "len" Optional TNumber]
               (Some TVoid)
               None;
  (* 2136 *) DFunction [Export] "uid" [] [] (Some (TUnion [TNumber; TNull])) None;
  (* 2177 *) DFunction [Export] "watchFs" []
               [Param "paths" Required (TUnion [TString; TArray TString]);
                Param "options" Optional
                  (TObject [(* 2177 *) MProperty [] "recursive" Required (Some TBoolean) None])]
               (Some (TRef ["FsWatcher"] []))
               None;
  (* 2200 *) DFunction [Export] "write" []
               [Param "rid" Required TNumber; Param "data" Required (TRef ["Uint8Array"] [])]
               (Some (TRef ["Promise"] [TNumber]))
               None;
  (* 2220 *) DFunction [Export] "writeFile" []
               [Param "path" Required (TUnion [TString; TRef ["URL"] []]);
                Param "data" Required
                  (TUnion [TRef ["Uint8Array"] []; TRef ["ReadableStream"] [TRef ["Uint8Array"] []]]);
                Param "options" Optional (TRef ["WriteFileOptions"] [])]
               (Some (TRef ["Promise"] [TVoid]))
               None;
  (* 2240 *) DFunction [Export] "writeFileSync" []
               [Param "path" Required (TUnion [TString; TRef ["URL"] []]);
                Param "data" Required (TRef ["Uint8Array"] []);
                Param "options" Optional (TRef ["WriteFileOptions"] [])]
               (Some TVoid)
               None;
  (* 2266 *) DFunction [Export] "writeSync" []
               [Param "rid" Required TNumber; Param "data" Required (TRef ["Uint8Array"] [])]
               (Some TNumber)
               None;
  (* 2281 *) DFunction [Export] "writeTextFile" []
               [Param "path" Required (TUnion [TString; TRef ["URL"] []]);
                Param "data" Required (TUnion [TString; TRef ["ReadableStream"] [TString]]);
                Param "options" Optional (TRef ["WriteFileOptions"] [])]
               (Some (TRef ["Promise"] [TVoid]))
               None;
  (* 2296 *) DFunction [Export] "writeTextFileSync" []
               [Param "path" Required (TUnion [TString; TRef ["URL"] []]);
                Param "data" Required TString;
                Param "options" Optional (TRef ["WriteFileOptions"] [])]
               (Some TVoid)
               None;
  (* 2318 *) DConst [Export] "args" (Some (TArray TString)) None;
  (* 2320 *) DTypeAlias [Export] "Addr" [] (TUnion [TRef ["NetAddr"] []; TRef ["UnixAddr"] []]);
  (* 2328 *) DInterface [Export] "Closer" [] []
               [(* 2330 *) MMethod [] "close" Required [] [] (Some TVoid) None];
  (* 2334 *) DInterface [Export] "Conn" []
               [TRef ["Reader"] []; TRef ["Writer"] []; TRef ["Closer"] []]
               [(* 2336 *) MProperty [Readonly] "localAddr" Required (Some (TRef ["Addr"] [])) None;
                (* 2338 *) MProperty [Readonly] "remoteAddr" Required (Some (TRef ["Addr"] [])) None;
                (* 2340 *) MProperty [Readonly] "rid" Required (Some TNumber) None;
                (* 2341 *) MProperty [Readonly] "readable" Required
                             (Some (TRef ["ReadableStream"] [TRef ["Uint8Array"] []]))
                             None;
                (* 2342 *) MProperty [Readonly] "writable" Required
                             (Some (TRef ["WritableStream"] [TRef ["Uint8Array"] []]))
                             None;
                (* 2347 *) MMethod [] "closeWrite" Required [] [] (Some (TRef ["Promise"] [TVoid]))
                             None;
                (* 2356 *) MMethod [] "ref" Required [] [] (Some TVoid) None;
                (* 2362 *) MMethod [] "unref" Required [] [] (Some TVoid) None];
  (* 2366 *) DInterface [Export] "ConnectOptions" [] []
               [(* 2368 *) MProperty [] "port" Required (Some TNumber) None;
                (* 2375 *) MProperty [] "hostname" Optional (Some TString) None;
                (* 2376 *) MProperty [] "transport" Optional (Some (TStringLit "tcp")) None];
  (* 2380 *) DInterface [Export] "ConnectTlsOptions" [] []
               [(* 2382 *) MProperty [] "port" Required (Some TNumber) None;
                (* 2388 *) MProperty [] "hostname" Optional (Some TString) None;
                (* 2395 *) MProperty [] "certFile" Optional (Some TString) None;
                (* 2402 *) MProperty [] "caCerts" Optional (Some (TArray TString)) None];
  (* 2410 *) DInterface [Export] "ConnectTlsOptions" [] []
               [(* 2416 *) MProperty [] "certChain" Optional (Some TString) None;
                (* 2422 *) MProperty [] "privateKey" Optional (Some TString) None;
                (* 2430 *) MProperty [] "alpnProtocols" Optional (Some (TArray TString)) None];
  (* 2439 *) DInterface [Export] "DirEntry" [] []
               [(* 2444 *) MProperty [] "name" Required (Some TString) None;
                (* 2449 *) MProperty [] "isFile" Required (Some TBoolean) None;
                (* 2454 *) MProperty [] "isDirectory" Required (Some TBoolean) None;
                (* 2459 *) MProperty [] "isSymlink" Required (Some TBoolean) None];
  (* 2471 *) DInterface [Export] "EnvPermissionDescriptor" [] []
               [(* 2472 *) MProperty [] "name" Required (Some (TStringLit "env")) None;
                (* 2474 *) MProperty [] "variable" Optional (Some TString) None];
  (* 2486 *) DInterface [Export] "FfiPermissionDescriptor" [] []
               [(* 2487 *) MProperty [] "name" Required (Some (TStringLit "ffi")) None;
                (* 2489 *) MProperty [] "path" Optional (Some (TUnion [TString; TRef ["URL"] []]))
                             None];
  (* 2500 *) DInterface [Export] "SysPermissionDescriptor" [] []
               [(* 2501 *) MProperty [] "name" Required (Some (TStringLit "sys")) None;
                (* 2503 *) MProperty [] "kind" Optional
                             (Some
                                (TUnion
                                   [TStringLit "loadavg";
                                    TStringLit "hostname";
                                    TStringLit "systemMemoryInfo";
                                    TStringLit "networkInterfaces";
                                    TStringLit "osRelease";
                                    TStringLit "osUptime";
                                    TStringLit "uid";
                                    TStringLit "gid"]))
                             None];
  (* 2520 *) DInterface [Export] "Env" [] []
               [(* 2535 *) MMethod [] "get" Required [] [Param "key" Required TString]
                             (Some (TUnion [TString; TUndefined]))
                             None;
                (* 2548 *) MMethod [] "set" Required []
                             [Param "key" Required TString; Param "value" Required TString]
                             (Some TVoid)
                             None;
                (* 2561 *) MMethod [] "delete" Required [] [Param "key" Required TString]
                             (Some TVoid)
                             None;
                (* 2574 *) MMethod [] "has" Required [] [Param "key" Required TString]
                             (Some TBoolean)
                             None;
                (* 2591 *) MMethod [] "toObject" Required [] []
                             (Some (TObject [(* 2591 *) MIndex [] "index" TString TString]))
                             None];
  (* 2602 *) DInterface [Export] "FileInfo" [] []
               [(* 2607 *) MProperty [] "isFile" Required (Some TBoolean) None;
                (* 2612 *) MProperty [] "isDirectory" Required (Some TBoolean) None;
                (* 2617 *) MProperty [] "isSymlink" Required (Some TBoolean) None;
                (* 2619 *) MProperty [] "size" Required (Some TNumber) None;
                (* 2625 *) MProperty [] "mtime" Required (Some (TUnion [TRef ["Date"] []; TNull]))
                             None;
                (* 2631 *) MProperty [] "atime" Required (Some (TUnion [TRef ["Date"] []; TNull]))
                             None;
                (* 2637 *) MProperty [] "birthtime" Required
                             (Some (TUnion [TRef ["Date"] []; TNull]))
                             None;
                (* 2639 *) MProperty [] "dev" Required (Some TNumber) None;
                (* 2645 *) MProperty [] "ino" Required (Some (TUnion [TNumber; TNull])) None;
                (* 2652 *) MProperty [] "mode" Required (Some (TUnion [TNumber; TNull])) None;
                (* 2658 *) MProperty [] "nlink" Required (Some (TUnion [TNumber; TNull])) None;
                (* 2664 *) MProperty [] "uid" Required (Some (TUnion [TNumber; TNull])) None;
                (* 2670 *) MProperty [] "gid" Required (Some (TUnion [TNumber; TNull])) None;
                (* 2676 *) MProperty [] "rdev" Required (Some (TUnion [TNumber; TNull])) None;
                (* 2682 *) MProperty [] "blksize" Required (Some (TUnion [TNumber; TNull])) None;
                (* 2688 *) MProperty [] "blocks" Required (Some (TUnion [TNumber; TNull])) None];
  (* 2697 *) DInterface [Export] "FsEvent" [] []
               [(* 2699 *) MProperty [] "kind" Required
                             (Some
                                (TUnion
                                   [TStringLit "any";
                                    TStringLit "access";
                                    TStringLit "create";
                                    TStringLit "modify";
                                    TStringLit "remove";
                                    TStringLit "other"]))
                             None;
                (* 2701 *) MProperty [] "paths" Required (Some (TArray TString)) None;
                (* 2703 *) MProperty [] "flag" Optional (Some (TRef ["FsEventFlag"] [])) None];
  (* 2719 *) DTypeAlias [Export] "FsEventFlag" [] (TStringLit "rescan");
  (* 2728 *) DInterface [Export] "FsWatcher" [] [TRef ["AsyncIterable"] [TRef ["FsEvent"] []]]
               [(* 2730 *) MProperty [Readonly] "rid" Required (Some TNumber) None;
                (* 2732 *) MMethod [] "close" Required [] [] (Some TVoid) None;
                (* 2738 *) MMethod [] "return" Optional [] [Param "value" Optional TAny]
                             (Some
                                (TRef ["Promise"] [TRef ["IteratorResult"] [TRef ["FsEvent"] []]]))
                             None;
                (* 2739 *) MMethod [] "[Symbol.asyncIterator]" Required [] []
                             (Some (TRef ["AsyncIterableIterator"] [TRef ["FsEvent"] []]))
                             None];
  (* 2751 *) DInterface [Export] "HrtimePermissionDescriptor" [] []
               [(* 2752 *) MProperty [] "name" Required (Some (TStringLit "hrtime")) None];
  (* 2760 *) DInterface [Export] "InspectOptions" [] []
               [(* 2766 *) MProperty [] "colors" Optional (Some TBoolean) None;
                (* 2772 *) MProperty [] "compact" Optional (Some TBoolean) None;
                (* 2778 *) MProperty [] "depth" Optional (Some TNumber) None;
                (* 2784 *) MProperty [] "iterableLimit" Optional (Some TNumber) None;
                (* 2790 *) MProperty [] "showProxy" Optional (Some TBoolean) None;
                (* 2796 *) MProperty [] "sorted" Optional (Some TBoolean) None;
                (* 2802 *) MProperty [] "trailingComma" Optional (Some TBoolean) None;
                (* 2808 *) MProperty [] "getters" Optional (Some TBoolean) None;
                (* 2814 *) MProperty [] "showHidden" Optional (Some TBoolean) None;
                (* 2819 *) MProperty [] "strAbbreviateSize" Optional (Some TNumber) None];
  (* 2827 *) DInterface [Export] "Listener" [] [TRef ["AsyncIterable"] [TRef ["Conn"] []]]
               [(* 2829 *) MProperty [Readonly] "addr" Required (Some (TRef ["Addr"] [])) None;
                (* 2831 *) MProperty [Readonly] "rid" Required (Some TNumber) None;
                (* 2833 *) MMethod [] "accept" Required [] []
                             (Some (TRef ["Promise"] [TRef ["Conn"] []]))
                             None;
                (* 2838 *) MMethod [] "close" Required [] [] (Some TVoid) None;
                (* 2839 *) MMethod [] "[Symbol.asyncIterator]" Required [] []
                             (Some (TRef ["AsyncIterableIterator"] [TRef ["Conn"] []]))
                             None;
                (* 2846 *) MMethod [] "ref" Required [] [] (Some TVoid) None;
                (* 2848 *) MMethod [] "unref" Required [] [] (Some TVoid) None];
  (* 2852 *) DInterface [Export] "ListenOptions" [] []
               [(* 2854 *) MProperty [] "port" Required (Some TNumber) None;
                (* 2865 *) MProperty [] "hostname" Optional (Some TString) None];
  (* 2869 *) DInterface [Export] "ListenTlsOptions" [] [TRef ["TcpListenOptions"] []]
               [(* 2871 *) MProperty [] "key" Optional (Some TString) None;
                (* 2873 *) MProperty [] "cert" Optional (Some TString) None;
                (* 2881 *) MProperty [] "certFile" Optional (Some TString) None;
                (* 2888 *) MProperty [] "keyFile" Optional (Some TString) None;
                (* 2889 *) MProperty [] "transport" Optional (Some (TStringLit "tcp")) None];
  (* 2897 *) DInterface [Export] "ListenTlsOptions" [] []
               [(* 2905 *) MProperty [] "alpnProtocols" Optional (Some (TArray TString)) None];
  (* 2915 *) DInterface [Export] "MakeTempOptions" [] []
               [(* 2924 *) MProperty [] "dir" Optional (Some TString) None;
                (* 2929 *) MProperty [] "prefix" Optional (Some TString) None;
                (* 2934 *) MProperty [] "suffix" Optional (Some TString) None];
  (* 2938 *) DInterface [Export] "MemoryUsage" [] []
               [(* 2943 *) MProperty [] "rss" Required (Some TNumber) None;
                (* 2945 *) MProperty [] "heapTotal" Required (Some TNumber) None;
                (* 2947 *) MProperty [] "heapUsed" Required (Some TNumber) None;
                (* 2952 *) MProperty [] "external" Required (Some TNumber) None];
  (* 2956 *) DInterface [Export] "Metrics" [] [TRef ["OpMetrics"] []]
               [(* 2957 *) MProperty [] "ops" Required
                             (Some (TRef ["Record"] [TString; TRef ["OpMetrics"] []]))
                             None];
  (* 2966 *) DInterface [Export] "MkdirOptions" [] []
               [(* 2979 *) MProperty [] "recursive" Optional (Some TBoolean) None;
                (* 2986 *) MProperty [] "mode" Optional (Some TNumber) None];
  (* 2990 *) DInterface [Export] "NetAddr" [] []
               [(* 2991 *) MProperty [] "transport" Required
                             (Some (TUnion [TStringLit "tcp"; TStringLit "udp"]))
                             None;
                (* 2992 *) MProperty [] "hostname" Required (Some TString) None;
                (* 2993 *) MProperty [] "port" Required (Some TNumber) None];
  (* 3004 *) DInterface [Export] "NetPermissionDescriptor" [] []
               [(* 3005 *) MProperty [] "name" Required (Some (TStringLit "net")) None;
                (* 3012 *) MProperty [] "host" Optional (Some TString) None];
  (* 3021 *) DInterface [Export] "OpenOptions" [] []
               [(* 3028 *) MProperty [] "read" Optional (Some TBoolean) None;
                (* 3037 *) MProperty [] "write" Optional (Some TBoolean) None;
                (* 3048 *) MProperty [] "append" Optional (Some TBoolean) None;
                (* 3057 *) MProperty [] "truncate" Optional (Some TBoolean) None;
                (* 3065 *) MProperty [] "create" Optional (Some TBoolean) None;
                (* 3073 *) MProperty [] "createNew" Optional (Some TBoolean) None;
                (* 3080 *) MProperty [] "mode" Optional (Some TNumber) None];
  (* 3084 *) DInterface [Export] "OpMetrics" [] []
               [(* 3085 *) MProperty [] "opsDispatched" Required (Some TNumber) None;
                (* 3086 *) MProperty [] "opsDispatchedSync" Required (Some TNumber) None;
                (* 3087 *) MProperty [] "opsDispatchedAsync" Required (Some TNumber) None;
                (* 3088 *) MProperty [] "opsDispatchedAsyncUnref" Required (Some TNumber) None;
                (* 3089 *) MProperty [] "opsCompleted" Required (Some TNumber) None;
                (* 3090 *) MProperty [] "opsCompletedSync" Required (Some TNumber) None;
                (* 3091 *) MProperty [] "opsCompletedAsync" Required (Some TNumber) None;
                (* 3092 *) MProperty [] "opsCompletedAsyncUnref" Required (Some TNumber) None;
                (* 3093 *) MProperty [] "bytesSentControl" Required (Some TNumber) None;
                (* 3094 *) MProperty [] "bytesSentData" Required (Some TNumber) None;
                (* 3095 *) MProperty [] "bytesReceived" Required (Some TNumber) None];
  (* 3107 *) DTypeAlias [Export] "PermissionDescriptor" []
               (TUnion
                  [TRef ["RunPermissionDescriptor"] [];
                   TRef ["ReadPermissionDescriptor"] [];
                   TRef ["WritePermissionDescriptor"] [];
                   TRef ["NetPermissionDescriptor"] [];
                   TRef ["EnvPermissionDescriptor"] [];
                   TRef ["SysPermissionDescriptor"] [];
                   TRef ["FfiPermissionDescriptor"] [];
                   TRef ["HrtimePermissionDescriptor"] []]);
  (* 3120 *) DTypeAlias [Export] "PermissionName" []
               (TUnion
                  [TStringLit "run";
                   TStringLit "read";
                   TStringLit "write";
                   TStringLit "net";
                   TStringLit "env";
                   TStringLit "sys";
                   TStringLit "ffi";
                   TStringLit "hrtime"]);
  (* 3138 *) DTypeAlias [Export] "PermissionOptions" []
               (TUnion
                  [TStringLit "inherit"; TStringLit "none"; TRef ["PermissionOptionsObject"] []]);
  (* 3148 *) DInterface [Export] "PermissionOptionsObject" [] []
               [(* 3157 *) MProperty [] "env" Optional
                             (Some (TUnion [TStringLit "inherit"; TBoolean; TArray TString]))
                             None;
                (* 3166 *) MProperty [] "sys" Optional
                             (Some (TUnion [TStringLit "inherit"; TBoolean; TArray TString]))
                             None;
                (* 3175 *) MProperty [] "hrtime" Optional
                             (Some (TUnion [TStringLit "inherit"; TBoolean]))
                             None;
                (* 3248 *) MProperty [] "net" Optional
                             (Some (TUnion [TStringLit "inherit"; TBoolean; TArray TString]))
                             None;
                (* 3257 *) MProperty [] "ffi" Optional
                             (Some
                                (TUnion
                                   [TStringLit "inherit";
                                    TBoolean;
                                    TRef ["Array"] [TUnion [TString; TRef ["URL"] []]]]))
                             None;
                (* 3268 *) MProperty [] "read" Optional
                             (Some
                                (TUnion
                                   [TStringLit "inherit";
                                    TBoolean;
                                    TRef ["Array"] [TUnion [TString; TRef ["URL"] []]]]))
                             None;
                (* 3277 *) MProperty [] "run" Optional
                             (Some
                                (TUnion
                                   [TStringLit "inherit";
                                    TBoolean;
                                    TRef ["Array"] [TUnion [TString; TRef ["URL"] []]]]))
                             None;
                (* 3288 *) MProperty [] "write" Optional
                             (Some
                                (TUnion
                                   [TStringLit "inherit";
                                    TBoolean;
                                    TRef ["Array"] [TUnion [TString; TRef ["URL"] []]]]))
                             None];
  (* 3300 *) DTypeAlias [Export] "PermissionState" []
               (TUnion [TStringLit "granted"; TStringLit "denied"; TStringLit "prompt"]);
  (* 3308 *) DInterface [Export] "PermissionStatusEventMap" [] []
               [(* 3309 *) MProperty [] "change" Required (Some (TRef ["Event"] [])) None];
  (* 3322 *) DTypeAlias [Export] "ProcessStatus" []
               (TUnion
                  [TObject
                     [(* 3323 *) MProperty [] "success" Required (Some (TBooleanLit true)) None;
                      (* 3324 *) MProperty [] "code" Required (Some (TNumberLit 0)) None;
                      (* 3325 *) MProperty [] "signal" Optional (Some TUndefined) None];
                   TObject
                     [(* 3328 *) MProperty [] "success" Required (Some (TBooleanLit false)) None;
                      (* 3329 *) MProperty [] "code" Required (Some TNumber) None;
                      (* 3330 *) MProperty [] "signal" Optional (Some TNumber) None]]);
  (* 3339 *) DInterface [Export] "Reader" [] []
               [(* 3366 *) MMethod [] "read" Required []
                             [Param "p" Required (TRef ["Uint8Array"] [])]
                             (Some (TRef ["Promise"] [TUnion [TNumber; TNull]]))
                             None];
  (* 3375 *) DInterface [Export] "ReaderSync" [] []
               [(* 3402 *) MMethod [] "readSync" Required []
                             [Param "p" Required (TRef ["Uint8Array"] [])]
                             (Some (TUnion [TNumber; TNull]))
                             None];
  (* 3411 *) DInterface [Export] "ReadFileOptions" [] []
               [(* 3417 *) MProperty [] "signal" Optional (Some (TRef ["AbortSignal"] [])) None];
  (* 3431 *) DInterface [Export] "ReadPermissionDescriptor" [] []
               [(* 3432 *) MProperty [] "name" Required (Some (TStringLit "read")) None;
                (* 3437 *) MProperty [] "path" Optional (Some (TUnion [TString; TRef ["URL"] []]))
                             None];
  (* 3446 *) DInterface [Export] "RemoveOptions" [] []
               [(* 3452 *) MProperty [] "recursive" Optional (Some TBoolean) None];
  (* 3461 *) DInterface [Export] "ResourceMap" [] [] [(* 3462 *) MIndex [] "rid" TNumber TUnknown];
  (* 3471 *) DInterface [Export] "RunOptions" [] []
               [(* 3478 *) MProperty [] "cmd" Required
                             (Some
                                (TUnion
                                   [TReadonly (TArray TString);
                                    TTuple
                                      [TUnion [TString; TRef ["URL"] []]; TRest (TArray TString)]]))
                             None;
                (* 3483 *) MProperty [] "cwd" Optional (Some TString) None;
                (* 3485 *) MProperty [] "env" Optional (Some (TRef ["Record"] [TString; TString]))
                             None;
                (* 3500 *) MProperty [] "stdout" Optional
                             (Some
                                (TUnion
                                   [TStringLit "inherit";
                                    TStringLit "piped";
                                    TStringLit "null";
                                    TNumber]))
                             None;
                (* 3515 *) MProperty [] "stderr" Optional
                             (Some
                                (TUnion
                                   [TStringLit "inherit";
                                    TStringLit "piped";
                                    TStringLit "null";
                                    TNumber]))
                             None;
                (* 3530 *) MProperty [] "stdin" Optional
                             (Some
                                (TUnion
                                   [TStringLit "inherit";
                                    TStringLit "piped";
                                    TStringLit "null";
                                    TNumber]))
                             None];
  (* 3544 *) DInterface [Export] "RunPermissionDescriptor" [] []
               [(* 3545 *) MProperty [] "name" Required (Some (TStringLit "run")) None;
                (* 3550 *) MProperty [] "command" Optional
                             (Some (TUnion [TString; TRef ["URL"] []]))
                             None];
  (* 3559 *) DInterface [Export] "Seeker" [] []
               [(* 3573 *) MMethod [] "seek" Required []
                             [Param "offset" Required (TUnion [TNumber; TBigint]);
                              Param "whence" Required (TRef ["SeekMode"] [])]
                             (Some (TRef ["Promise"] [TNumber]))
                             None];
  (* 3582 *) DInterface [Export] "SeekerSync" [] []
               [(* 3595 *) MMethod [] "seekSync" Required []
                             [Param "offset" Required TNumber;
                              Param "whence" Required (TRef ["SeekMode"] [])]
                             (Some TNumber)
                             None];
  (* 3599 *) DInterface [Export] "SetRawOptions" [] []
               [(* 3606 *) MProperty [] "cbreak" Required (Some TBoolean) None];
  (* 3615 *) DTypeAlias [Export] "Signal" []
               (TUnion
                  [TStringLit "SIGABRT";
                   TStringLit "SIGALRM";
                   TStringLit "SIGBREAK";
                   TStringLit "SIGBUS";
                   TStringLit "SIGCHLD";
                   TStringLit "SIGCONT";
                   TStringLit "SIGEMT";
                   TStringLit "SIGFPE";
                   TStringLit "SIGHUP";
                   TStringLit "SIGILL";
                   TStringLit "SIGINFO";
                   TStringLit "SIGINT";
                   TStringLit "SIGIO";
                   TStringLit "SIGKILL";
                   TStringLit "SIGPIPE";
                   TStringLit "SIGPROF";
                   TStringLit "SIGPWR";
                   TStringLit "SIGQUIT";
                   TStringLit "SIGSEGV";
                   TStringLit "SIGSTKFLT";
                   TStringLit "SIGSTOP";
                   TStringLit "SIGSYS";
                   TStringLit "SIGTERM";
                   TStringLit "SIGTRAP";
                   TStringLit "SIGTSTP";
                   TStringLit "SIGTTIN";
                   TStringLit "SIGTTOU";
                   TStringLit "SIGURG";
                   TStringLit "SIGUSR1";
                   TStringLit "SIGUSR2";
                   TStringLit "SIGVTALRM";
                   TStringLit "SIGWINCH";
                   TStringLit "SIGXCPU";
                   TStringLit "SIGXFSZ"]);
  (* 3656 *) DInterface [Export] "SymlinkOptions" [] []
               [(* 3661 *) MProperty [] "type" Required
                             (Some (TUnion [TStringLit "file"; TStringLit "dir"]))
                             None];
  (* 3665 *) DInterface [Export] "TestDefinition" [] []
               [(* 3666 *) MProperty [] "fn" Required
                             (Some
                                (TFunction [] [Param "t" Required (TRef ["TestContext"] [])]
                                   (TUnion [TVoid; TRef ["Promise"] [TVoid]])))
                             None;
                (* 3668 *) MProperty [] "name" Required (Some TString) None;
                (* 3675 *) MProperty [] "ignore" Optional (Some TBoolean) None;
                (* 3680 *) MProperty [] "only" Optional (Some TBoolean) None;
                (* 3690 *) MProperty [] "sanitizeOps" Optional (Some TBoolean) None;
                (* 3698 *) MProperty [] "sanitizeResources" Optional (Some TBoolean) None;
                (* 3705 *) MProperty [] "sanitizeExit" Optional (Some TBoolean) None;
                (* 3715 *) MProperty [] "permissions" Optional
                             (Some (TRef ["PermissionOptions"] []))
                             None];
  (* 3719 *) DInterface [Export] "TestStepDefinition" [] []
               [(* 3725 *) MProperty [] "fn" Required
                             (Some
                                (TFunction [] [Param "t" Required (TRef ["TestContext"] [])]
                                   (TUnion [TVoid; TRef ["Promise"] [TVoid]])))
                             None;
                (* 3727 *) MProperty [] "name" Required (Some TString) None;
                (* 3734 *) MProperty [] "ignore" Optional (Some TBoolean) None;
                (* 3744 *) MProperty [] "sanitizeOps" Optional (Some TBoolean) None;
                (* 3752 *) MProperty [] "sanitizeResources" Optional (Some TBoolean) None;
                (* 3759 *) MProperty [] "sanitizeExit" Optional (Some TBoolean) None];
  (* 3769 *) DInterface [Export] "TestContext" [] []
               [(* 3771 *) MProperty [] "name" Required (Some TString) None;
                (* 3773 *) MProperty [] "origin" Required (Some TString) None;
                (* 3778 *) MProperty [] "parent" Optional (Some (TRef ["TestContext"] [])) None;
                (* 3803 *) MMethod [] "step" Required []
                             [Param "definition" Required (TRef ["TestStepDefinition"] [])]
                             (Some (TRef ["Promise"] [TBoolean]))
                             None;
                (* 3828 *) MMethod [] "step" Required []
                             [Param "name" Required TString;
                              Param "fn" Required
                                (TFunction [] [Param "t" Required (TRef ["TestContext"] [])]
                                   (TUnion [TVoid; TRef ["Promise"] [TVoid]]))]
                             (Some (TRef ["Promise"] [TBoolean]))
                             None;
                (* 3847 *) MMethod [] "step" Required []
                             [Param "fn" Required
                                (TFunction [] [Param "t" Required (TRef ["TestContext"] [])]
                                   (TUnion [TVoid; TRef ["Promise"] [TVoid]]))]
                             (Some (TRef ["Promise"] [TBoolean]))
                             None];
  (* 3851 *) DInterface [Export] "TcpConn" [] [TRef ["Conn"] []]
               [(* 3857 *) MMethod [] "setNoDelay" Required [] [Param "noDelay" Optional TBoolean]
                             (Some TVoid)
                             None;
                (* 3859 *) MMethod [] "setKeepAlive" Required []
                             [Param "keepAlive" Optional TBoolean]
                             (Some TVoid)
                             None];
  (* 3863 *) DInterface [Export] "TcpListenOptions" [] [TRef ["ListenOptions"] []] [];
  (* 3867 *) DInterface [Export] "TcpListenOptions" [] [TRef ["ListenOptions"] []]
               [(* 3881 *) MProperty [] "reusePort" Optional (Some TBoolean) None];
  (* 3885 *) DInterface [Export] "TlsConn" [] [TRef ["Conn"] []]
               [(* 3891 *) MMethod [] "handshake" Required [] []
                             (Some (TRef ["Promise"] [TRef ["TlsHandshakeInfo"] []]))
                             None];
  (* 3899 *) DInterface [Export] "TlsConn" [] [TRef ["Conn"] []]
               [(* 3907 *) MMethod [] "handshake" Required [] []
                             (Some (TRef ["Promise"] [TRef ["TlsHandshakeInfo"] []]))
                             None];
  (* 3915 *) DInterface [Export] "TlsListener" []
               [TRef ["Listener"] []; TRef ["AsyncIterable"] [TRef ["TlsConn"] []]]
               [(* 3917 *) MMethod [] "accept" Required [] []
                             (Some (TRef ["Promise"] [TRef ["TlsConn"] []]))
                             None;
                (* 3918 *) MMethod [] "[Symbol.asyncIterator]" Required [] []
                             (Some (TRef ["AsyncIterableIterator"] [TRef ["TlsConn"] []]))
                             None];
  (* 3922 *) DInterface [Export] "UnixAddr" [] []
               [(* 3923 *) MProperty [] "transport" Required
                             (Some (TUnion [TStringLit "unix"; TStringLit "unixpacket"]))
                             None;
                (* 3924 *) MProperty [] "path" Required (Some TString) None];
  (* 3928 *) DInterface [Export] "UnixConn" [] [TRef ["Conn"] []] [];
  (* 3936 *) DInterface [Export] "WriteFileOptions" [] []
               [(* 3943 *) MProperty [] "append" Optional (Some TBoolean) None;
                (* 3950 *) MProperty [] "create" Optional (Some TBoolean) None;
                (* 3957 *) MProperty [] "createNew" Optional (Some TBoolean) None;
                (* 3959 *) MProperty [] "mode" Optional (Some TNumber) None;
                (* 3966 *) MProperty [] "signal" Optional (Some (TRef ["AbortSignal"] [])) None];
  (* 3980 *) DInterface [Export] "WritePermissionDescriptor" [] []
               [(* 3981 *) MProperty [] "name" Required (Some (TStringLit "write")) None;
                (* 3986 *) MProperty [] "path" Optional (Some (TUnion [TString; TRef ["URL"] []]))
                             None];
  (* 3995 *) DInterface [Export] "Writer" [] []
               [(* 4012 *) MMethod [] "write" Required []
                             [Param "p" Required (TRef ["Uint8Array"] [])]
                             (Some (TRef ["Promise"] [TNumber]))
                             None];
  (* 4021 *) DInterface [Export] "WriterSync" [] []
               [(* 4032 *) MMethod [] "writeSync" Required []
                             [Param "p" Required (TRef ["Uint8Array"] [])]
                             (Some TNumber)
                             None];
  (* 4041 *) DInterface [Export] "CAARecord" [] []
               [(* 4051 *) MProperty [] "critical" Required (Some TBoolean) None;
                (* 4056 *) MProperty [] "tag" Required (Some TString) None;
                (* 4058 *) MProperty [] "value" Required (Some TString) None];
  (* 4067 *) DInterface [Export] "MXRecord" [] []
               [(* 4072 *) MProperty [] "preference" Required (Some TNumber) None;
                (* 4074 *) MProperty [] "exchange" Required (Some TString) None];
  (* 4083 *) DInterface [Export] "NAPTRRecord" [] []
               [(* 4084 *) MProperty [] "order" Required (Some TNumber) None;
                (* 4085 *) MProperty [] "preference" Required (Some TNumber) None;
                (* 4086 *) MProperty [] "flags" Required (Some TString) None;
                (* 4087 *) MProperty [] "services" Required (Some TString) None;
                (* 4088 *) MProperty [] "regexp" Required (Some TString) None;
                (* 4089 *) MProperty [] "replacement" Required (Some TString) None];
  (* 4097 *) DInterface [Export] "ResolveDnsOptions" [] []
               [(* 4104 *) MProperty [] "nameServer" Optional
                             (Some
                                (TObject
                                   [(* 4106 *) MProperty [] "ipAddr" Required (Some TString) None;
                                    (* 4110 *) MProperty [] "port" Optional (Some TNumber) None]))
                             None;
                (* 4117 *) MProperty [] "signal" Optional (Some (TRef ["AbortSignal"] [])) None];
  (* 4126 *) DInterface [Export] "SOARecord" [] []
               [(* 4127 *) MProperty [] "mname" Required (Some TString) None;
                (* 4128 *) MProperty [] "rname" Required (Some TString) None;
                (* 4129 *) MProperty [] "serial" Required (Some TNumber) None;
                (* 4130 *) MProperty [] "refresh" Required (Some TNumber) None;
                (* 4131 *) MProperty [] "retry" Required (Some TNumber) None;
                (* 4132 *) MProperty [] "expire" Required (Some TNumber) None;
                (* 4133 *) MProperty [] "minimum" Required (Some TNumber) None];
  (* 4142 *) DInterface [Export] "SRVRecord" [] []
               [(* 4143 *) MProperty [] "priority" Required (Some TNumber) None;
                (* 4144 *) MProperty [] "weight" Required (Some TNumber) None;
                (* 4145 *) MProperty [] "port" Required (Some TNumber) None;
                (* 4146 *) MProperty [] "target" Required (Some TString) None];
  (* 4157 *) DTypeAlias [Export] "RecordType" []
               (TUnion
                  [TStringLit "A";
                   TStringLit "AAAA";
                   TStringLit "ANAME";
                   TStringLit "CAA";
                   TStringLit "CNAME";
                   TStringLit "MX";
                   TStringLit "NAPTR";
                   TStringLit "NS";
                   TStringLit "PTR";
                   TStringLit "SOA";
                   TStringLit "SRV";
                   TStringLit "TXT"]);
  (* 4181 *) DConst [Export] "build"
               (Some
                  (TObject
                     [(* 4185 *) MProperty [] "target" Required (Some TString) None;
                      (* 4187 *) MProperty [] "arch" Required
                                   (Some (TUnion [TStringLit "x86_64"; TStringLit "aarch64"]))
                                   None;
                      (* 4190 *) MProperty [] "os" Required
                                   (Some
                                      (TUnion
                                         [TStringLit "darwin";
                                          TStringLit "linux";
                                          TStringLit "windows";
                                          TStringLit "freebsd";
                                          TStringLit "netbsd";
                                          TStringLit "aix";
                                          TStringLit "solaris";
                                          TStringLit "illumos"]))
                                   None;
                      (* 4200 *) MProperty [] "vendor" Required (Some TString) None;
                      (* 4202 *) MProperty [] "env" Optional (Some TString) None]))
               None;
  (* 4204 *) DConst [Export] "customInspect" (Some TUniqueSymbol) None;
  (* 4212 *) DConst [Export] "env" (Some (TRef ["Env"] [])) None;
  (* 4214 *) DNamespace [Export] "errors" Deno_errors;
  (* 4280 *) DConst [Export] "mainModule" (Some TString) None;
  (* 4307 *) DFunction [Export] "metrics" [] [] (Some (TRef ["Metrics"] [])) None;
  (* 4319 *) DConst [Export] "noColor" (Some TBoolean) None;
  (* 4393 *) DConst [Export] "permissions" (Some (TRef ["Permissions"] [])) None;
  (* 4403 *) DConst [Export] "pid" (Some TNumber) None;
  (* 4413 *) DConst [Export] "ppid" (Some TNumber) None;
  (* 4430 *) DFunction [Export] "resources" [] [] (Some (TRef ["ResourceMap"] [])) None;
  (* 4443 *) DConst [Export] "version"
               (Some
                  (TObject
                     [(* 4445 *) MProperty [] "deno" Required (Some TString) None;
                      (* 4450 *) MProperty [] "v8" Required (Some TString) None;
                      (* 4455 *) MProperty [] "typescript" Required (Some TString) None]))
               None;
  (* 4475 *) DConst [Export] "stdin"
               (Some
                  (TIntersection
                     [TRef ["Reader"] [];
                      TRef ["ReaderSync"] [];
                      TRef ["Closer"] [];
                      TObject
                        [(* 4478 *) MProperty [Readonly] "rid" Required (Some TNumber) None;
                         (* 4480 *) MProperty [Readonly] "readable" Required
                                      (Some (TRef ["ReadableStream"] [TRef ["Uint8Array"] []]))
                                      None;
                         (* 4494 *) MMethod [] "setRaw" Required []
                                      [Param "mode" Required TBoolean;
                                       Param "options" Optional (TRef ["SetRawOptions"] [])]
                                      (Some TVoid)
                                      None]]))
               None;
  (* 4507 *) DConst [Export] "stdout"
               (Some
                  (TIntersection
                     [TRef ["Writer"] [];
                      TRef ["WriterSync"] [];
                      TRef ["Closer"] [];
                      TObject
                        [(* 4510 *) MProperty [Readonly] "rid" Required (Some TNumber) None;
                         (* 4512 *) MProperty [Readonly] "writable" Required
                                      (Some (TRef ["WritableStream"] [TRef ["Uint8Array"] []]))
                                      None]]))
               None;
  (* 4525 *) DConst [Export] "stderr"
               (Some
                  (TIntersection
                     [TRef ["Writer"] [];
                      TRef ["WriterSync"] [];
                      TRef ["Closer"] [];
                      TObject
                        [(* 4528 *) MProperty [Readonly] "rid" Required (Some TNumber) None;
                         (* 4530 *) MProperty [Readonly] "writable" Required
                                      (Some (TRef ["WritableStream"] [TRef ["Uint8Array"] []]))
                                      None]]))
               None;
  (* 4534 *) DInterface [Export] "TlsHandshakeInfo" [] [] [];
  (* 4542 *) DInterface [Export] "TlsHandshakeInfo" [] []
               [(* 4549 *) MProperty [] "alpnProtocol" Required (Some (TUnion [TString; TNull]))
                             None];
  (* 4557 *) DInterface [Export] "UnixConnectOptions" [] []
               [(* 4558 *) MProperty [] "transport" Required (Some (TStringLit "unix")) None;
                (* 4559 *) MProperty [] "path" Required (Some TString) None];
  (* 4570 *) DInterface [Export] "UnixListenOptions" [] []
               [(* 4572 *) MProperty [] "path" Required (Some TString) None];
  (* 4587 *) DFunction [Export] "futime" []
               [Param "rid" Required TNumber;
                Param "atime" Required (TUnion [TNumber; TRef ["Date"] []]);
                Param "mtime" Required (TUnion [TNumber; TRef ["Date"] []])]
               (Some (TRef ["Promise"] [TVoid]))
               None;
  (* 4600 *) DFunction [Export] "futimeSync" []
               [Param "rid" Required TNumber;
                Param "atime" Required (TUnion [TNumber; TRef ["Date"] []]);
                Param "mtime" Required (TUnion [TNumber; TRef ["Date"] []])]
               (Some TVoid)
               None;
  (* 4615 *) DFunction [Export] "utime" []
               [Param "path" Required (TUnion [TString; TRef ["URL"] []]);
                Param "atime" Required (TUnion [TNumber; TRef ["Date"] []]);
                Param "mtime" Required (TUnion [TNumber; TRef ["Date"] []])]
               (Some (TRef ["Promise"] [TVoid]))
               None;
  (* 4630 *) DFunction [Export] "utimeSync" []
               [Param "path" Required (TUnion [TString; TRef ["URL"] []]);
                Param "atime" Required (TUnion [TNumber; TRef ["Date"] []]);
                Param "mtime" Required (TUnion [TNumber; TRef ["Date"] []])]
               (Some TVoid)
               None
].

(** Body of [declare module @deno/shim-deno/test-internals], source lines 4633-4637. *)
Definition test_internals : list decl := [
  (* 4634 *) DTypeAlias [] "TestDefinition" [] (TRef ["Deno"; "TestDefinition"] []);
  (* 4636 *) DConst [Export] "testDefinitions" (Some (TArray (TRef ["TestDefinition"] []))) None
].

(** The declaration file as a whole: imports, the DOM event declarations, the [Deno] namespace
    and the test-internals module. *)
Definition shim_deno_lib : list decl := [
  (* 5 *) DImport ["URL"] "url";
  (* 6 *) DImport ["ReadableStream"; "WritableStream"] "node:stream/web";
  (* 14 *) DClass [Ambient] "EventTarget" [] None []
             [(* 40 *) MMethod [] "addEventListener" Required []
                         [Param "type" Required TString;
                          Param "listener" Required
                            (TUnion [TRef ["EventListenerOrEventListenerObject"] []; TNull]);
                          Param "options" Optional
                            (TUnion [TBoolean; TRef ["AddEventListenerOptions"] []])]
                         (Some TVoid)
                         None;
              (* 46 *) MMethod [] "dispatchEvent" Required []
                         [Param "event" Required (TRef ["Event"] [])]
                         (Some TBoolean)
                         None;
              (* 51 *) MMethod [] "removeEventListener" Required []
                         [Param "type" Required TString;
                          Param "callback" Required
                            (TUnion [TRef ["EventListenerOrEventListenerObject"] []; TNull]);
                          Param "options" Optional
                            (TUnion [TRef ["EventListenerOptions"] []; TBoolean])]
                         (Some TVoid)
                         None];
  (* 59 *) DClass [Ambient] "Event" [] None []
             [(* 65 *) MProperty [Readonly] "bubbles" Required (Some TBoolean) None;
              (* 66 *) MProperty [] "cancelBubble" Required (Some TBoolean) None;
              (* 73 *) MProperty [Readonly] "cancelable" Required (Some TBoolean) None;
              (* 79 *) MProperty [Readonly] "composed" Required (Some TBoolean) None;
              (* 84 *) MProperty [Readonly] "currentTarget" Required
                         (Some (TUnion [TRef ["EventTarget"] []; TNull]))
                         None;
              (* 89 *) MProperty [Readonly] "defaultPrevented" Required (Some TBoolean) None;
              (* 94 *) MProperty [Readonly] "eventPhase" Required (Some TNumber) None;
              (* 99 *) MProperty [Readonly] "isTrusted" Required (Some TBoolean) None;
              (* 101 *) MProperty [Readonly] "target" Required
                          (Some (TUnion [TRef ["EventTarget"] []; TNull]))
                          None;
              (* 106 *) MProperty [Readonly] "timeStamp" Required (Some TNumber) None;
              (* 108 *) MProperty [Readonly] "type" Required (Some TString) None;
              (* 109 *) MProperty [Readonly] "AT_TARGET" Required (Some TNumber) None;
              (* 110 *) MProperty [Readonly] "BUBBLING_PHASE" Required (Some TNumber) None;
              (* 111 *) MProperty [Readonly] "CAPTURING_PHASE" Required (Some TNumber) None;
              (* 112 *) MProperty [Readonly] "NONE" Required (Some TNumber) None;
              (* 113 *) MProperty [Static; Readonly] "AT_TARGET" Required (Some TNumber) None;
              (* 114 *) MProperty [Static; Readonly] "BUBBLING_PHASE" Required (Some TNumber) None;
              (* 115 *) MProperty [Static; Readonly] "CAPTURING_PHASE" Required (Some TNumber) None;
              (* 116 *) MProperty [Static; Readonly] "NONE" Required (Some TNumber) None;
              (* 117 *) MConstructor
                          [Param "type" Required TString;
                           Param "eventInitDict" Optional (TRef ["EventInit"] [])]
                          None;
              (* 124 *) MMethod [] "composedPath" Required [] []
                          (Some (TArray (TRef ["EventTarget"] [])))
                          None;
              (* 131 *) MMethod [] "preventDefault" Required [] [] (Some TVoid) None;
              (* 137 *) MMethod [] "stopImmediatePropagation" Required [] [] (Some TVoid) None;
              (* 142 *) MMethod [] "stopPropagation" Required [] [] (Some TVoid) None];
  (* 146 *) DInterface [] "EventInit" [] []
              [(* 147 *) MProperty [] "bubbles" Optional (Some TBoolean) None;
               (* 148 *) MProperty [] "cancelable" Optional (Some TBoolean) None;
               (* 149 *) MProperty [] "composed" Optional (Some TBoolean) None];
  (* 153 *) DInterface [] "EventListenerOptions" [] []
              [(* 154 *) MProperty [] "capture" Optional (Some TBoolean) None];
  (* 158 *) DInterface [] "AddEventListenerOptions" [] [TRef ["EventListenerOptions"] []]
              [(* 159 *) MProperty [] "once" Optional (Some TBoolean) None;
               (* 160 *) MProperty [] "passive" Optional (Some TBoolean) None;
               (* 161 *) MProperty [] "signal" Optional (Some (TRef ["AbortSignal"] [])) None];
  (* 165 *) DInterface [] "EventListener" [] []
              [(* 166 *) MCall [] [Param "evt" Required (TRef ["Event"] [])]
                           (Some (TUnion [TVoid; TRef ["Promise"] [TVoid]]))];
  (* 170 *) DInterface [] "EventListenerObject" [] []
              [(* 171 *) MMethod [] "handleEvent" Required []
                           [Param "evt" Required (TRef ["Event"] [])]
                           (Some (TUnion [TVoid; TRef ["Promise"] [TVoid]]))
                           None];
  (* 175 *) DTypeAlias [Ambient] "EventListenerOrEventListenerObject" []
              (TUnion [TRef ["EventListener"] []; TRef ["EventListenerObject"] []]);
  (* 178 *) DNamespace [Export; Ambient] "Deno" Deno;
  (* 4633 *) DModule [Ambient] "@deno/shim-deno/test-internals" test_internals
].

(** ** Queries over the declarations *)

Definition modifier_eqb (a b : modifier) : bool :=
  match a, b with
  | Export, Export | Ambient, Ambient | Static, Static | Readonly, Readonly => true
  | _, _ => false
  end.

Definition has_mod (m : modifier) (ms : list modifier) : bool :=
  existsb (modifier_eqb m) ms.

Definition is_optional (p : presence) : bool :=
  match p with Optional => true | _ => false end.

Definition decl_name (d : decl) : string :=
  match d with
  | DImport _ from => from
  | DStatement _ => ""
  | DConst _ n _ _ | DFunction _ n _ _ _ _ | DClass _ n _ _ _ _ | DInterface _ n _ _ _
  | DTypeAlias _ n _ _ | DEnum _ n _ | DNamespace _ n _ | DModule _ n _ => n
  end.

Definition decl_mods (d : decl) : list modifier :=
  match d with
  | DImport _ _ | DStatement _ => []
  | DConst m _ _ _ | DFunction m _ _ _ _ _ | DClass m _ _ _ _ _ | DInterface m _ _ _ _
  | DTypeAlias m _ _ _ | DEnum m _ _ | DNamespace m _ _ | DModule m _ _ => m
  end.

(** A call shape: type parameters, parameters, declared result. *)
Record signature := Sig {
  sig_tparams : list tparam;
  sig_params : list param;
  sig_ret : option ty
}.

(** The overloads of the function [f] among [ds], in source order. *)
Definition functions (f : string) (ds : list decl) : list signature :=
  flat_map (fun d => match d with
                     | DFunction _ n tps ps r _ => if n =? f then [Sig tps ps r] else []
                     | _ => []
                     end) ds.

Definition function_names (ds : list decl) : list string :=
  flat_map (fun d => match d with DFunction _ n _ _ _ _ => [n] | _ => [] end) ds.

(** Interfaces of one name merge: the members of [n] are those of all its declarations. *)
Definition interface_members (n : string) (ds : list decl) : list member :=
  flat_map (fun d => match d with
                     | DInterface _ m _ _ ms => if m =? n then ms else []
                     | _ => []
                     end) ds.

Definition interface_extends (n : string) (ds : list decl) : list ty :=
  flat_map (fun d => match d with
                     | DInterface _ m _ ext _ => if m =? n then ext else []
                     | _ => []
                     end) ds.

Definition interface_names (ds : list decl) : list string :=
  nodup string_dec
    (flat_map (fun d => match d with DInterface _ n _ _ _ => [n] | _ => [] end) ds).

Record class := Class {
  c_name : string;
  c_extends : option ty;
  c_implements : list ty;
  c_members : list member
}.

Definition classes (ds : list decl) : list class :=
  flat_map (fun d => match d with
                     | DClass _ n _ e i ms => [Class n e i ms]
                     | _ => []
                     end) ds.

Definition find_class (n : string) (ds : list decl) : option class :=
  find (fun c => c_name c =? n) (classes ds).

Definition class_members (n : string) (ds : list decl) : list member :=
  match find_class n ds with Some c => c_members c | None => [] end.

Definition type_alias (n : string) (ds : list decl) : option ty :=
  match flat_map (fun d => match d with
                           | DTypeAlias _ m _ t => if m =? n then [t] else []
                           | _ => []
                           end) ds with
  | t :: _ => Some t
  | [] => None
  end.

Definition enum_members (n : string) (ds : list decl) : option (list (string * option expr)) :=
  match flat_map (fun d => match d with
                           | DEnum _ m ms => if m =? n then [ms] else []
                           | _ => []
                           end) ds with
  | ms :: _ => Some ms
  | [] => None
  end.

Definition const_type (n : string) (ds : list decl) : option ty :=
  match flat_map (fun d => match d with
                           | DConst _ m t _ => if m =? n then [t] else []
                           | _ => []
                           end) ds with
  | t :: _ => t
  | [] => None
  end.

(** What the namespace [n] of [ds] declares. *)
Definition namespace_body (n : string) (ds : list decl) : list decl :=
  flat_map (fun d => match d with
                     | DNamespace _ m body => if m =? n then body else []
                     | _ => []
                     end) ds.

Definition member_name (m : member) : string :=
  match m with
  | MProperty _ n _ _ _ | MMethod _ n _ _ _ _ _ | MGetter _ n _ _ | MSetter _ n _ _ => n
  | MConstructor _ _ => "constructor"
  | MCall _ _ _ => "()"
  | MIndex _ _ _ _ => "[]"
  end.

Definition members_named (n : string) (ms : list member) : list member :=
  filter (fun m => member_name m =? n) ms.

(** The members declared under the name [n], as an interface or as a class. *)
Definition declared_members (n : string) (ds : list decl) : list member :=
  interface_members n ds ++ class_members n ds.

(** The overloads of the method [n] among the members [ms]. *)
Definition methods (n : string) (ms : list member) : list signature :=
  flat_map (fun m => match m with
                     | MMethod _ k _ tps ps r _ => if k =? n then [Sig tps ps r] else []
                     | _ => []
                     end) ms.

Definition method_names (ms : list member) : list string :=
  flat_map (fun m => match m with MMethod _ k _ _ _ _ _ => [k] | _ => [] end) ms.

Definition is_property (m : member) : bool :=
  match m with MProperty _ _ _ _ _ => true | _ => false end.

(** The members of an object type, of an intersection with an object type, or nothing. *)
Definition object_members (t : ty) : list member :=
  match t with
  | TObject ms => ms
  | TIntersection ts =>
      flat_map (fun u => match u with TObject ms => ms | _ => [] end) ts
  | _ => []
  end.

(** [Promise<T>] resolves to [T]; any other type is its own result. *)
Definition awaited (t : ty) : ty :=
  match t with
  | TRef [p] [u] => if p =? "Promise" then u else t
  | _ => t
  end.

(** Names are resolved inside the namespace: [Deno.X] and [X] denote the same declaration. *)
Definition local_name (q : list string) : option string :=
  match q with
  | [x] => Some x
  | [ns; x] => if ns =? "Deno" then Some x else None
  | _ => None
  end.

(** ** Traversals *)

Definition opt_types {T A : Type} (f : T -> list A) (o : option T) : list A :=
  match o with Some t => f t | None => [] end.

Definition param_types_ {T A : Type} (f : T -> list A) (p : param_ T) : list A :=
  f (p_type p).

Definition tparam_types_ {T A : Type} (f : T -> list A) (tp : tparam_ T) : list A :=
  opt_types f (tp_constraint tp) ++ opt_types f (tp_default tp).

(** The types written in a member, each mapped through [f]. *)
Definition member_types_ {T A : Type} (f : T -> list A) (m : member_ T) : list A :=
  match m with
  | MProperty _ _ _ t _ => opt_types f t
  | MMethod _ _ _ tps ps r _ =>
      flat_map (tparam_types_ f) tps ++ flat_map (param_types_ f) ps ++ opt_types f r
  | MGetter _ _ r _ => opt_types f r
  | MSetter _ _ a _ => param_types_ f a
  | MConstructor ps _ => flat_map (param_types_ f) ps
  | MCall tps ps r =>
      flat_map (tparam_types_ f) tps ++ flat_map (param_types_ f) ps ++ opt_types f r
  | MIndex _ _ k v => f k ++ f v
  end.

(** A type together with every type written inside it, outermost first. *)
Fixpoint subtypes (t : ty) : list ty :=
  t :: match t with
       | TRef _ args => flat_map subtypes args
       | TArray u | TRest u | TReadonly u => subtypes u
       | TTuple ts | TUnion ts | TIntersection ts => flat_map subtypes ts
       | TObject ms => flat_map (member_types_ subtypes) ms
       | TFunction tps ps r =>
           flat_map (tparam_types_ subtypes) tps ++ flat_map (param_types_ subtypes) ps
           ++ subtypes r
       | TIndexed a b => subtypes a ++ subtypes b
       | TConditional a b c d => subtypes a ++ subtypes b ++ subtypes c ++ subtypes d
       | TImport _ _ args => flat_map subtypes args
       | _ => []
       end.

Definition member_types (m : member) : list ty := member_types_ (fun t => [t]) m.

(** The qualified names a type refers to, at any depth. *)
Definition ty_refs (t : ty) : list (list string) :=
  flat_map (fun u => match u with
                     | TRef n _ | TTypeof n | TImport _ n _ => [n]
                     | _ => []
                     end) (subtypes t).

(** [t] refers to the declaration [n], written [n] or [Deno.n]. *)
Definition mentions (n : string) (t : ty) : bool :=
  existsb (fun q => match local_name q with Some x => x =? n | None => false end)
          (ty_refs t).

(** A declaration followed by whatever is declared inside it (namespaces and modules). *)
Fixpoint decl_deep (d : decl) : list decl :=
  d :: match d with
       | DNamespace _ _ body | DModule _ _ body => flat_map decl_deep body
       | _ => []
       end.

Definition decls_deep (ds : list decl) : list decl := flat_map decl_deep ds.

Definition decl_members (d : decl) : list member :=
  match d with
  | DClass _ _ _ _ _ ms | DInterface _ _ _ _ ms => ms
  | _ => []
  end.

(** The types written directly in a declaration: annotations, heritage clauses, the types of
    its members. *)
Definition decl_types (d : decl) : list ty :=
  match d with
  | DConst _ _ t _ => opt_types (fun t => [t]) t
  | DFunction _ _ tps ps r _ =>
      flat_map (tparam_types_ (fun t => [t])) tps ++ map p_type ps ++ opt_types (fun t => [t]) r
  | DClass _ _ tps e i ms =>
      flat_map (tparam_types_ (fun t => [t])) tps ++ opt_types (fun t => [t]) e ++ i
      ++ flat_map member_types ms
  | DInterface _ _ tps e ms =>
      flat_map (tparam_types_ (fun t => [t])) tps ++ e ++ flat_map member_types ms
  | DTypeAlias _ _ tps t => flat_map (tparam_types_ (fun t => [t])) tps ++ [t]
  | _ => []
  end.

(** Every type written anywhere below the declarations [ds]. *)
Definition all_types (ds : list decl) : list ty :=
  flat_map subtypes (flat_map decl_types (decls_deep ds)).

(** Every member below [ds]: those of classes and interfaces and those of object types. *)
Definition all_members (ds : list decl) : list member :=
  flat_map decl_members (decls_deep ds)
  ++ flat_map (fun t => match t with TObject ms => ms | _ => [] end) (all_types ds).

(** The parameters written in a member or in a type: those of methods, constructors, setters,
    call signatures and function types. *)
Definition member_params (m : member) : list param :=
  match m with
  | MMethod _ _ _ _ ps _ _ | MConstructor ps _ | MCall _ ps _ => ps
  | MSetter _ _ a _ => [a]
  | _ => []
  end.

Definition decl_params (d : decl) : list param :=
  match d with DFunction _ _ _ ps _ _ => ps | _ => [] end.

(** Every parameter below [ds], whatever declares it. *)
Definition all_params (ds : list decl) : list param :=
  flat_map decl_params (decls_deep ds)
  ++ flat_map member_params (all_members ds)
  ++ flat_map (fun t => match t with TFunction _ ps _ => ps | _ => [] end) (all_types ds).

(** ** Names *)

Definition lower_ascii (c : Ascii.ascii) : Ascii.ascii :=
  let n := Ascii.nat_of_ascii c in
  if Nat.leb 65 n && Nat.leb n 90 then Ascii.ascii_of_nat (n + 32) else c.

Fixpoint lower (s : string) : string :=
  match s with
  | EmptyString => EmptyString
  | String c r => String (lower_ascii c) (lower r)
  end.

(** [contains sub s]: [sub] occurs in [s]. *)
Fixpoint contains (sub s : string) : bool :=
  prefix sub s || match s with
                  | EmptyString => false
                  | String _ r => contains sub r
                  end.

Definition ends_with (suffix s : string) : bool :=
  let n := String.length s in
  let k := String.length suffix in
  Nat.leb k n && (substring (n - k) k s =? suffix).

(** A name uses a word of the vocabulary [ws], whatever the case. *)
Definition uses_word (ws : list string) (n : string) : bool :=
  existsb (fun w => contains w (lower n)) ws.

(** ** What an operation takes

    The shapes reachable from the parameters of the operations: starting from the parameter
    types, follow every reference to an interface, class or type alias of [ds], through the
    types of its properties and of the parameters of its methods. *)

Definition member_input_types (m : member) : list ty :=
  match m with
  | MProperty _ _ _ t _ => opt_types (fun t => [t]) t
  | MIndex _ _ _ v => [v]
  | _ => map p_type (member_params m)
  end.

Definition local_refs (ts : list ty) : list string :=
  flat_map (fun t => flat_map (fun q => match local_name q with
                                        | Some x => [x]
                                        | None => []
                                        end) (ty_refs t)) ts.

(** What the declarations named [n] extend or implement. *)
Definition heritage (n : string) (ds : list decl) : list ty :=
  interface_extends n ds
  ++ match find_class n ds with
     | Some c => opt_types (fun t => [t]) (c_extends c) ++ c_implements c
     | None => []
     end.

(** The types written in the declarations named [n]. *)
Definition named_types (n : string) (ds : list decl) : list ty :=
  heritage n ds
  ++ flat_map member_input_types (interface_members n ds ++ class_members n ds)
  ++ match type_alias n ds with Some t => [t] | None => [] end.

(** Where an operation is generic, its parameter ranges over the bound of the type
    parameter: [run<T extends RunOptions>(opt: T)] takes a [RunOptions]. *)
Definition decl_bounds (d : decl) : list ty :=
  match d with
  | DFunction _ _ tps _ _ _ => flat_map (tparam_types_ (fun t => [t])) tps
  | _ => []
  end.

Definition taken_types (ds : list decl) : list ty :=
  map p_type (all_params ds) ++ flat_map decl_bounds (decls_deep ds).

Definition is_declared (n : string) (ds : list decl) : bool :=
  existsb (fun d => match d with
                    | DInterface _ m _ _ _ | DClass _ m _ _ _ _ | DTypeAlias _ m _ _ => m =? n
                    | _ => false
                    end) ds.

Definition mem (n : string) (l : list string) : bool := existsb (String.eqb n) l.

Fixpoint reach (fuel : nat) (ds : list decl) (seen todo : list string) : list string :=
  match fuel with
  | 0 => seen
  | S k =>
      match todo with
      | [] => seen
      | n :: rest =>
          if mem n seen || negb (is_declared n ds) then reach k ds seen rest
          else reach k ds (seen ++ [n]) (rest ++ local_refs (named_types n ds))
      end
  end.

(** The declared shapes the operations below [ds] take, resolved among [scope]. *)
Definition input_shapes (scope ds : list decl) : list string :=
  reach 4000 scope [] (local_refs (taken_types ds)).

(** [l] is closed under [named_types]: the search above ran to its end. *)
Definition closed_shapes (scope : list decl) (l : list string) : bool :=
  forallb (fun n => forallb (fun r => mem r l || negb (is_declared r scope))
                            (local_refs (named_types n scope))) l.

(** The fields an operation can be given: those of the shapes it takes and those of the object
    types written in place. *)
Definition input_fields (scope ds : list decl) : list member :=
  let shapes := input_shapes scope ds in
  let ts := taken_types ds ++ flat_map (fun n => named_types n scope) shapes in
  filter is_property (flat_map (fun n => interface_members n scope ++ class_members n scope) shapes)
  ++ flat_map (fun t => match t with TObject ms => ms | _ => [] end) (flat_map subtypes ts).

(** Every name under which an operation below [ds] receives something. *)
Definition input_names (scope ds : list decl) : list string :=
  nodup string_dec (map p_name (all_params ds) ++ map member_name (input_fields scope ds)).

(** ** Heritage *)

Definition is_interface (n : string) (ds : list decl) : bool :=
  existsb (fun d => match d with DInterface _ m _ _ _ => m =? n | _ => false end) ds.

(** The interfaces that [n] extends, by name. *)
Definition parents (ds : list decl) (n : string) : list string :=
  nodup string_dec
        (flat_map (fun t => match t with
                            | TRef q _ => match local_name q with
                                          | Some x => if is_interface x ds then [x] else []
                                          | None => []
                                          end
                            | _ => []
                            end) (interface_extends n ds)).

(** The interfaces [n] inherits from, nearest first. *)
Fixpoint ancestors (fuel : nat) (ds : list decl) (n : string) : list string :=
  match fuel with
  | 0 => []
  | S k => parents ds n ++ flat_map (ancestors k ds) (parents ds n)
  end.

(** The members of [n], its own first and then those it inherits. *)
Definition inherited_members (fuel : nat) (ds : list decl) (n : string) : list member :=
  interface_members n ds
  ++ flat_map (fun p => interface_members p ds) (nodup string_dec (ancestors fuel ds n)).

(** All of them: a chain of [extends] clauses without cycle is no longer than the list of
    declarations. *)
Definition resolved_members (ds : list decl) (n : string) : list member :=
  inherited_members (length ds) ds n.

(** ** Object types *)

Definition literals_of (t : ty) : list string :=
  match t with
  | TStringLit s => [s]
  | TUnion ts => flat_map (fun u => match u with TStringLit s => [s] | _ => [] end) ts
  | _ => []
  end.

(** [Omit<T, K>]: the members of [T] but those named in [K]. *)
Definition without (ks : list string) (ms : list member) : list member :=
  filter (fun m => negb (mem (member_name m) ks)) ms.

Definition is_Omit (q : list string) : bool :=
  match q with [o] => o =? "Omit" | _ => false end.

Definition is_Array (q : list string) : bool :=
  match q with [o] => (o =? "Array") || (o =? "ReadonlyArray") | _ => false end.

Definition is_Record (q : list string) : bool :=
  match q with [o] => o =? "Record" | _ => false end.

(** The object type that [t] denotes, as the member lists of its parts: one part for an
    object type written in place, for an interface, with what it inherits, and for an
    [Omit] of an interface; the parts of all the constituents for an intersection of such
    types.  Other types denote no object type. *)
Fixpoint object_parts (ds : list decl) (t : ty) : option (list (list member)) :=
  match t with
  | TObject ms => Some [ms]
  | TRef q [] =>
      match local_name q with
      | Some n => if is_interface n ds then Some [resolved_members ds n] else None
      | None => None
      end
  | TRef q [TRef r []; ks] =>
      match local_name r with
      | Some n => if is_Omit q && is_interface n ds
                  then Some [without (literals_of ks) (resolved_members ds n)] else None
      | None => None
      end
  | TIntersection ts =>
      fold_right (fun u acc => match object_parts ds u, acc with
                               | Some p, Some a => Some (p ++ a)
                               | _, _ => None
                               end) (Some []) ts
  | _ => None
  end.

Definition optional_member (m : member) : bool :=
  match m with
  | MProperty _ _ pr _ _ | MMethod _ _ pr _ _ _ _ => is_optional pr
  | _ => false
  end.

(** A weak type has members and all of them are optional. *)
Definition is_weak (ms : list member) : bool :=
  match ms with [] => false | _ :: _ => forallb optional_member ms end.

(** ** Values

    The values are data: primitives, arrays and objects with their properties; an object
    is built by a constructor, [Object] for an object written as a literal, the class for an
    instance, which has the properties of its class besides the ones listed.  Functions are
    no data. *)

Inductive value :=
| VUndefined
| VNull
| VBool (b : bool)
| VNum (n : Z)
| VBigint (n : Z)
| VStr (s : string)
| VArray (items : list value)
| VObject (constructor : string) (props : list (string * value)).

Fixpoint get (k : string) (props : list (string * value)) : option value :=
  match props with
  | [] => None
  | (n, v) :: rest => if n =? k then Some v else get k rest
  end.

Definition is_undefined (v : value) : bool :=
  match v with VUndefined => true | _ => false end.

(** The numbers of the members of an enum. *)
Definition enum_values (ms : list (string * option expr)) : list Z :=
  flat_map (fun m => match snd m with Some (ENum z) => [z] | _ => [] end) ms.

(** ** What a type admits

    [admits fuel ds v t]: the value [v] may be given where the declarations [ds] ask for a
    [t], as the compiler decides it with [strictNullChecks] and without
    [exactOptionalPropertyTypes], for a value that is not written in place (no check for
    excess properties).  A value of an object type is an object whose properties are as the
    members declare them and which passes the check of weak types; where the type has no
    member, any value but [null] and [undefined] will do.  A numeric enum takes any
    number.  [Record<string, T>] takes the objects written as such whose properties are all
    of type [T].  A name that [ds] does not declare is a class from outside, such as [URL]:
    its values are its instances.  Promises, streams and iterators have no values among
    the data.  References are resolved with fuel. *)

(** A property of [props] is as the member [m] declares it: present with a value that [chk]
    accepts at the declared type, or absent where the member is optional; an optional
    property may also be present with the value [undefined].  A method is no data: it can
    only be absent, or undefined, where it is optional.  An index signature asks every
    property for its type. *)
Definition field_ok (chk : value -> ty -> bool) (props : list (string * value)) (m : member)
  : bool :=
  match m with
  | MProperty _ f pr (Some u) _ =>
      match get f props with
      | Some x => chk x u || (is_optional pr && is_undefined x)
      | None => is_optional pr
      end
  | MProperty _ f pr None _ =>
      match get f props with
      | Some _ => true
      | None => is_optional pr
      end
  | MMethod _ f pr _ _ _ _ =>
      match get f props with
      | Some x => is_optional pr && is_undefined x
      | None => is_optional pr
      end
  | MGetter _ f (Some u) _ =>
      match get f props with
      | Some x => chk x u
      | None => false
      end
  | MIndex _ _ _ u => forallb (fun p => chk (snd p) u) props
  | _ => false
  end.

(** The check of weak types: a value with properties is refused by a type whose parts are
    all weak when it has none of the properties the type knows. *)
Definition has_properties (c : string) (props : list (string * value)) : bool :=
  negb (c =? "Object") || match props with [] => false | _ :: _ => true end.

Definition shares_property (props : list (string * value)) (ms : list member) : bool :=
  existsb (fun p => mem (fst p) (map member_name ms)) props.

Definition weak_ok (parts : list (list member)) (c : string) (props : list (string * value))
  : bool :=
  negb (forallb is_weak parts) || negb (has_properties c props)
  || shares_property props (concat parts).

(** The elements of an array against the element types of a tuple; a rest element takes
    what is left. *)
Fixpoint tuple_ok (chk : value -> ty -> bool) (ts : list ty) (l : list value) : bool :=
  match ts, l with
  | [], [] => true
  | TRest (TArray u) :: _, _ => forallb (fun x => chk x u) l
  | t :: ts', x :: l' => chk x t && tuple_ok chk ts' l'
  | _, _ => false
  end.

(** One level: [chk] decides the values of the parts of [t]. *)
Definition admits_with (chk : value -> ty -> bool) (ds : list decl) (v : value) (t : ty)
  : bool :=
  match object_parts ds t with
  | Some parts =>
      match v with
      | VObject c props =>
          forallb (field_ok chk props) (concat parts) && weak_ok parts c props
      | VUndefined | VNull => false
      | _ => match concat parts with [] => true | _ :: _ => false end
      end
  | None =>
      match t with
      | TAny | TUnknown => true
      | TString => match v with VStr _ => true | _ => false end
      | TNumber => match v with VNum _ => true | _ => false end
      | TBigint => match v with VBigint _ => true | _ => false end
      | TBoolean => match v with VBool _ => true | _ => false end
      | TNull => match v with VNull => true | _ => false end
      | TUndefined | TVoid => is_undefined v
      | TStringLit s => match v with VStr x => x =? s | _ => false end
      | TNumberLit n => match v with VNum x => Z.eqb x n | _ => false end
      | TBooleanLit b => match v with VBool x => Bool.eqb x b | _ => false end
      | TUnion ts => existsb (chk v) ts
      | TIntersection ts => forallb (chk v) ts
      | TReadonly u => chk v u
      | TArray u => match v with VArray l => forallb (fun x => chk x u) l | _ => false end
      | TTuple ts => match v with VArray l => tuple_ok chk ts l | _ => false end
      | TRef q [u] =>
          if is_Array q
          then match v with VArray l => forallb (fun x => chk x u) l | _ => false end
          else false
      | TRef q [TString; u] =>
          if is_Record q
          then match v with
               | VObject c props => (c =? "Object") && forallb (fun p => chk (snd p) u) props
               | _ => false
               end
          else false
      | TRef q [] =>
          match local_name q with
          | None => false
          | Some n =>
              match enum_members n ds, type_alias n ds with
              | Some _, _ => match v with VNum _ => true | _ => false end
              | None, Some u => chk v u
              | None, None => match v with VObject c _ => c =? n | _ => false end
              end
          end
      | _ => false
      end
  end.

Fixpoint admits (fuel : nat) (ds : list decl) (v : value) (t : ty) : bool :=
  match fuel with
  | 0 => false
  | S k => admits_with (admits k ds) ds v t
  end.

(** ** The documented calls *)

(** The calls [Deno.f(...)] written in the code examples of the documentation comments: the
    source line of the call, the function called, whether the call is awaited, and the
    arguments.  An argument written with literals only is given as its value: strings,
    numbers, booleans, arrays and objects of such, and [new C()] as an instance of [C].  Any
    other argument, a variable, a function, a string with an escape sequence, or an object
    or array holding one of these, is left open. *)
Record call := Call {
  call_line : nat;
  call_fn : string;
  call_awaited : bool;
  call_given : list (option value)
}.

Definition call_args (c : call) : nat := length (call_given c).



(** ** Notions used by the specification *)

(** *** The documented examples *)


Definition is_required (p : param) : bool :=
  match p_presence p with Required => true | _ => false end.

Definition is_rest (p : param) : bool :=
  match p_presence p with Rest => true | _ => false end.

(** The parameters that a call gives arguments to: all but a leading [this], which declares
    the type of the receiver. *)
Definition call_params (s : signature) : list param :=
  match sig_params s with
  | p :: rest => if p_name p =? "this" then rest else p :: rest
  | [] => []
  end.

(** A call with [n] arguments fits the signature [s]: every required parameter receives one
    and no argument is left over. *)
Definition arity_fits (n : nat) (s : signature) : bool :=
  Nat.leb (length (filter is_required (call_params s))) n
  && (Nat.leb n (length (call_params s)) || existsb is_rest (call_params s)).

(** *** Error classes *)

Definition error_class_names : list string := map c_name (classes Deno_errors).

Definition has_own_members (c : class) : bool :=
  match c_members c with [] => false | _ :: _ => true end.

(** *** Permissions *)

(** The alternatives of the union [Deno.PermissionDescriptor], by interface name. *)
Definition permission_descriptor_kinds : list string :=
  match type_alias "PermissionDescriptor" Deno with
  | Some (TUnion ts) =>
      flat_map (fun t => match t with TRef [n] [] => [n] | _ => [] end) ts
  | _ => []
  end.

(** The literal type of the required [name] property of interface [i], when it has one. *)
Definition discriminant (i : string) : option string :=
  match members_named "name" (interface_members i Deno) with
  | [MProperty _ _ Required (Some (TStringLit s)) _] => Some s
  | _ => None
  end.

Definition Permissions_methods : list member := class_members "Permissions" Deno.

(** *** Asynchronous operations and their Sync variants *)

(** [s] is the synchronous form of [a]: same first parameter, and [a] returns [Promise<T>]
    where [s] returns [T]. *)
Definition sync_variant (a s : signature) : Prop :=
  exists (p : param) (T : ty),
    hd_error (sig_params a) = Some p /\ hd_error (sig_params s) = Some p /\
    sig_ret a = Some (TRef ["Promise"] [T]) /\ sig_ret s = Some T.

(** [path: string | URL] *)
Definition path_param : param := Param "path" Required (TUnion [TString; TRef ["URL"] []]).

Definition first_param (s : signature) : option param := hd_error (sig_params s).

(** The functions [f] of the namespace for which [fSync] is declared as well. *)
Definition paired_functions : list string :=
  filter (fun f => mem (f ++ "Sync") (function_names Deno))
         (nodup string_dec (function_names Deno)).

(** *** Declarations without code *)

(** A declaration carries code when it has a body or an initialiser, or is a statement. *)
Definition decl_code (d : decl) : bool :=
  match d with
  | DConst _ _ _ (Some _) | DFunction _ _ _ _ _ (Some _) | DStatement _ => true
  | _ => false
  end.

Definition member_code (m : member) : bool :=
  match m with
  | MProperty _ _ _ _ (Some _) | MMethod _ _ _ _ _ _ (Some _) | MGetter _ _ _ (Some _)
  | MSetter _ _ _ (Some _) | MConstructor _ (Some _) => true
  | _ => false
  end.

(** A constant or function states its type; other declarations have none to state. *)
Definition decl_typed (d : decl) : bool :=
  match d with
  | DConst _ _ None _ | DFunction _ _ _ _ None _ => false
  | _ => true
  end.

(** A member states its type: the type of a property, the result of a method, of a getter or
    of a call signature.  Constructors, setters and index signatures have no result to
    state. *)
Definition member_typed (m : member) : bool :=
  match m with
  | MProperty _ _ _ None _ | MMethod _ _ _ _ _ None _ | MGetter _ _ None _ | MCall _ _ None =>
      false
  | _ => true
  end.

(** The expressions of a declaration: its initialiser, those of its enum members. *)
Definition decl_exprs (d : decl) : list expr :=
  match d with
  | DConst _ _ _ (Some e) => [e]
  | DEnum _ _ ms => flat_map (fun m => match snd m with Some e => [e] | None => [] end) ms
  | _ => []
  end.

(** *** Cancellation, scheduling, locking *)

Definition cancellation_words : list string := ["abort"; "cancel"; "timeout"; "deadline"].

Definition scheduling_words : list string :=
  ["sched"; "priorit"; "queue"; "throttle"; "concurren"].

Definition locking_words : list string := ["lock"; "mutex"; "semaphore"].

(** A type carries an abort signal when it refers to [AbortSignal] or [AbortController]. *)
Definition abort_type (t : ty) : bool :=
  mentions "AbortSignal" t || mentions "AbortController" t.

Definition abort_member (m : member) : bool := existsb abort_type (member_types m).

(** The optional field [signal?: AbortSignal]. *)
Definition signal_field : member :=
  MProperty [] "signal" Optional (Some (TRef ["AbortSignal"] [])) None.

(** The interfaces and classes below [ds] with a member that carries an abort signal, each
    with those members. *)
Definition abort_shapes (ds : list decl) : list (string * list member) :=
  flat_map (fun d => match filter abort_member (decl_members d) with
                     | [] => []
                     | ms => [(decl_name d, ms)]
                     end) (decls_deep ds).

(** The functions of [ds] with a parameter whose type refers to one of [shapes]. *)
Definition functions_taking (shapes : list string) (ds : list decl) : list string :=
  nodup string_dec
    (flat_map (fun d => match d with
                        | DFunction _ n _ ps _ _ =>
                            if existsb (fun p => existsb (fun s => mentions s (p_type p)) shapes) ps
                            then [n] else []
                        | _ => []
                        end) ds).

(** *** Record shapes *)

(** The operations below [ds], each under its name: the functions, and the methods,
    constructors, setters and call signatures of classes, interfaces and object types. *)
Definition operations (ds : list decl) : list (string * signature) :=
  flat_map (fun d => match d with
                     | DFunction _ n tps ps r _ => [(n, Sig tps ps r)]
                     | _ => []
                     end) (decls_deep ds)
  ++ flat_map (fun m => match m with
                        | MMethod _ n _ tps ps r _ => [(n, Sig tps ps r)]
                        | MConstructor ps _ => [("constructor", Sig [] ps None)]
                        | MSetter _ n a _ => [(n, Sig [] [a] None)]
                        | MCall tps ps r => [("()", Sig tps ps r)]
                        | _ => []
                        end) (all_members ds).

(** What a parameter of type [t] ranges over: the constraint, where [t] is a type parameter
    of the signature, as in [run<T extends RunOptions>(opt: T)]. *)
Definition ranged (tps : list tparam) (t : ty) : ty :=
  match t with
  | TRef [x] [] =>
      match filter (fun tp => tp_name tp =? x) tps with
      | tp :: _ => match tp_constraint tp with Some b => b | None => t end
      | [] => t
      end
  | _ => t
  end.

(** The name a shape is declared under; none for a type written in place. *)
Definition shape_name (t : ty) : string :=
  match t with TRef q _ => last q "" | _ => "" end.

(** The object types that a value of type [t] may be of: the one [t] denotes, those of the
    alternatives of a union, of the elements of an array, of what an alias stands for. *)
Fixpoint denoted (fuel : nat) (ds : list decl) (t : ty) : list (string * list member) :=
  match fuel with
  | 0 => []
  | S k =>
      match object_parts ds t with
      | Some parts => [(shape_name t, concat parts)]
      | None =>
          match t with
          | TUnion ts => flat_map (denoted k ds) ts
          | TArray u | TReadonly u => denoted k ds u
          | TRef q [] =>
              match local_name q with
              | Some n => match type_alias n ds with
                          | Some u => denoted k ds u
                          | None => []
                          end
              | None => []
              end
          | _ => []
          end
      end
  end.

(** The shapes that the operations below [ds] take as parameters, each with the operation
    and the parameter. *)
Definition taken_shapes (ds : list decl) : list (string * string * (string * list member)) :=
  flat_map (fun o =>
              flat_map (fun p => map (fun x => (fst o, p_name p, x))
                                     (denoted 4 ds (ranged (sig_tparams (snd o)) (p_type p))))
                       (sig_params (snd o)))
           (operations ds).

(** The shapes given inside a shape, as the value of one of its properties. *)
Definition nested_shapes (ds : list decl) (ms : list member) : list (string * list member) :=
  flat_map (fun m => match m with
                     | MProperty _ _ _ (Some t) _ => denoted 4 ds t
                     | _ => []
                     end) ms.

(** All the shapes given to the operations of the namespace, nested ones included. *)
Definition given_shapes : list (string * list member) :=
  let direct := map snd (taken_shapes Deno) in
  direct ++ flat_map (fun s => nested_shapes Deno (snd s)) direct.

(** A record has properties and nothing else. *)
Definition is_record (ms : list member) : bool := forallb is_property ms.

Definition given_records : list (string * list member) :=
  filter (fun s => is_record (snd s)) given_shapes.

Definition is_function_type (t : ty) : bool :=
  match t with TFunction _ _ _ => true | _ => false end.

(** A plain field: a property without modifier or initialiser whose type is not a function. *)
Definition plain_field (m : member) : bool :=
  match m with
  | MProperty [] _ _ (Some t) None => negb (is_function_type t)
  | _ => false
  end.

Definition plain_shape (ms : list member) : bool := forallb plain_field ms.

(** The type of the test function. *)
Definition test_function : ty :=
  TFunction [] [Param "t" Required (TRef ["TestContext"] [])]
            (TUnion [TVoid; TRef ["Promise"] [TVoid]]).

(** Primitive types: the primitive keywords, literal types, and unions of these. *)
Fixpoint is_primitive (t : ty) : bool :=
  match t with
  | TNumber | TString | TBoolean | TBigint | TNull | TUndefined | TUniqueSymbol
  | TStringLit _ | TNumberLit _ | TBooleanLit _ => true
  | TUnion ts => forallb is_primitive ts
  | _ => false
  end.

(** [string | URL], the type of a path. *)
Definition is_path_type (t : ty) : bool :=
  match t with
  | TUnion [TString; TRef ["URL"] []] => true
  | _ => false
  end.

(** A permission descriptor is a literal [name] followed by optional fields whose types
    satisfy [ok]. *)
Definition descriptor_shape (ok : ty -> bool) (i : string) : bool :=
  match interface_members i Deno with
  | MProperty [] "name" Required (Some (TStringLit _)) None :: fields =>
      forallb (fun m => match m with
                        | MProperty [] _ Optional (Some t) None => ok t
                        | _ => false
                        end) fields
  | _ => false
  end.

(** *** Resources *)

(** The interfaces and classes of the namespace that declare a member named [rid]. *)
Definition resource_types : list string :=
  map decl_name
      (filter (fun d => existsb (fun m => member_name m =? "rid") (decl_members d)) Deno).

(** The declared types at the head of the types [ts]. *)
Definition declared_heads (ts : list ty) : list string :=
  flat_map (fun t => match t with
                     | TRef q _ => match local_name q with
                                   | Some x => if is_declared x Deno then [x] else []
                                   | None => []
                                   end
                     | _ => []
                     end) ts.

Definition stream_constants : list string := ["stdin"; "stdout"; "stderr"].

(** The parts of the type of the constant [c]. *)
Definition constant_parts (c : string) : list ty :=
  match const_type c Deno with
  | Some (TIntersection ts) => ts
  | Some t => [t]
  | None => []
  end.

(** The types under which an open resource is given: the resource types, what they extend
    or implement, the interfaces that the types of the standard streams list, and the
    interfaces that inherit from a resource type. *)
Definition resource_shapes : list string :=
  nodup string_dec
        (resource_types
         ++ flat_map (fun n => declared_heads (heritage n Deno)) resource_types
         ++ flat_map (fun c => declared_heads (constant_parts c)) stream_constants
         ++ filter (fun n => existsb (fun r => mem r (ancestors (length Deno) Deno n))
                                     resource_types)
                   (interface_names Deno)).

(** The functions of the namespace with a parameter whose type refers to one of them. *)
Definition functions_of_resources : list string := functions_taking resource_shapes Deno.

Definition rid_members (ms : list member) : list member := members_named "rid" ms.

Definition rid_property : member := MProperty [Readonly] "rid" Required (Some TNumber) None.

Definition rid_param : param := Param "rid" Required TNumber.

Definition takes_rid (s : signature) : bool :=
  existsb (fun p => p_name p =? "rid") (sig_params s).

(** The functions of the namespace with a parameter named [rid]. *)
Definition rid_functions : list string :=
  filter (fun f => existsb takes_rid (functions f Deno))
         (nodup string_dec (function_names Deno)).

(** Types that name a target otherwise than by number: a path, a string, or a type under
    which a resource is given. *)
Definition names_a_target (t : ty) : bool :=
  existsb (fun u => match u with
                    | TString | TStringLit _ => true
                    | TRef q _ => match local_name q with
                                  | Some n => mem n ("URL" :: resource_shapes)
                                  | None => false
                                  end
                    | _ => false
                    end) (subtypes t).

(** [s] identifies its target by a leading [rid: number] and by nothing else. *)
Definition rid_only (s : signature) : bool :=
  match sig_params s with
  | Param "rid" Required TNumber :: rest =>
      forallb (fun p => negb (p_name p =? "rid") && negb (names_a_target (p_type p))) rest
  | _ => false
  end.

(** Every declaration of the file, as the scope in which names are resolved. *)
Definition file_scope : list decl := decls_deep shim_deno_lib.

(** *** The statements to settle *)

(** The shapes below [ds] that carry an abort signal are ReadFileOptions, WriteFileOptions and
    ResolveDnsOptions, and no other. *)
Definition only_three_abort_shapes (ds : list decl) : Prop :=
  map fst (abort_shapes ds) = ["ReadFileOptions"; "WriteFileOptions"; "ResolveDnsOptions"].

(** Every permission descriptor is a literal [name] followed by optional fields whose types
    satisfy [ok]. *)
Definition descriptors_with_fields (ok : ty -> bool) : Prop :=
  Forall (fun i => descriptor_shape ok i = true) permission_descriptor_kinds.

Definition primitive_or_path (t : ty) : bool := is_primitive t || is_path_type t.

(** *** Descriptors as values *)

Definition PermissionDescriptor : ty := TRef ["Deno"; "PermissionDescriptor"] [].

Definition PermissionState : ty := TRef ["Deno"; "PermissionState"] [].

Definition PermissionStatus : ty := TRef ["PermissionStatus"] [].

Definition SeekMode : ty := TRef ["Deno"; "SeekMode"] [].

(** [d] is of the one kind [k]: it carries the literal of [k] under [name], is admitted by the
    interface [k] and to no other alternative of the union. *)
Definition of_one_kind (fuel : nat) (d : value) (k : string) : Prop :=
  exists lit c props,
    In k permission_descriptor_kinds /\ discriminant k = Some lit /\
    d = VObject c props /\ get "name" props = Some (VStr lit) /\
    admits fuel Deno d (TRef [k] []) = true /\
    forall f' k', In k' permission_descriptor_kinds ->
                  admits f' Deno d (TRef [k'] []) = true -> k' = k.

(** The method [m] of [Permissions] has one signature, takes [d] as its only argument and
    results in a [PermissionStatus], at once or as a promise. *)
Definition accepts (fuel : nat) (d : value) (m : string) : Prop :=
  exists p r,
    methods m Permissions_methods = [Sig [] [p] (Some r)] /\
    admits fuel Deno d (p_type p) = true /\
    awaited r = PermissionStatus.

(** A net descriptor and a read descriptor whose path is a [URL] object. *)
Definition net_descriptor : value :=
  VObject "Object" [("name", VStr "net"); ("host", VStr "deno.land:443")].

Definition read_url_descriptor : value :=
  VObject "Object" [("name", VStr "read"); ("path", VObject "URL" [])].

Definition is_primitive_value (v : value) : bool :=
  match v with VObject _ _ => false | _ => true end.

(** *** The arguments of the documented calls *)

Definition is_index (m : member) : bool :=
  match m with MIndex _ _ _ _ => true | _ => false end.

(** What the members [ms] say of a property [k]: its type, where they declare it as a
    property with a type; that it is known, where they declare it otherwise or have an
    index signature; nothing. *)
Definition known_property (ms : list member) (k : string) : option (option ty) :=
  match members_named k ms with
  | MProperty _ _ _ u _ :: _ => Some u
  | _ :: _ => Some None
  | [] => if existsb is_index ms then Some None else None
  end.

(** An object written in place, as the literal arguments of the examples are, may only have
    properties that the type it is written for knows, and so for the objects written inside
    it.  For a union, one alternative that admits the value must know all its
    properties: this asks more than the compiler, which looks for a property in all the
    alternatives when no property discriminates them.  An object type without members
    takes any property, and the instance of a class is not written in place. *)
Fixpoint no_excess (fuel : nat) (ds : list decl) (v : value) (t : ty) : bool :=
  match fuel with
  | 0 => false
  | S k =>
      match object_parts ds t with
      | Some parts =>
          match v, concat parts with
          | VObject c props, m :: ms =>
              negb (c =? "Object")
              || forallb (fun p => match known_property (m :: ms) (fst p) with
                                   | Some (Some u) => no_excess k ds (snd p) u
                                   | Some None => true
                                   | None => false
                                   end) props
          | _, _ => true
          end
      | None =>
          match t with
          | TUnion ts => existsb (fun u => admits (S k) ds v u && no_excess k ds v u) ts
          | TIntersection ts => forallb (no_excess k ds v) ts
          | TReadonly u => no_excess k ds v u
          | TArray u =>
              match v with VArray l => forallb (fun x => no_excess k ds x u) l | _ => true end
          | TTuple ts =>
              match v with VArray l => tuple_ok (no_excess k ds) ts l | _ => true end
          | TRef q [u] =>
              if is_Array q
              then match v with VArray l => forallb (fun x => no_excess k ds x u) l | _ => true end
              else true
          | TRef q [] =>
              match local_name q with
              | Some n => match type_alias n ds with
                          | Some u => no_excess k ds v u
                          | None => true
                          end
              | None => true
              end
          | _ => true
          end
      end
  end.

(** Fuel for the types of the parameters: none is nested deeper. *)
Definition depth : nat := 12.

(** The value [v] may be written for a parameter of type [t]. *)
Definition value_fits (ds : list decl) (v : value) (t : ty) : bool :=
  admits depth ds v t && no_excess depth ds v t.

(** An argument fits the parameter [p] of a signature with the type parameters [tps]: an
    argument left open is not judged; [undefined] may be given for an optional parameter;
    a type parameter takes what its constraint takes. *)
Definition argument_fits (ds : list decl) (tps : list tparam) (a : option value) (p : param)
  : bool :=
  match a with
  | None => true
  | Some v => (is_optional (p_presence p) && is_undefined v)
              || value_fits ds v (ranged tps (p_type p))
  end.

(** The arguments against the parameters, in order; a rest parameter takes all that are
    left, each as an element of its array. *)
Fixpoint arguments_fit (ds : list decl) (tps : list tparam) (given : list (option value))
         (ps : list param) : bool :=
  match given, ps with
  | [], _ => true
  | a :: given', p :: ps' =>
      if is_rest p
      then match p_type p with
           | TArray u => forallb (fun b => match b with
                                           | Some v => value_fits ds v (ranged tps u)
                                           | None => true
                                           end) given
           | _ => true
           end
      else argument_fits ds tps a p && arguments_fit ds tps given' ps'
  | _ :: _, [] => false
  end.

(** The form [s] takes the call [c]: in the number of the arguments and in the type of each
    literal one. *)
Definition takes (ds : list decl) (c : call) (s : signature) : bool :=
  arity_fits (call_args c) s
  && arguments_fit ds (sig_tparams s) (call_given c) (call_params s).

(** The form that the call resolves to: the first that takes it. *)
Definition resolves_to (ds : list decl) (c : call) : option signature :=
  find (takes ds c) (functions (call_fn c) ds).








(** ** Further notions: signatures, names, heritage *)

(** *** Every signature of the file *)

Definition member_signatures (m : member) : list signature :=
  match m with
  | MMethod _ _ _ tps ps r _ | MCall tps ps r => [Sig tps ps r]
  | MConstructor ps _ => [Sig [] ps None]
  | MSetter _ _ a _ => [Sig [] [a] None]
  | _ => []
  end.

Definition decl_signatures (d : decl) : list signature :=
  match d with DFunction _ _ tps ps r _ => [Sig tps ps r] | _ => [] end.

(** The signatures below [ds]: functions, methods, constructors, call signatures and function
    types. *)
Definition all_signatures (ds : list decl) : list signature :=
  flat_map decl_signatures (decls_deep ds)
  ++ flat_map member_signatures (all_members ds)
  ++ flat_map (fun t => match t with TFunction tps ps r => [Sig tps ps (Some r)] | _ => [] end)
              (all_types ds).

(** No required parameter comes after an optional one. *)
Fixpoint required_first (ps : list param) : bool :=
  match ps with
  | [] => true
  | p :: rest =>
      if is_required p then required_first rest
      else forallb (fun q => negb (is_required q)) rest
  end.

Definition well_ordered (s : signature) : bool :=
  required_first (call_params s) && negb (existsb is_rest (call_params s)).

(** *** Names and what they resolve to *)

(** The names of the ECMAScript and DOM libraries that the file uses without declaring or
    importing them. *)
Definition library_names : list string :=
  ["AbortSignal"; "Array"; "AsyncIterable"; "AsyncIterableIterator"; "Date"; "Error";
   "Iterable"; "IteratorResult"; "Omit"; "Promise"; "Record"; "Uint8Array"].

(** The names that the declarations [ds] bring into scope as types: classes, interfaces,
    aliases, enums and imported names. *)
Definition type_decl_names (ds : list decl) : list string :=
  flat_map (fun d => match d with
                     | DClass _ n _ _ _ _ | DInterface _ n _ _ _ | DTypeAlias _ n _ _
                     | DEnum _ n _ => [n]
                     | DImport ns _ => ns
                     | _ => []
                     end) ds.

(** The type parameters a declaration binds, its own and those of its members. *)
Definition decl_tparam_names (d : decl) : list string :=
  match d with
  | DFunction _ _ tps _ _ _ | DTypeAlias _ _ tps _ => map tp_name tps
  | DClass _ _ tps _ _ ms | DInterface _ _ tps _ ms =>
      map tp_name tps
      ++ flat_map (fun m => flat_map (fun s => map tp_name (sig_tparams s))
                                     (member_signatures m)) ms
  | _ => []
  end.

(** The names written as type references or under [typeof], at any depth; the names taken
    from a module by [import(...)] are the module's own. *)
Definition written_refs (t : ty) : list (list string) :=
  flat_map (fun u => match u with
                     | TRef n _ | TTypeof n => [n]
                     | _ => []
                     end) (subtypes t).

(** [q] resolves: an unqualified name to a name in scope or a library name, a qualified name
    [N.x] to a type that the namespace [N] of the file declares. *)
Definition resolves (file : list decl) (scope : list string) (q : list string) : bool :=
  match q with
  | [x] => mem x scope || mem x library_names
  | [ns; x] => mem x (type_decl_names (namespace_body ns file))
  | _ => false
  end.

(** The references of a declaration that resolve to nothing; a namespace or module adds what
    it declares to the scope of its body. *)
Fixpoint unresolved (file : list decl) (scope : list string) (d : decl) : list (list string) :=
  match d with
  | DNamespace _ _ body | DModule _ _ body =>
      flat_map (unresolved file (type_decl_names body ++ scope)) body
  | _ =>
      filter (fun q => negb (resolves file (decl_tparam_names d ++ scope) q))
             (flat_map written_refs (decl_types d))
  end.

Definition unresolved_refs (file : list decl) : list (list string) :=
  flat_map (unresolved file (type_decl_names file)) file.

(** The library names in use among the references below [ds]. *)
Definition used_library_names (ds : list decl) : list string :=
  filter (fun n => existsb (fun t => existsb (fun q => match q with
                                                       | [x] => x =? n
                                                       | _ => false
                                                       end) (written_refs t))
                           (flat_map decl_types (decls_deep ds)))
         library_names.

(** *** Declarations of one name *)

Definition is_static (m : member) : bool :=
  match m with
  | MProperty ms _ _ _ _ | MMethod ms _ _ _ _ _ _ | MGetter ms _ _ _ | MSetter ms _ _ _ =>
      has_mod Static ms
  | _ => false
  end.

(** The names of the properties and accessors of the instance, and those of the static
    side. *)
Definition is_field (m : member) : bool :=
  match m with MProperty _ _ _ _ _ | MGetter _ _ _ _ => true | _ => false end.

Definition instance_fields (ms : list member) : list string :=
  map member_name (filter (fun m => is_field m && negb (is_static m)) ms).

Definition static_fields (ms : list member) : list string :=
  map member_name (filter (fun m => is_field m && is_static m) ms).

Definition has_duplicates (l : list string) : bool :=
  negb (Nat.eqb (length (nodup string_dec l)) (length l)).

(** The names the namespace declares more than once. *)
Definition declared_twice (ds : list decl) : list string :=
  let names := map decl_name ds in
  nodup string_dec (filter (fun n => Nat.ltb 1 (count_occ string_dec names n)) names).

Definition is_function (n : string) (ds : list decl) : bool :=
  forallb (fun d => match d with DFunction _ _ _ _ _ _ => true | _ => negb (decl_name d =? n) end)
          ds.

Definition only_interfaces (n : string) (ds : list decl) : bool :=
  forallb (fun d => match d with DInterface _ _ _ _ _ => true | _ => negb (decl_name d =? n) end)
          ds.

(** The lists of declarations of the file: the file itself and the body of every namespace
    and module in it. *)
Definition scopes (file : list decl) : list (list decl) :=
  file :: flat_map (fun d => match d with
                             | DNamespace _ _ body | DModule _ _ body => [body]
                             | _ => []
                             end) (decls_deep file).

(** The member lists of the file: in every scope one per name for interfaces, which merge,
    and one per class; and one per object type written in the file. *)
Definition member_lists (file : list decl) : list (list member) :=
  flat_map (fun sc => map (fun n => interface_members n sc) (interface_names sc)
                      ++ map c_members (classes sc))
           (scopes file)
  ++ flat_map (fun t => match t with TObject ms => [ms] | _ => [] end) (all_types file).

(** *** Signatures up to the names of parameters *)

(** [Deno.X] is [X]. *)
Definition unqualified (t : ty) : ty :=
  match t with
  | TRef q args => match local_name q with Some x => TRef [x] args | None => t end
  | _ => t
  end.

(** What a caller sees of a signature: presence and type of each parameter, and the result. *)
Definition shape (s : signature) : list (presence * ty) * option ty :=
  (map (fun p => (p_presence p, unqualified (p_type p))) (sig_params s),
   option_map unqualified (sig_ret s)).

Definition method_shapes (n : string) (ms : list member) :=
  map shape (methods n ms).

(** *** Overloads *)

(** The type of the parameter [p] in each overload of the function [f], in source order. *)
Definition overload_param (f p : string) : list ty :=
  flat_map (fun s => map p_type (filter (fun q => p_name q =? p) (sig_params s)))
           (functions f Deno).

Definition overload_results (f : string) : list (option ty) :=
  map sig_ret (functions f Deno).

(** The first seven overloads of [resolveDns] are the specific ones, the eighth is general. *)
Definition specific_record_types : list ty := firstn 7 (overload_param "resolveDns" "recordType").

(** What the specific overloads resolve to, in their order. *)
Definition specific_record_results : list ty :=
  flat_map (fun r => match r with Some t => [awaited t] | None => [] end)
           (firstn 7 (overload_results "resolveDns")).

Definition Addr : ty := TRef ["Addr"] [].
Definition NetAddr : ty := TRef ["NetAddr"] [].
Definition UnixAddr : ty := TRef ["UnixAddr"] [].
Definition ConnectOptions : ty := TRef ["ConnectOptions"] [].
Definition UnixConnectOptions : ty := TRef ["UnixConnectOptions"] [].
Definition ProcessStatus : ty := TRef ["Deno"; "ProcessStatus"] [].
Definition RecordType : ty := TRef ["RecordType"] [].
Definition ListenTlsOptions : ty := TRef ["ListenTlsOptions"] [].

(** The two forms of the options of [listen]. *)
Definition listen_tcp_options : ty :=
  TIntersection [TRef ["TcpListenOptions"] [];
                 TObject [MProperty [] "transport" Optional (Some (TStringLit "tcp")) None]].

Definition listen_unix_options : ty :=
  TIntersection [TRef ["UnixListenOptions"] [];
                 TObject [MProperty [] "transport" Required (Some (TStringLit "unix")) None]].

(** The alternatives of [RecordType]. *)
Definition record_types : list string :=
  ["A"; "AAAA"; "ANAME"; "CAA"; "CNAME"; "MX"; "NAPTR"; "NS"; "PTR"; "SOA"; "SRV"; "TXT"].

(** Sample values. *)
Definition tcp_options : value :=
  VObject "Object" [("port", VNum 80); ("hostname", VStr "golang.org")].

Definition tcp_addr : value :=
  VObject "Object" [("transport", VStr "tcp"); ("hostname", VStr "127.0.0.1");
                    ("port", VNum 80)].

Definition exit_ok : value := VObject "Object" [("success", VBool true); ("code", VNum 0)].

Definition tls_options : value :=
  VObject "Object" [("port", VNum 443); ("certFile", VStr "./server.crt");
                    ("keyFile", VStr "./server.key")].

(** *** Calls and the order of parameters *)

Definition required_count (s : signature) : nat :=
  length (filter is_required (call_params s)).

(** The function type of [PermissionStatus.onchange]: it declares the type of [this]. *)
Definition onchange_handler : signature :=
  Sig [] [Param "this" Required (TRef ["PermissionStatus"] []);
          Param "ev" Required (TRef ["Event"] [])] (Some TAny).

(** *** Sync variants, parameter by parameter *)

Definition param_shapes (s : signature) : list (presence * ty) := fst (shape s).

(** [s] is [a] made synchronous: the same parameters in presence and type, and the result [T]
    where [a] results in [Promise<T>]. *)
Definition same_operation (a s : signature) : Prop :=
  param_shapes s = param_shapes a /\
  exists T, sig_ret a = Some (TRef ["Promise"] [T]) /\ sig_ret s = Some T.

(** The methods [m] among [ms] for which [mSync] is there as well. *)
Definition paired_methods (ms : list member) : list string :=
  filter (fun m => mem (m ++ "Sync") (method_names ms)) (method_names ms).

(** The same for every class of the namespace: class and method. *)
Definition method_pairs : list (string * string) :=
  flat_map (fun c => map (pair (c_name c)) (paired_methods (c_members c))) (classes Deno).

(** The pairs of functions whose parameters or results differ in more than the promise. *)
Definition uneven_pairs : list string :=
  ["readDir"; "readFile"; "readTextFile"; "writeFile"; "writeTextFile"].

(** *** Records given as options *)

(** A member that must be given. *)
Definition requires_field (m : member) : bool :=
  match m with MProperty _ _ pr _ _ => negb (is_optional pr) | _ => false end.

(** The members of the object type that [t] denotes. *)
Definition record_members (ds : list decl) (t : ty) : list member :=
  match object_parts ds t with Some parts => concat parts | None => [] end.

(** The parameters of the operations below [ds] whose type denotes a record: operation,
    presence and type.  A type parameter stands for its constraint. *)
Definition record_params (ds : list decl) : list (string * presence * ty) :=
  flat_map (fun o =>
              flat_map (fun p =>
                          let t := ranged (sig_tparams (snd o)) (p_type p) in
                          match object_parts ds t with
                          | Some parts => if is_record (concat parts)
                                          then [(fst o, p_presence p, t)] else []
                          | None => []
                          end)
                       (sig_params (snd o)))
           (operations ds).

(** The operations with an optional parameter whose record requires a field, and those with
    a required parameter whose record requires none. *)
Definition optional_yet_demanding : list string :=
  flat_map (fun x => let '(f, pr, t) := x in
                     if is_optional pr && existsb requires_field (record_members Deno t)
                     then [f] else [])
           (record_params Deno).

Definition required_yet_free : list string :=
  flat_map (fun x => let '(f, pr, t) := x in
                     if negb (is_optional pr)
                        && negb (existsb requires_field (record_members Deno t))
                     then [f] else [])
           (record_params Deno).

Definition empty_object : value := VObject "Object" [].

(** *** String literals *)

Definition alias_literals (n : string) : list string :=
  match type_alias n Deno with Some t => literals_of t | None => [] end.

Definition permission_names : list string := alias_literals "PermissionName".

Definition signal_names : list string := alias_literals "Signal".

Definition PermissionName : ty := TRef ["PermissionName"] [].

Definition Signal : ty := TRef ["Signal"] [].

(** The descriptor that carries a name and nothing else. *)
Definition named (s : string) : value := VObject "Object" [("name", VStr s)].

(** *** The streams of a process *)

Definition stream_names : list string := ["stdin"; "stdout"; "stderr"].

(** What may be given to [run] under the option [k]. *)
Definition run_option (k : string) : list ty :=
  flat_map (fun m => match m with
                     | MProperty _ _ _ (Some (TUnion ts)) _ => ts
                     | _ => []
                     end) (members_named k (interface_members "RunOptions" Deno)).

(** [t extends u] where [u] is a string literal: only that literal does. *)
Definition extends_literal (t u : ty) : bool :=
  match t, u with
  | TStringLit a, TStringLit b => a =? b
  | _, _ => false
  end.

(** A conditional type on [T[k]], once [T[k]] is known. *)
Definition resolved (index : string -> option ty) (t : ty) : option ty :=
  match t with
  | TConditional (TIndexed (TRef [_] []) (TStringLit k)) ext thn els =>
      match index k with
      | Some o => Some (if extends_literal o ext then thn else els)
      | None => None
      end
  | _ => Some t
  end.

Definition getter_type (k : string) (ms : list member) : option ty :=
  match members_named k ms with
  | [MGetter _ _ (Some t) _] => Some t
  | _ => None
  end.

(** The type of the stream [k] of a [Process<T>] where [T[k]] is [opt]. *)
Definition stream_type (k : string) (opt : ty) : option ty :=
  match getter_type k (class_members "Process" Deno) with
  | Some t => resolved (fun j => if j =? k then Some opt else None) t
  | None => None
  end.

(** *** The standard streams *)

(** The parts of the intersection that the constant [n] is declared with. *)
Definition parts_of (n : string) : list ty :=
  match const_type n Deno with
  | Some (TIntersection ts) => ts
  | _ => []
  end.

(** The interfaces among the parts, by name. *)
Definition interfaces_of (n : string) : list string :=
  flat_map (fun t => match t with
                     | TRef q [] => match local_name q with Some x => [x] | None => [] end
                     | _ => []
                     end) (parts_of n).

(** The members that the constant declares itself, in the object type among the parts. *)
Definition own_members_of (n : string) : list member :=
  flat_map (fun t => match t with TObject ms => ms | _ => [] end) (parts_of n).

(** The interfaces with the operations on open files and streams. *)
Definition io_interfaces : list string :=
  ["Reader"; "ReaderSync"; "Writer"; "WriterSync"; "Closer"; "SeekerSync"].

(** *** The forms of [test] *)

(** The keys that [Omit<TestDefinition, K>] leaves out. *)
Definition omitted (t : ty) : list (list string) :=
  match t with
  | TRef [o] [TRef [d] []; ks] =>
      if (o =? "Omit") && (d =? "TestDefinition") then [literals_of ks] else []
  | _ => []
  end.

Definition field_type (f : string) (ms : list member) : list ty :=
  flat_map (fun m => match m with MProperty _ _ _ (Some t) _ => [t] | _ => [] end)
           (members_named f ms).

(** The parameters of [s] that are fields of [TestDefinition] given on their own. *)
Definition given_fields (s : signature) : list param :=
  filter (fun p => negb (Nat.eqb (length (field_type (p_name p)
                                            (interface_members "TestDefinition" Deno))) 0))
         (sig_params s).

(** A form of [test] asks for nothing twice: what is given on its own has the type of the
    field and is left out of the options. *)
Definition asks_once (s : signature) : bool :=
  forallb (fun p => forallb (fun ks => mem (p_name p) ks)
                            (flat_map (fun q => omitted (p_type q)) (sig_params s)))
          (given_fields s).

(** *** Tests on closed lists *)

Definition same_names (a b : list string) : bool :=
  if list_eq_dec string_dec a b then true else false.

(** Heritage settles at [k] levels and has no cycle there. *)
Definition settled (ds : list decl) (k : nat) (n : string) : bool :=
  same_names (ancestors (S k) ds n) (ancestors k ds n) && negb (mem n (ancestors k ds n)).

(** The interfaces that extend [Conn]. *)
Definition connections : list string := ["TcpConn"; "TlsConn"; "UnixConn"].

(** *** Event listeners *)






(** *** Permissions of a test *)

Definition PermissionOptions : ty := TRef ["PermissionOptions"] [].

(** The options that set the permission [s] and no other. *)
Definition only (s : string) (v : value) : value := VObject "Object" [(s, v)].

(** *** Steps of a test *)

Definition step_forms : list signature := methods "step" (interface_members "TestContext" Deno).

(** The fields of [TestDefinition] that [TestStepDefinition] has not. *)
Definition not_for_steps : list string :=
  filter (fun n => negb (mem n (map member_name (interface_members "TestStepDefinition" Deno))))
         (map member_name (interface_members "TestDefinition" Deno)).

(** *** Members declared anew *)

(** The members that an interface declares although an ancestor has one of the same name:
    interface, ancestor and member. *)
Definition overrides (ds : list decl) : list (string * string * string) :=
  flat_map (fun n =>
              flat_map (fun p =>
                          flat_map (fun m =>
                                      if mem (member_name m)
                                             (map member_name (interface_members p ds))
                                      then [(n, p, member_name m)] else [])
                                   (interface_members n ds))
                       (ancestors 2 ds n))
           (interface_names ds).

(** [a] is [b] or narrower: the same interface or one that inherits from it, under the same
    generic type. *)
Fixpoint narrows (ds : list decl) (a b : ty) : bool :=
  match a, b with
  | TRef [x] [], TRef [y] [] => (x =? y) || mem y (ancestors 2 ds x)
  | TRef [g] [a'], TRef [h] [b'] => (g =? h) && narrows ds a' b'
  | _, _ => false
  end.

(** The method [m] of [n] may stand for the one of [p]: no parameters on either side and a
    result that is as narrow or narrower. *)
Definition may_stand_for (ds : list decl) (o : string * string * string) : bool :=
  let '(n, p, m) := o in
  match methods m (interface_members n ds), methods m (interface_members p ds) with
  | [Sig [] [] (Some a)], [Sig [] [] (Some b)] => narrows ds a b
  | _, _ => false
  end.

(** * Theorems *)

(** A list is duplicate-free when removing duplicates leaves it as it is. *)
Lemma NoDup_by_nodup {A : Type} (dec : forall x y : A, {x = y} + {x <> y}) (l : list A) :
  nodup dec l = l -> NoDup l.
Proof. intros H. rewrite <- H. apply NoDup_nodup. Qed.

(** Universal facts over a closed list are settled by evaluating the test on it. *)
Lemma Forall_true {A : Type} (f : A -> bool) (l : list A) :
  forallb f l = true -> Forall (fun x => f x = true) l.
Proof. intros H. apply Forall_forall. apply forallb_forall. exact H. Qed.

Lemma Forall_false {A : Type} (f : A -> bool) (l : list A) :
  existsb f l = false -> Forall (fun x => f x = false) l.
Proof.
  induction l as [|x l IH]; simpl; intros H; constructor.
  - destruct (f x); [discriminate|reflexivity].
  - apply IH. destruct (f x); [discriminate|exact H].
Qed.

(** Inclusion of lists of names, by evaluation. *)
Lemma incl_by_mem (l k : list string) :
  forallb (fun n => mem n k) l = true -> incl l k.
Proof.
  intros H n Hn. rewrite forallb_forall in H. specialize (H n Hn).
  unfold mem in H. apply existsb_exists in H. destruct H as [m [Hm E]].
  apply String.eqb_eq in E. subst. exact Hm.
Qed.

(** Closed lists of distinct literals. *)
Ltac distinct :=
  repeat (constructor; [simpl; intuition discriminate|]); constructor.

(** ** Names *)

Lemma prefix_spec (p s : string) :
  prefix p s = true <-> exists b, s = (p ++ b)%string.
Proof.
  revert s. induction p as [|c p IH]; intros s.
  - destruct s; simpl; split; eauto.
  - destruct s as [|c' s]; simpl.
    + split; [discriminate|intros [b E]; discriminate].
    + destruct (Ascii.ascii_dec c c') as [->|N].
      * rewrite IH. split; intros [b E]; exists b; congruence.
      * split; [discriminate|intros [b E]; congruence].
Qed.

(** [contains sub s] holds exactly when [s] is some [a ++ sub ++ b]. *)
Lemma contains_spec (sub s : string) :
  contains sub s = true <-> exists a b, s = (a ++ sub ++ b)%string.
Proof.
  induction s as [|c s IH]; cbn [contains].
  - rewrite orb_false_r, prefix_spec. split.
    + intros [b E]. exists "", b. exact E.
    + intros [a [b E]]. destruct a; [exists b; exact E|discriminate].
  - rewrite orb_true_iff, prefix_spec, IH. split.
    + intros [[b E]|[a [b E]]].
      * exists "", b. exact E.
      * exists (String c a), b. simpl. congruence.
    + intros [a [b E]]. destruct a as [|c' a].
      * left. exists b. exact E.
      * right. exists a, b. simpl in E. congruence.
Qed.

Lemma substring_suffix (p suffix : string) :
  substring (String.length p) (String.length suffix) (p ++ suffix)%string = suffix.
Proof.
  induction p as [|c p IH]; simpl; [|exact IH].
  induction suffix as [|c s IH]; simpl; [reflexivity|]. rewrite IH. reflexivity.
Qed.

Lemma substring_split (s : string) :
  forall n, n <= String.length s ->
            s = (substring 0 n s ++ substring n (String.length s - n) s)%string.
Proof.
  induction s as [|c s IH]; intros n Hn; simpl in *.
  - destruct n; reflexivity.
  - destruct n as [|n]; simpl.
    + f_equal. clear. induction s as [|d s IH]; simpl; [reflexivity|]. congruence.
    + f_equal. apply IH. lia.
Qed.

Lemma length_append (a b : string) :
  String.length (a ++ b)%string = String.length a + String.length b.
Proof. induction a as [|c a IH]; simpl; [reflexivity|]. rewrite IH. reflexivity. Qed.

(** [ends_with suffix s] holds exactly when [s] is some [p ++ suffix]. *)
Lemma ends_with_spec (suffix s : string) :
  ends_with suffix s = true <-> exists p, s = (p ++ suffix)%string.
Proof.
  unfold ends_with. rewrite andb_true_iff, Nat.leb_le, String.eqb_eq. split.
  - intros [L E]. exists (substring 0 (String.length s - String.length suffix) s).
    pose proof (substring_split s (String.length s - String.length suffix)) as S.
    replace (String.length s - (String.length s - String.length suffix))
      with (String.length suffix) in S by lia.
    rewrite E in S. apply S. lia.
  - intros [p ->]. rewrite length_append. split; [lia|].
    replace (String.length p + String.length suffix - String.length suffix)
      with (String.length p) by lia.
    apply substring_suffix.
Qed.

(** A name uses a word of [ws] exactly when, in lower case, it contains one of them. *)
Lemma uses_word_spec (ws : list string) (n : string) :
  uses_word ws n = true <->
  exists w a b, In w ws /\ lower n = (a ++ w ++ b)%string.
Proof.
  unfold uses_word. rewrite existsb_exists. split.
  - intros [w [Hw H]]. apply contains_spec in H. destruct H as [a [b E]]. eauto.
  - intros [w [a [b [Hw E]]]]. exists w. split; [exact Hw|].
    apply contains_spec. eauto.
Qed.

(** ** Traversals *)

Lemma subtypes_self (t : ty) : In t (subtypes t).
Proof. destruct t; left; reflexivity. Qed.

(** [mentions n t] holds exactly when [t] refers somewhere to a name that resolves to [n]. *)
Lemma mentions_spec (n : string) (t : ty) :
  mentions n t = true <-> exists q, In q (ty_refs t) /\ local_name q = Some n.
Proof.
  unfold mentions. rewrite existsb_exists. split; intros [q [Hq E]]; exists q; split; auto.
  - destruct (local_name q) as [x|]; [|discriminate].
    apply String.eqb_eq in E. congruence.
  - rewrite E. apply String.eqb_refl.
Qed.

Lemma mem_spec (n : string) (l : list string) : mem n l = true <-> In n l.
Proof.
  unfold mem. rewrite existsb_exists. split.
  - intros [m [Hm E]]. apply String.eqb_eq in E. subst. exact Hm.
  - intros H. exists n. split; [exact H|apply String.eqb_refl].
Qed.

Lemma In_by_mem (n : string) (l : list string) : mem n l = true -> In n l.
Proof. apply mem_spec. Qed.

(** The search keeps what it has seen, and adds declared names only. *)
Lemma reach_keeps (fuel : nat) (ds : list decl) :
  forall seen todo, incl seen (reach fuel ds seen todo).
Proof.
  induction fuel as [|k IH]; intros seen todo; simpl; [apply incl_refl|].
  destruct todo as [|n rest]; [apply incl_refl|].
  destruct (mem n seen || negb (is_declared n ds)); [apply IH|].
  intros x Hx. apply IH. apply in_or_app. left. exact Hx.
Qed.

Lemma reach_declared (fuel : nat) (ds : list decl) :
  forall seen todo,
    Forall (fun n => is_declared n ds = true) seen ->
    Forall (fun n => is_declared n ds = true) (reach fuel ds seen todo).
Proof.
  induction fuel as [|k IH]; intros seen todo H; simpl; [exact H|].
  destruct todo as [|n rest]; [exact H|].
  destruct (mem n seen) eqn:M; simpl; [apply IH; exact H|].
  destruct (is_declared n ds) eqn:D; simpl; [|apply IH; exact H].
  apply IH. apply Forall_app. split; [exact H|]. constructor; [exact D|constructor].
Qed.

(** What is declared below a declaration of [ds] is declared below [ds]. *)
Lemma decls_deep_incl (d : decl) (ds : list decl) :
  In d ds -> incl (decl_deep d) (decls_deep ds).
Proof.
  intros Hd x Hx. unfold decls_deep. apply in_flat_map. exists d. auto.
Qed.

Lemma decls_deep_body (d : decl) (mods : list modifier) (n : string) (body : list decl) :
  d = DNamespace mods n body -> incl (decls_deep body) (decl_deep d).
Proof. intros -> x Hx. simpl. right. exact Hx. Qed.

(** The members and the types below part of the declarations are below the whole. *)
Lemma all_types_incl (ds es : list decl) :
  incl (decls_deep ds) (decls_deep es) -> incl (all_types ds) (all_types es).
Proof.
  intros H t Ht. unfold all_types in *.
  apply in_flat_map in Ht. destruct Ht as [u [Hu Ht]].
  apply in_flat_map in Hu. destruct Hu as [d [Hd Hu]].
  apply in_flat_map. exists u. split; [|exact Ht].
  apply in_flat_map. exists d. split; [apply H; exact Hd|exact Hu].
Qed.

Lemma all_members_incl (ds es : list decl) :
  incl (decls_deep ds) (decls_deep es) -> incl (all_members ds) (all_members es).
Proof.
  intros H m Hm. unfold all_members in *. apply in_app_or in Hm. apply in_or_app.
  destruct Hm as [Hm|Hm].
  - left. apply in_flat_map in Hm. destruct Hm as [d [Hd Hm]].
    apply in_flat_map. exists d. split; [apply H; exact Hd|exact Hm].
  - right. apply in_flat_map in Hm. destruct Hm as [t [Ht Hm]].
    apply in_flat_map. exists t. split; [apply (all_types_incl ds es H); exact Ht|exact Hm].
Qed.

(** The [Deno] namespace is the one the file declares. *)
Lemma Deno_in_file : incl (decls_deep Deno) file_scope.
Proof.
  unfold file_scope.
  assert (Hd : In (DNamespace [Export; Ambient] "Deno" Deno) shim_deno_lib)
    by (simpl; do 10 right; left; reflexivity).
  intros x Hx. apply (decls_deep_incl _ _ Hd).
  apply (decls_deep_body _ [Export; Ambient] "Deno" Deno eq_refl). exact Hx.
Qed.

Lemma Deno_members_in_file : incl (all_members Deno) (all_members shim_deno_lib).
Proof. apply all_members_incl. exact Deno_in_file. Qed.

(** ** What a type admits *)

Section Admission.

Variable ds : list decl.

Lemma admits_unfold (k : nat) (v : value) (t : ty) :
  admits (S k) ds v t = admits_with (admits k ds) ds v t.
Proof. reflexivity. Qed.

(** A wider test for the parts gives a wider test for the whole. *)
Lemma field_ok_mono (chk chk' : value -> ty -> bool) (props : list (string * value))
      (m : member) :
  (forall x u, chk x u = true -> chk' x u = true) ->
  field_ok chk props m = true -> field_ok chk' props m = true.
Proof.
  intros W. destruct m as [mods f pr [u|] init| | | | | |]; cbn [field_ok]; try exact id.
  - destruct (get f props) as [x|]; [|exact id]. intros H.
    apply orb_prop in H. destruct H as [H|H]; [rewrite (W _ _ H); reflexivity|].
    rewrite H. apply orb_true_r.
  - destruct ret as [u|]; [|exact id].
    destruct (get name props) as [x|]; [apply W|exact id].
  - intros H. rewrite forallb_forall in H. apply forallb_forall. intros p Hp.
    apply W. exact (H p Hp).
Qed.

Lemma tuple_ok_mono (chk chk' : value -> ty -> bool) :
  (forall x u, chk x u = true -> chk' x u = true) ->
  forall ts l, tuple_ok chk ts l = true -> tuple_ok chk' ts l = true.
Proof.
  intros W. induction ts as [|t ts IH]; intros l H; [exact H|].
  assert (R : forall u, forallb (fun x => chk x u) l = true ->
                        forallb (fun x => chk' x u) l = true).
  { intros u F. rewrite forallb_forall in F. apply forallb_forall. intros x Hx.
    apply W. exact (F x Hx). }
  assert (C : forall x l', l = x :: l' -> chk x t && tuple_ok chk ts l' = true ->
                           chk' x t && tuple_ok chk' ts l' = true).
  { intros x l' _ A. apply andb_prop in A. destruct A as [A B].
    rewrite (W _ _ A), (IH _ B). reflexivity. }
  destruct t; cbn [tuple_ok] in H |- *;
    try (destruct l as [|x l']; [exact H|apply (C x l' eq_refl); exact H]).
  destruct t; try (destruct l as [|x l']; [exact H|apply (C x l' eq_refl); exact H]).
  apply R. exact H.
Qed.

Lemma admits_with_mono (chk chk' : value -> ty -> bool) (v : value) (t : ty) :
  (forall x u, chk x u = true -> chk' x u = true) ->
  admits_with chk ds v t = true -> admits_with chk' ds v t = true.
Proof.
  intros W. unfold admits_with. destruct (object_parts ds t) as [parts|].
  - destruct v; try exact id. intros H. apply andb_prop in H. destruct H as [F K].
    rewrite K, andb_true_r. rewrite forallb_forall in F. apply forallb_forall.
    intros m Hm. apply (field_ok_mono chk chk' _ _ W). exact (F m Hm).
  - assert (R : forall l u, forallb (fun x => chk x u) l = true ->
                            forallb (fun x => chk' x u) l = true).
    { intros l u F. rewrite forallb_forall in F. apply forallb_forall. intros x Hx.
      apply W. exact (F x Hx). }
    destruct t; try exact id.
    + destruct args as [|a [|b [|c args]]]; try (destruct a; exact id).
      * destruct (local_name name) as [n|]; [|exact id].
        destruct (enum_members n ds); [exact id|].
        destruct (type_alias n ds); [apply W|exact id].
      * destruct a; (destruct (is_Array name); [|exact id]); destruct v; try exact id;
          apply R.
      * destruct a; try exact id. destruct (is_Record name); [|exact id].
        destruct v; try exact id. intros H. apply andb_prop in H. destruct H as [C F].
        rewrite C. rewrite forallb_forall in F. apply forallb_forall. intros p Hp.
        apply W. exact (F p Hp).
    + destruct v; try exact id. apply R.
    + destruct v; try exact id. apply tuple_ok_mono. exact W.
    + apply W.
    + intros H. apply existsb_exists in H. destruct H as [u [Hu H]].
      apply existsb_exists. exists u. split; [exact Hu|apply W; exact H].
    + intros H. rewrite forallb_forall in H. apply forallb_forall. intros u Hu.
      apply W. exact (H u Hu).
Qed.

(** More fuel admits at least as much. *)
Lemma admits_S (fuel : nat) :
  forall v t, admits fuel ds v t = true -> admits (S fuel) ds v t = true.
Proof.
  induction fuel as [|k IH]; intros v t H; [discriminate|].
  rewrite admits_unfold in H |- *. revert H. apply admits_with_mono. exact IH.
Qed.

Lemma admits_le (f g : nat) (v : value) (t : ty) :
  f <= g -> admits f ds v t = true -> admits g ds v t = true.
Proof.
  induction 1 as [|g _ IH]; intros H; [exact H|].
  apply admits_S. apply IH. exact H.
Qed.

(** A value of an object type with members is an object with the properties that the
    members ask for. *)
Lemma admits_record (fuel : nat) (v : value) (t : ty) (parts : list (list member)) :
  object_parts ds t = Some parts -> concat parts <> [] ->
  admits fuel ds v t = true ->
  exists k c props,
    fuel = S k /\ v = VObject c props /\
    forallb (field_ok (admits k ds) props) (concat parts) = true /\
    weak_ok parts c props = true.
Proof.
  intros P N. destruct fuel as [|k]; [discriminate|].
  rewrite admits_unfold. unfold admits_with. rewrite P.
  destruct v as [| | | | | | |c props]; try discriminate;
    try (destruct (concat parts); [contradiction|discriminate]).
  intros H. apply andb_prop in H. destruct H as [F W]. exists k, c, props. auto.
Qed.

Lemma admits_object (k : nat) (c : string) (props : list (string * value)) (t : ty)
      (parts : list (list member)) :
  object_parts ds t = Some parts ->
  admits (S k) ds (VObject c props) t
  = forallb (field_ok (admits k ds) props) (concat parts) && weak_ok parts c props.
Proof. intros P. rewrite admits_unfold. unfold admits_with. rewrite P. reflexivity. Qed.

Lemma admits_union (fuel : nat) (v : value) (ts : list ty) :
  admits fuel ds v (TUnion ts) = true ->
  exists k u, fuel = S k /\ In u ts /\ admits k ds v u = true.
Proof.
  destruct fuel as [|k]; [discriminate|]. rewrite admits_unfold. cbn. intros H.
  apply existsb_exists in H. destruct H as [u [Hu H]]. exists k, u. auto.
Qed.

Lemma admits_alias (fuel : nat) (v : value) (q : list string) (n : string) (u : ty) :
  local_name q = Some n -> is_interface n ds = false -> enum_members n ds = None ->
  type_alias n ds = Some u ->
  admits fuel ds v (TRef q []) = true ->
  exists k, fuel = S k /\ admits k ds v u = true.
Proof.
  intros Hq Hi He Ha. destruct fuel as [|k]; [discriminate|].
  rewrite admits_unfold. unfold admits_with. cbn [object_parts].
  rewrite Hq, Hi, He, Ha. intros H. exists k. auto.
Qed.

Lemma admits_string_literal (fuel : nat) (v : value) (s : string) :
  admits fuel ds v (TStringLit s) = true -> v = VStr s.
Proof.
  destruct fuel; [discriminate|]. destruct v; try discriminate.
  rewrite admits_unfold. cbn. intros H. apply String.eqb_eq in H. congruence.
Qed.

Lemma admits_number_literal (fuel : nat) (v : value) (n : Z) :
  admits fuel ds v (TNumberLit n) = true -> v = VNum n.
Proof.
  destruct fuel; [discriminate|]. destruct v; try discriminate.
  rewrite admits_unfold. cbn. intros H. apply Z.eqb_eq in H. congruence.
Qed.

Lemma admits_boolean_literal (fuel : nat) (v : value) (b : bool) :
  admits fuel ds v (TBooleanLit b) = true -> v = VBool b.
Proof.
  destruct fuel; [discriminate|]. destruct v; try discriminate.
  rewrite admits_unfold. cbn. intros H. apply Bool.eqb_prop in H. congruence.
Qed.

Lemma admits_number (fuel : nat) (v : value) :
  admits fuel ds v TNumber = true -> exists z, v = VNum z.
Proof. destruct fuel; [discriminate|]. destruct v; try discriminate. eauto. Qed.

Lemma admits_undefined (fuel : nat) (v : value) :
  admits fuel ds v TUndefined = true -> v = VUndefined.
Proof. destruct fuel; [discriminate|]. destruct v; try discriminate. reflexivity. Qed.

(** A value of a union of string literals is one of them. *)
Lemma admits_literals (fuel : nat) (v : value) (ls : list string) :
  admits fuel ds v (TUnion (map TStringLit ls)) = true ->
  exists s, In s ls /\ v = VStr s.
Proof.
  intros H. apply admits_union in H. destruct H as [k [u [_ [Hu H]]]].
  apply in_map_iff in Hu. destruct Hu as [s [<- Hs]].
  apply admits_string_literal in H. eauto.
Qed.

(** What the members require of the properties. *)
Lemma field_required
      (chk : value -> ty -> bool) (props : list (string * value)) (ms : list member)
      (mods : list modifier) (f : string) (u : ty) (init : option expr) :
  forallb (field_ok chk props) ms = true ->
  In (MProperty mods f Required (Some u) init) ms ->
  exists x, get f props = Some x /\ chk x u = true.
Proof.
  intros H Hm. rewrite forallb_forall in H. specialize (H _ Hm). cbn [field_ok] in H.
  destruct (get f props) as [x|]; [|discriminate].
  cbn [is_optional andb] in H. rewrite orb_false_r in H. eauto.
Qed.

(** A value of an object type that requires a property of literal type is an object with
    that literal under that name. *)
Lemma admits_discriminated
      (fuel : nat) (v : value) (t : ty) (parts : list (list member)) (f lit : string)
      (mods : list modifier) (init : option expr) :
  object_parts ds t = Some parts ->
  In (MProperty mods f Required (Some (TStringLit lit)) init) (concat parts) ->
  admits fuel ds v t = true ->
  exists c props, v = VObject c props /\ get f props = Some (VStr lit).
Proof.
  intros P Hm H.
  assert (N : concat parts <> []) by (intros E; rewrite E in Hm; exact Hm).
  destruct (admits_record fuel v t parts P N H) as [k [c [props [_ [-> [F _]]]]]].
  destruct (field_required _ _ _ _ _ _ _ F Hm) as [x [G X]].
  apply admits_string_literal in X. subst x. eauto.
Qed.

End Admission.

(** Where a map has no duplicate image, it is injective on the list. *)
Lemma NoDup_map_eq {A B : Type} (f : A -> B) (l : list A) (x y : A) :
  NoDup (map f l) -> In x l -> In y l -> f x = f y -> x = y.
Proof.
  induction l as [|a l IH]; simpl; intros N Hx Hy E; [contradiction|].
  inversion N as [|? ? Ha N']; subst.
  destruct Hx as [->|Hx], Hy as [->|Hy]; auto.
  - exfalso. apply Ha. rewrite E. apply in_map. exact Hy.
  - exfalso. apply Ha. rewrite <- E. apply in_map. exact Hx.
Qed.

(** ** The documented interface *)

(** The check refuses what the compiler refuses: a port written as a string, an option that
    [open] does not know, a path left out, a record type that [resolveDns] has no form
    for. *)
Lemma ill_typed_calls_are_refused :
  resolves_to Deno (Call 0 "connect" true [Some (VObject "Object" [("port", VStr "80")])])
  = None /\
  resolves_to Deno (Call 0 "open" true
                         [Some (VStr "f"); Some (VObject "Object" [("raed", VBool true)])])
  = None /\
  resolves_to Deno (Call 0 "chmod" true [Some (VStr "f")]) = None /\
  resolves_to Deno (Call 0 "resolveDns" true [Some (VStr "example.com"); Some (VStr "ZZ")])
  = None.
Proof. repeat split; vm_compute; reflexivity. Qed.



(** ** Error classes *)

(** C2: the namespace [errors], exported from [Deno], declares classes and nothing else;
    NotFound, PermissionDenied, ConnectionReset and BrokenPipe are among them; every class
    declared there extends [Error]. *)
Theorem errors_are_Error_subclasses :
  namespace_body "Deno" shim_deno_lib = Deno /\
  namespace_body "errors" Deno = Deno_errors /\
  length (classes Deno_errors) = length Deno_errors /\
  incl ["NotFound"; "PermissionDenied"; "ConnectionReset"; "BrokenPipe"] error_class_names /\
  Forall (fun c => c_extends c = Some (TRef ["Error"] [])) (classes Deno_errors).
Proof.
  do 3 (split; [reflexivity|]). split.
  - apply incl_by_mem. reflexivity.
  - repeat constructor.
Qed.

(** C10: [Deno.errors] declares eighteen classes, all of different names; NotFound declares
    the one member [code: string]; no other class of the namespace declares a member. *)
Theorem only_NotFound_has_own_member :
  length (classes Deno_errors) = 18 /\
  NoDup error_class_names /\
  class_members "NotFound" Deno_errors = [MProperty [] "code" Required (Some TString) None] /\
  map c_name (filter has_own_members (classes Deno_errors)) = ["NotFound"] /\
  Forall (fun c => c_members c = [])
         (filter (fun c => negb (c_name c =? "NotFound")) (classes Deno_errors)).
Proof.
  split; [reflexivity|]. split.
  - apply (NoDup_by_nodup string_dec). reflexivity.
  - split; [reflexivity|]. split; [reflexivity|]. repeat constructor.
Qed.

(** ** Permissions *)

(** The declarations of the permission surface.  [Deno.PermissionDescriptor] is the union of
    eight interfaces; each of them has a required [name] of literal type, these literals are
    run, read, write, net, env, sys, ffi and hrtime, all different, and they are the
    alternatives of [Deno.PermissionName].  The class [Permissions] has the six methods
    query, revoke, request and their Sync variants, one signature each, whose only parameter
    is a [Deno.PermissionDescriptor]; the Sync variants return [PermissionStatus] and the
    others [Promise<PermissionStatus>].  The [state] of a [PermissionStatus] is a read-only
    [Deno.PermissionState], which is the union of the literals granted, denied and
    prompt.  None of the eight interfaces extends another. *)
Lemma permission_declarations :
  permission_descriptor_kinds
  = ["RunPermissionDescriptor"; "ReadPermissionDescriptor"; "WritePermissionDescriptor";
     "NetPermissionDescriptor"; "EnvPermissionDescriptor"; "SysPermissionDescriptor";
     "FfiPermissionDescriptor"; "HrtimePermissionDescriptor"] /\
  flat_map (fun k => interface_extends k Deno) permission_descriptor_kinds = [] /\
  type_alias "PermissionDescriptor" Deno
  = Some (TUnion (map (fun n => TRef [n] []) permission_descriptor_kinds)) /\
  map discriminant permission_descriptor_kinds
  = map Some ["run"; "read"; "write"; "net"; "env"; "sys"; "ffi"; "hrtime"] /\
  NoDup (map discriminant permission_descriptor_kinds) /\
  type_alias "PermissionName" Deno
  = Some (TUnion (map TStringLit ["run"; "read"; "write"; "net"; "env"; "sys"; "ffi"; "hrtime"])) /\
  method_names Permissions_methods
  = ["query"; "querySync"; "revoke"; "revokeSync"; "request"; "requestSync"] /\
  length Permissions_methods = 6 /\
  Forall (fun m => exists d,
            methods m Permissions_methods
            = [Sig [] [Param d Required (TRef ["Deno"; "PermissionDescriptor"] [])]
                   (Some (TRef ["Promise"] [TRef ["PermissionStatus"] []]))])
         ["query"; "revoke"; "request"] /\
  Forall (fun m => exists d,
            methods m Permissions_methods
            = [Sig [] [Param d Required (TRef ["Deno"; "PermissionDescriptor"] [])]
                   (Some (TRef ["PermissionStatus"] []))])
         ["querySync"; "revokeSync"; "requestSync"] /\
  awaited (TRef ["Promise"] [TRef ["PermissionStatus"] []]) = TRef ["PermissionStatus"] [] /\
  members_named "state" (class_members "PermissionStatus" Deno)
  = [MProperty [Readonly] "state" Required (Some (TRef ["Deno"; "PermissionState"] [])) None] /\
  local_name ["Deno"; "PermissionState"] = Some "PermissionState" /\
  type_alias "PermissionState" Deno
  = Some (TUnion [TStringLit "granted"; TStringLit "denied"; TStringLit "prompt"]).
Proof.
  do 4 (split; [reflexivity|]). split.
  - vm_compute. distinct.
  - repeat split; try reflexivity; repeat constructor; eexists; reflexivity.
Qed.

Lemma discriminants_are_distinct : NoDup (map discriminant permission_descriptor_kinds).
Proof. vm_compute. distinct. Qed.

(** A value of one of the eight descriptor interfaces is an object that carries the literal of
    that interface under [name]. *)
Lemma descriptor_carries_its_name (fuel : nat) (v : value) (k : string) :
  In k permission_descriptor_kinds ->
  admits fuel Deno v (TRef [k] []) = true ->
  exists lit c props,
    discriminant k = Some lit /\ v = VObject c props /\ get "name" props = Some (VStr lit).
Proof.
  intros Hk H.
  assert (K : In k ["RunPermissionDescriptor"; "ReadPermissionDescriptor";
                    "WritePermissionDescriptor"; "NetPermissionDescriptor";
                    "EnvPermissionDescriptor"; "SysPermissionDescriptor";
                    "FfiPermissionDescriptor"; "HrtimePermissionDescriptor"]) by exact Hk.
  clear Hk. simpl in K.
  repeat (destruct K as [<-|K];
          [eapply (admits_discriminated Deno _ _ _ _ "name") in H;
           [destruct H as [c [props [E G]]]; eexists _, c, props;
            split; [vm_compute; reflexivity|split; [exact E|exact G]]
           |vm_compute; reflexivity
           |cbn; left; reflexivity]
          |]).
  contradiction.
Qed.

(** The values of [Deno.PermissionState] are the three literals. *)
Lemma PermissionState_values (fuel : nat) (s : value) :
  admits fuel Deno s PermissionState = true ->
  In s [VStr "granted"; VStr "denied"; VStr "prompt"].
Proof.
  intros H.
  apply (admits_alias Deno _ _ _ "PermissionState"
           (TUnion [TStringLit "granted"; TStringLit "denied"; TStringLit "prompt"])) in H;
    try reflexivity.
  destruct H as [k [_ H]].
  apply admits_union in H. destruct H as [k' [u [_ [Hu H]]]].
  simpl in Hu.
  repeat (destruct Hu as [<-|Hu]; [apply admits_string_literal in H; subst; simpl; tauto|]).
  contradiction.
Qed.

(** C3: every value [d] of [Deno.PermissionDescriptor] is of exactly one of the eight
    declared kinds, the one whose literal it carries under [name] (run, read, write, net,
    env, sys, ffi or hrtime).  Each of query, revoke, request and their Sync variants has one
    signature, takes [d] as its only argument and results in a [PermissionStatus], the Sync
    variants at once and the others as a promise.  [PermissionStatus] is the class of the
    namespace whose read-only [state] is a [Deno.PermissionState], and the values of that
    type are exactly granted, denied and prompt. *)
Theorem every_permission_descriptor_can_be_queried (fuel : nat) (d : value) :
  admits fuel Deno d PermissionDescriptor = true ->
  (exists k, of_one_kind fuel d k) /\
  map discriminant permission_descriptor_kinds
  = map Some ["run"; "read"; "write"; "net"; "env"; "sys"; "ffi"; "hrtime"] /\
  method_names Permissions_methods
  = ["query"; "querySync"; "revoke"; "revokeSync"; "request"; "requestSync"] /\
  Forall (accepts fuel d) (method_names Permissions_methods) /\
  flat_map (fun m => map sig_ret (methods m Permissions_methods))
           ["query"; "revoke"; "request"; "querySync"; "revokeSync"; "requestSync"]
  = [Some (TRef ["Promise"] [PermissionStatus]); Some (TRef ["Promise"] [PermissionStatus]);
     Some (TRef ["Promise"] [PermissionStatus]);
     Some PermissionStatus; Some PermissionStatus; Some PermissionStatus] /\
  members_named "state" (class_members "PermissionStatus" Deno)
  = [MProperty [Readonly] "state" Required (Some PermissionState) None] /\
  (forall f s, admits f Deno s PermissionState = true ->
               In s [VStr "granted"; VStr "denied"; VStr "prompt"]) /\
  Forall (fun s => admits 3 Deno s PermissionState = true)
         [VStr "granted"; VStr "denied"; VStr "prompt"].
Proof.
  intros H. split.
  - pose proof H as H0.
    apply (admits_alias Deno _ _ _ "PermissionDescriptor"
             (TUnion (map (fun n => TRef [n] []) permission_descriptor_kinds))) in H;
      try reflexivity.
    destruct H as [k1 [-> H]].
    apply admits_union in H. destruct H as [k2 [u [-> [Hu H]]]].
    apply in_map_iff in Hu. destruct Hu as [k [<- Hk]].
    exists k.
    destruct (descriptor_carries_its_name _ _ _ Hk H) as [lit [c [props [D [E G]]]]].
    exists lit, c, props. repeat split; auto.
    + apply (admits_le Deno k2); [lia|exact H].
    + intros f' k' Hk' H'.
      destruct (descriptor_carries_its_name _ _ _ Hk' H') as [lit' [c' [props' [D' [E' G']]]]].
      apply (NoDup_map_eq discriminant permission_descriptor_kinds);
        auto using discriminants_are_distinct.
      rewrite D, D'. congruence.
  - split; [reflexivity|]. split; [reflexivity|]. split.
    + change (method_names Permissions_methods)
        with ["query"; "querySync"; "revoke"; "revokeSync"; "request"; "requestSync"].
      repeat constructor; do 2 eexists;
        (split; [reflexivity|]); (split; [exact H|reflexivity]).
    + do 2 (split; [reflexivity|]). split; [intros f s; apply PermissionState_values|].
      repeat constructor.
Qed.

(** A net descriptor, for one: it is of one kind and every method takes it. *)
Lemma net_descriptor_can_be_queried :
  admits 4 Deno net_descriptor PermissionDescriptor = true /\
  (exists k, of_one_kind 4 net_descriptor k) /\
  Forall (accepts 4 net_descriptor) (method_names Permissions_methods).
Proof.
  split; [reflexivity|].
  pose proof (every_permission_descriptor_can_be_queried 4 net_descriptor eq_refl) as T.
  split; [exact (proj1 T)|exact (proj1 (proj2 (proj2 (proj2 T))))].
Defined.

(** A property that may be left out may also be given as [undefined], and not as [null]. *)
Lemma undefined_host_is_no_host :
  admits 4 Deno (VObject "Object" [("name", VStr "net"); ("host", VUndefined)])
         PermissionDescriptor = true /\
  admits 4 Deno (VObject "Object" [("name", VStr "net"); ("host", VNull)])
         PermissionDescriptor = false /\
  admits 4 Deno (VObject "Object" [("name", VUndefined)]) PermissionDescriptor = false.
Proof. repeat split; vm_compute; reflexivity. Qed.

(** ** Seeking *)

(** C8: the enum [Deno.SeekMode] has the three members Start = 0, Current = 1, End = 2 and no
    other.  [FsFile.seek] and [FsFile.seekSync] each have one signature, taking a numeric
    offset and a [Deno.SeekMode]; [seek] returns [Promise<number>] and [seekSync] returns
    [number], so that the position each results in is a number. *)
Theorem SeekMode_and_seek :
  enum_members "SeekMode" Deno
  = Some [("Start", Some (ENum 0)); ("Current", Some (ENum 1)); ("End", Some (ENum 2))] /\
  option_map enum_values (enum_members "SeekMode" Deno) = Some [0; 1; 2]%Z /\
  methods "seek" (class_members "FsFile" Deno)
  = [Sig [] [Param "_offset" Required TNumber; Param "_whence" Required SeekMode]
         (Some (TRef ["Promise"] [TNumber]))] /\
  methods "seekSync" (class_members "FsFile" Deno)
  = [Sig [] [Param "_offset" Required TNumber; Param "_whence" Required SeekMode]
         (Some TNumber)] /\
  map (fun s => option_map awaited (sig_ret s))
      (methods "seek" (class_members "FsFile" Deno)
       ++ methods "seekSync" (class_members "FsFile" Deno))
  = [Some TNumber; Some TNumber].
Proof.
  split; [reflexivity|]. split; [reflexivity|]. split; [reflexivity|].
  split; reflexivity.
Qed.

(** ** Asynchronous operations and their Sync variants *)

(** C9, as the specification states it, fails on the file: [readDir] and [readDirSync] are a
    pair of the surface, both take the path [path: string | URL] and nothing else, and
    [readDir] returns [AsyncIterable<DirEntry>], which is no promise, where [readDirSync]
    returns [Iterable<DirEntry>]. *)
Lemma readDir_promises_nothing :
  In "readDir" paired_functions /\
  exists a s,
    functions "readDir" Deno = [a] /\ functions "readDirSync" Deno = [s] /\
    sig_params a = [path_param] /\ sig_params s = [path_param] /\
    sig_ret a = Some (TRef ["AsyncIterable"] [TRef ["DirEntry"] []]) /\
    sig_ret s = Some (TRef ["Iterable"] [TRef ["DirEntry"] []]) /\
    ~ sync_variant a s.
Proof.
  split; [apply In_by_mem; vm_compute; reflexivity|].
  do 2 eexists. do 6 (split; [vm_compute; reflexivity|]).
  intros [p [T [_ [_ [R _]]]]]. cbn in R. congruence.
Qed.

(** C9, amended: the namespace declares thirty functions together with a Sync variant.  In
    every pair but [readDir] and [readDirSync] each of the two is declared once, they take
    the same first parameter, and the Sync variant returns the type [T] where the other
    returns [Promise<T>].  For open, readFile, readTextFile and writeFile the first
    parameter is the path [path: string | URL].  [readFileSync] and [readTextFileSync] take
    the path and nothing else, whereas [readFile] and [readTextFile] also take
    [options?: ReadFileOptions], whose only member is the abort signal.  The classes of the
    namespace have eight such pairs of methods, of [FsFile] and of [Permissions]: each Sync
    variant takes parameters of the same types as the other and returns [T] for its
    [Promise<T>]. *)
Theorem sync_variants_of_file_operations :
  length paired_functions = 30 /\
  Forall (fun f => exists a s,
            functions f Deno = [a] /\ functions (f ++ "Sync") Deno = [s] /\ sync_variant a s)
         (filter (fun f => negb (f =? "readDir")) paired_functions) /\
  Forall (fun f => exists a s,
            functions f Deno = [a] /\ functions (f ++ "Sync") Deno = [s] /\
            sync_variant a s /\ first_param s = Some path_param)
         ["open"; "readFile"; "readTextFile"; "writeFile"] /\
  map sig_params (functions "readFileSync" Deno) = [[path_param]] /\
  map sig_params (functions "readTextFileSync" Deno) = [[path_param]] /\
  map sig_params (functions "readFile" Deno)
  = [[path_param; Param "options" Optional (TRef ["ReadFileOptions"] [])]] /\
  map sig_params (functions "readTextFile" Deno)
  = [[path_param; Param "options" Optional (TRef ["ReadFileOptions"] [])]] /\
  interface_members "ReadFileOptions" Deno = [signal_field] /\
  map sig_ret (functions "open" Deno ++ functions "openSync" Deno)
  = [Some (TRef ["Promise"] [TRef ["FsFile"] []]); Some (TRef ["FsFile"] [])] /\
  map sig_ret (functions "readFile" Deno ++ functions "readFileSync" Deno)
  = [Some (TRef ["Promise"] [TRef ["Uint8Array"] []]); Some (TRef ["Uint8Array"] [])] /\
  map sig_ret (functions "readTextFile" Deno ++ functions "readTextFileSync" Deno)
  = [Some (TRef ["Promise"] [TString]); Some TString] /\
  map sig_ret (functions "writeFile" Deno ++ functions "writeFileSync" Deno)
  = [Some (TRef ["Promise"] [TVoid]); Some TVoid] /\
  length method_pairs = 8 /\
  Forall (fun cm => exists a s,
            methods (snd cm) (class_members (fst cm) Deno) = [a] /\
            methods (snd cm ++ "Sync") (class_members (fst cm) Deno) = [s] /\
            same_operation a s)
         method_pairs.
Proof.
  split; [vm_compute; reflexivity|]. split.
  { let l := eval vm_compute in (filter (fun f => negb (f =? "readDir")) paired_functions) in
    change (filter (fun f => negb (f =? "readDir")) paired_functions) with l.
    repeat apply Forall_cons; try apply Forall_nil; do 2 eexists;
      (split; [vm_compute; reflexivity|]); (split; [vm_compute; reflexivity|]);
      do 2 eexists; repeat split; reflexivity. }
  split.
  { repeat apply Forall_cons; try apply Forall_nil; do 2 eexists;
      (split; [vm_compute; reflexivity|]); (split; [vm_compute; reflexivity|]);
      (split; [|reflexivity]); do 2 eexists; repeat split; reflexivity. }
  do 9 (split; [reflexivity|]). split; [vm_compute; reflexivity|].
  let l := eval vm_compute in method_pairs in change method_pairs with l.
  repeat apply Forall_cons; try apply Forall_nil; do 2 eexists;
    (split; [vm_compute; reflexivity|]); (split; [vm_compute; reflexivity|]);
    (split; [reflexivity|]); eexists; split; reflexivity.
Qed.

(** ** Declarations without code *)

(** C4: nowhere in the file, and so nowhere below the [Deno] namespace, is a declaration a
    statement, has a function a body or a constant an initialiser; no member of a class, of
    an interface or of an object type has a body or an initialiser.  Every function and
    every constant states its type, and so does every member but the private name
    [#private] of class [Process], which is a bare name.  The only expressions of the file
    are the three numerals of the enum [SeekMode].  Every declaration below the namespace
    is exported. *)
Theorem Deno_declares_types_only :
  Forall (fun d => decl_code d = false) file_scope /\
  Forall (fun m => member_code m = false) (all_members shim_deno_lib) /\
  Forall (fun d => decl_typed d = true) file_scope /\
  filter (fun m => negb (member_typed m)) (all_members shim_deno_lib)
  = [MProperty [] "#private" Required None None] /\
  members_named "#private" (class_members "Process" Deno)
  = [MProperty [] "#private" Required None None] /\
  flat_map decl_exprs file_scope = [ENum 0; ENum 1; ENum 2] /\
  Forall (fun d => has_mod Export (decl_mods d) = true) (decls_deep Deno) /\
  incl (decls_deep Deno) file_scope /\
  incl (all_members Deno) (all_members shim_deno_lib) /\
  length (decls_deep Deno) = 218 /\ length (all_members Deno) = 282 /\
  length (function_names Deno) = 104 /\ length (classes (decls_deep Deno)) = 22.
Proof.
  split; [apply Forall_false; vm_compute; reflexivity|].
  split; [apply Forall_false; vm_compute; reflexivity|].
  split; [apply Forall_true; vm_compute; reflexivity|].
  do 3 (split; [vm_compute; reflexivity|]).
  split; [apply Forall_true; vm_compute; reflexivity|].
  split; [apply Deno_in_file|].
  split; [apply Deno_members_in_file|].
  repeat split; reflexivity.
Qed.

(** ** Cancellation, scheduling, locking *)

(** C5: inside the [Deno] namespace the shapes that carry an abort signal are
    ReadFileOptions, WriteFileOptions and ResolveDnsOptions and no other, each by the one
    optional field [signal?: AbortSignal]; no other member and no parameter of the namespace
    has a type that refers to an abort signal.  The functions that take one of the three
    shapes are readFile, readTextFile, resolveDns, writeFile, writeFileSync, writeTextFile
    and writeTextFileSync.  Among the 106 names under which the operations of the namespace
    receive anything, parameters and fields of the shapes they take, none uses a word of
    cancellation (abort, cancel, timeout, deadline), of scheduling (sched, priorit, queue,
    throttle, concurren) or of locking (lock, mutex, semaphore). *)
Theorem abort_signal_is_the_only_cancellation :
  abort_shapes Deno
  = [("ReadFileOptions", [signal_field]); ("WriteFileOptions", [signal_field]);
     ("ResolveDnsOptions", [signal_field])] /\
  only_three_abort_shapes Deno /\
  filter abort_member (all_members Deno) = [signal_field; signal_field; signal_field] /\
  filter (fun p => abort_type (p_type p)) (all_params Deno) = [] /\
  functions_taking ["ReadFileOptions"; "WriteFileOptions"; "ResolveDnsOptions"] Deno
  = ["readFile"; "readTextFile"; "resolveDns"; "writeFile"; "writeFileSync"; "writeTextFile";
     "writeTextFileSync"] /\
  closed_shapes Deno (input_shapes Deno Deno) = true /\
  incl ["ReadFileOptions"; "WriteFileOptions"; "ResolveDnsOptions"] (input_shapes Deno Deno) /\
  length (input_names Deno Deno) = 106 /\
  In "signal" (input_names Deno Deno) /\
  filter (uses_word cancellation_words) (input_names Deno Deno) = [] /\
  filter (uses_word (scheduling_words ++ locking_words)) (input_names Deno Deno) = [].
Proof.
  do 6 (split; [vm_compute; reflexivity|]).
  split; [apply incl_by_mem; vm_compute; reflexivity|].
  split; [vm_compute; reflexivity|].
  split; [apply In_by_mem; vm_compute; reflexivity|].
  split; vm_compute; reflexivity.
Qed.

(** Outside the namespace the file brings along the declarations of DOM events, for the
    class [EventTarget] that [Deno.PermissionStatus] extends.  They are no part of what the
    namespace introduces; among them [AddEventListenerOptions] has a [signal?: AbortSignal]
    as well, and the flags cancelBubble and cancelable of events are the only names of the
    file that use a word of cancellation. *)
Lemma DOM_events_outside_the_namespace :
  map fst (abort_shapes shim_deno_lib)
  = ["AddEventListenerOptions"; "ReadFileOptions"; "WriteFileOptions"; "ResolveDnsOptions"] /\
  is_declared "AddEventListenerOptions" Deno = false /\
  option_map c_extends (find_class "PermissionStatus" Deno)
  = Some (Some (TRef ["EventTarget"] [])) /\
  filter (uses_word cancellation_words) (input_names file_scope shim_deno_lib)
  = ["cancelBubble"; "cancelable"] /\
  filter (uses_word (scheduling_words ++ locking_words)) (input_names file_scope shim_deno_lib)
  = [].
Proof. do 4 (split; [vm_compute; reflexivity|]). vm_compute. reflexivity. Qed.

(** ** Record shapes *)

(** C6, as the specification states it, fails on the file: the optional field of
    [ReadPermissionDescriptor] is [path?: string | URL], and [URL] is the class imported from
    the module url at line 5, not a primitive type: a read descriptor whose path is a [URL]
    object is a permission descriptor. *)
Lemma ReadPermissionDescriptor_path_is_not_primitive :
  interface_members "ReadPermissionDescriptor" Deno
  = [MProperty [] "name" Required (Some (TStringLit "read")) None;
     MProperty [] "path" Optional (Some (TUnion [TString; TRef ["URL"] []])) None] /\
  is_primitive (TUnion [TString; TRef ["URL"] []]) = false /\
  In (DImport ["URL"] "url") shim_deno_lib /\
  admits 5 Deno read_url_descriptor PermissionDescriptor = true /\
  option_map is_primitive_value (get "path" [("name", VStr "read"); ("path", VObject "URL" [])])
  = Some false /\
  ~ descriptors_with_fields is_primitive.
Proof.
  split; [reflexivity|]. split; [reflexivity|]. split; [left; reflexivity|].
  split; [vm_compute; reflexivity|]. split; [reflexivity|].
  intros H. unfold descriptors_with_fields in H.
  rewrite Forall_forall in H.
  specialize (H "ReadPermissionDescriptor").
  assert (Hin : In "ReadPermissionDescriptor" permission_descriptor_kinds)
    by (vm_compute; tauto).
  apply H in Hin. vm_compute in Hin. discriminate.
Qed.

(** C6, amended.  The shapes given to the operations of the namespace are the object types
    that the parameters of its functions and methods may be of, by name, written in place,
    as alternative of a union or under [Omit], and the shapes given inside these as the
    value of a property; there are 107 places, and nothing is nested deeper.  Two of the
    shapes have a method, [Reader] and [Writer], which [copy] takes as source and
    destination and which are no records.  All the others are records: properties only,
    without method, call or index signature, accessor, modifier or initialiser, and each
    property has a type.  No property of a record is a function, with one exception:
    [fn], the test function of [TestDefinition] and of [TestStepDefinition].
    [OpenOptions] is the seven optional fields read, write, append, truncate, create,
    createNew, all boolean, and mode, a number; [ListenOptions], which the options of
    [listen] and [listenTls] inherit from, is a required [port: number] and an optional
    [hostname: string]; each permission descriptor is a required literal [name] followed by
    optional fields of primitive type or of type [string | URL], the latter in the run,
    read, write and ffi descriptors. *)
Theorem option_shapes_are_plain_records :
  length given_shapes = 107 /\
  flat_map (fun s => nested_shapes Deno (snd s))
           (flat_map (fun s => nested_shapes Deno (snd s)) (map snd (taken_shapes Deno)))
  = [] /\
  map fst (filter (fun s => negb (is_record (snd s))) given_shapes) = ["Reader"; "Writer"] /\
  functions_taking ["Reader"; "Writer"] Deno = ["copy"] /\
  Forall (fun s => plain_shape (filter (fun m => negb (member_name m =? "fn")) (snd s)) = true)
         given_records /\
  nodup string_dec (map fst (filter (fun s => negb (plain_shape (snd s))) given_records))
  = ["TestDefinition"; "TestStepDefinition"] /\
  Forall (fun n => filter (fun m => negb (plain_field m)) (interface_members n Deno)
                   = [MProperty [] "fn" Required (Some test_function) None])
         ["TestDefinition"; "TestStepDefinition"] /\
  incl ("OpenOptions" :: "ListenTlsOptions" :: permission_descriptor_kinds)
       (map fst given_records) /\
  In "ListenOptions" (ancestors 2 Deno "ListenTlsOptions") /\
  In "ListenOptions" (ancestors 1 Deno "TcpListenOptions") /\
  interface_members "OpenOptions" Deno
  = [MProperty [] "read" Optional (Some TBoolean) None;
     MProperty [] "write" Optional (Some TBoolean) None;
     MProperty [] "append" Optional (Some TBoolean) None;
     MProperty [] "truncate" Optional (Some TBoolean) None;
     MProperty [] "create" Optional (Some TBoolean) None;
     MProperty [] "createNew" Optional (Some TBoolean) None;
     MProperty [] "mode" Optional (Some TNumber) None] /\
  interface_members "ListenOptions" Deno
  = [MProperty [] "port" Required (Some TNumber) None;
     MProperty [] "hostname" Optional (Some TString) None] /\
  descriptors_with_fields primitive_or_path /\
  filter (fun i => negb (descriptor_shape is_primitive i)) permission_descriptor_kinds
  = ["RunPermissionDescriptor"; "ReadPermissionDescriptor"; "WritePermissionDescriptor";
     "FfiPermissionDescriptor"].
Proof.
  do 4 (split; [vm_compute; reflexivity|]).
  split; [apply Forall_true; vm_compute; reflexivity|].
  split; [vm_compute; reflexivity|].
  split; [repeat apply Forall_cons; try apply Forall_nil; vm_compute; reflexivity|].
  split; [apply incl_by_mem; vm_compute; reflexivity|].
  do 2 (split; [apply In_by_mem; vm_compute; reflexivity|]).
  do 2 (split; [reflexivity|]).
  split; [|vm_compute; reflexivity].
  apply Forall_true. vm_compute. reflexivity.
Qed.

(** ** Resources *)

(** C7, as the specification states it, fails on the file: [copy] works on open resources,
    it takes them as a [Reader] and a [Writer], which is what connections, by [Conn], and
    the standard streams are, and it has no parameter [rid]: the source and the destination
    are given as objects. *)
Lemma copy_takes_its_targets_as_objects :
  functions "copy" Deno
  = [Sig [] [Param "src" Required (TRef ["Reader"] []);
             Param "dst" Required (TRef ["Writer"] []);
             Param "options" Optional
                   (TObject [MProperty [] "bufSize" Optional (Some TNumber) None])]
         (Some (TRef ["Promise"] [TNumber]))] /\
  In "copy" functions_of_resources /\
  existsb takes_rid (functions "copy" Deno) = false /\
  existsb rid_only (functions "copy" Deno) = false /\
  incl ["Reader"; "Writer"] (ancestors 1 Deno "Conn") /\
  In "Conn" resource_types /\
  In "Reader" (declared_heads (constant_parts "stdin")) /\
  In "Writer" (declared_heads (constant_parts "stdout")) /\
  In "Writer" (declared_heads (constant_parts "stderr")).
Proof.
  split; [vm_compute; reflexivity|].
  split; [apply In_by_mem; vm_compute; reflexivity|].
  do 2 (split; [vm_compute; reflexivity|]).
  split; [apply incl_by_mem; vm_compute; reflexivity|].
  repeat split; apply In_by_mem; vm_compute; reflexivity.
Qed.

(** C7, amended: the classes and interfaces of the namespace with a member named [rid] are
    FsFile, Process, Conn, FsWatcher and Listener.  FsFile, Conn, FsWatcher and Listener
    declare it once, as [readonly rid: number], and so do the object types of the constants
    stdin, stdout and stderr; Process declares it once, as a getter of a number without
    setter.  A resource is given under one of fourteen types: these five, what they extend,
    the interfaces that the types of the standard streams list, and the interfaces that
    inherit a [rid].  The functions of the namespace that work on an open resource are
    those with a parameter named [rid], sixteen, close, read, write, shutdown, fstat,
    ftruncate, fsync and futime among them, and those with a parameter of one of the
    fourteen types, which is [copy] alone.  Each of the sixteen is declared once, with
    [rid: number] as its first parameter, no second [rid], and no other parameter whose
    type is or contains a string, a [URL] or one of the fourteen types.  The remaining
    function on a numeric handle, isatty, takes it as its only parameter, under the name
    [fd]. *)
Theorem resources_are_numeric_rids :
  resource_types = ["FsFile"; "Process"; "Conn"; "FsWatcher"; "Listener"] /\
  Forall (fun n => rid_members (declared_members n Deno) = [rid_property])
         ["FsFile"; "Conn"; "FsWatcher"; "Listener"] /\
  Forall (fun c => exists t, const_type c Deno = Some t /\
                             rid_members (object_members t) = [rid_property])
         stream_constants /\
  rid_members (declared_members "Process" Deno) = [MGetter [] "rid" (Some TNumber) None] /\
  resource_shapes
  = ["Conn"; "FsWatcher"; "Listener"; "FsFile"; "Process"; "Reader"; "ReaderSync"; "Writer";
     "WriterSync"; "Closer"; "TcpConn"; "TlsConn"; "TlsListener"; "UnixConn"] /\
  rid_functions
  = ["close"; "fdatasync"; "fdatasyncSync"; "fstat"; "fstatSync"; "fsync"; "fsyncSync";
     "ftruncate"; "ftruncateSync"; "read"; "readSync"; "shutdown"; "write"; "writeSync";
     "futime"; "futimeSync"] /\
  incl ["close"; "read"; "write"; "shutdown"; "fstat"; "ftruncate"; "fsync"; "futime"]
       rid_functions /\
  Forall (fun f => exists s, functions f Deno = [s] /\ rid_only s = true /\
                             first_param s = Some rid_param)
         rid_functions /\
  functions_of_resources = ["copy"] /\
  functions_taking ["Seeker"; "SeekerSync"] Deno = [] /\
  functions "isatty" Deno = [Sig [] [Param "fd" Required TNumber] (Some TBoolean)].
Proof.
  split; [reflexivity|].
  split; [repeat constructor|].
  split; [repeat constructor; eexists; split; reflexivity|].
  split; [reflexivity|].
  do 2 (split; [vm_compute; reflexivity|]).
  split; [apply incl_by_mem; vm_compute; reflexivity|].
  split; [|repeat split; vm_compute; reflexivity].
  assert (E : rid_functions
              = ["close"; "fdatasync"; "fdatasyncSync"; "fstat"; "fstatSync"; "fsync";
                 "fsyncSync"; "ftruncate"; "ftruncateSync"; "read"; "readSync"; "shutdown";
                 "write"; "writeSync"; "futime"; "futimeSync"]) by (vm_compute; reflexivity).
  rewrite E.
  repeat apply Forall_cons; try apply Forall_nil; eexists;
    (split; [vm_compute; reflexivity|]); split; vm_compute; reflexivity.
Qed.

(** * Further properties of the declarations *)

(** ** Overloads and unions told apart by a literal *)

(** The record that [H] says a value is of: the value is an object [c props], [F] says that
    its properties are as the members ask and [W] that it passes the check of weak types. *)
Ltac as_record H c props F W :=
  match type of H with
  | admits ?f ?ds ?v ?t = true =>
      let p := eval vm_compute in (object_parts ds t) in
      match p with
      | Some ?parts =>
          let k := fresh "k" in
          let E := fresh "Efuel" in
          let V := fresh "V" in
          destruct (admits_record ds f v t parts
                      ltac:(vm_compute; reflexivity) ltac:(vm_compute; discriminate) H)
            as [k [c [props [E [V [F W]]]]]];
          cbn [concat app forallb field_ok is_optional andb] in F;
          try subst v; try (injection V as <- <-)
      end
  end.

(** Split the conjunctions of a test that holds. *)
Ltac conjuncts H :=
  repeat match type of H with
         | (_ && _) = true =>
             let H1 := fresh H in
             apply andb_prop in H; destruct H as [H1 H]
         end.

(** What the tests on the properties say of the values: a literal type admits the literal,
    [number] a number, and an optional property may be undefined. *)
Ltac settle :=
  repeat match goal with
         | H : (_ || false) = true |- _ => rewrite orb_false_r in H
         | H : (_ || is_undefined _) = true |- _ =>
             apply orb_prop in H; destruct H as [H|H]
         | H : is_undefined ?x = true |- _ => destruct x; try discriminate H; clear H
         | H : admits _ _ _ (TStringLit _) = true |- _ => apply admits_string_literal in H
         | H : admits _ _ _ (TNumberLit _) = true |- _ => apply admits_number_literal in H
         | H : admits _ _ _ (TBooleanLit _) = true |- _ => apply admits_boolean_literal in H
         | H : admits _ _ _ TUndefined = true |- _ => apply admits_undefined in H
         | H : admits _ _ _ TNumber = true |- _ =>
             apply admits_number in H; destruct H as [? ->]
         end.

(** X1: an options value that the first form of [connect] takes, the one for TCP, is not one
    that the form for Unix sockets takes: [UnixConnectOptions] requires [transport: "unix"],
    where [ConnectOptions] has the transport absent, undefined or "tcp".  The options decide
    the form and with it the result, [TcpConn] or [UnixConn]. *)
Theorem connect_overloads_do_not_overlap (f g : nat) (v : value) :
  admits f Deno v ConnectOptions = true ->
  admits g Deno v UnixConnectOptions = false /\
  overload_param "connect" "options" = [ConnectOptions; ConnectOptions; UnixConnectOptions] /\
  overload_results "connect"
  = [Some (TRef ["Promise"] [TRef ["TcpConn"] []]);
     Some (TRef ["Promise"] [TRef ["TcpConn"] []]);
     Some (TRef ["Promise"] [TRef ["UnixConn"] []])].
Proof.
  intros H. split; [|split; reflexivity].
  destruct (admits g Deno v UnixConnectOptions) eqn:E; [exfalso|reflexivity].
  as_record H c props F W. as_record E c' props' F' W'.
  destruct (get "transport" props) as [x|] eqn:T; [|discriminate].
  conjuncts F. conjuncts F'. settle; subst; discriminate.
Qed.

Lemma tcp_options_select_TcpConn :
  admits 2 Deno tcp_options ConnectOptions = true /\
  admits 2 Deno tcp_options UnixConnectOptions = false.
Proof.
  split; [vm_compute; reflexivity|].
  exact (proj1 (connect_overloads_do_not_overlap 2 2 tcp_options eq_refl)).
Defined.

Lemma NetAddr_transport (g : nat) (v : value) :
  admits g Deno v NetAddr = true ->
  exists c props t,
    v = VObject c props /\ get "transport" props = Some (VStr t) /\ In t ["tcp"; "udp"].
Proof.
  intros H. as_record H c props F W.
  destruct (get "transport" props) as [x|] eqn:T; [|discriminate]. conjuncts F. settle.
  apply (admits_literals Deno _ _ ["tcp"; "udp"]) in F0. destruct F0 as [t [Ht ->]].
  exists c, props, t. auto.
Qed.

Lemma UnixAddr_transport (g : nat) (v : value) :
  admits g Deno v UnixAddr = true ->
  exists c props t,
    v = VObject c props /\ get "transport" props = Some (VStr t)
    /\ In t ["unix"; "unixpacket"].
Proof.
  intros H. as_record H c props F W.
  destruct (get "transport" props) as [x|] eqn:T; [|discriminate]. conjuncts F. settle.
  apply (admits_literals Deno _ _ ["unix"; "unixpacket"]) in F0. destruct F0 as [t [Ht ->]].
  exists c, props, t. auto.
Qed.

(** X2: every value of [Addr] carries its kind under [transport]: it is a [NetAddr] exactly
    when the transport is tcp or udp and a [UnixAddr] exactly when it is unix or unixpacket,
    and never both. *)
Theorem every_address_is_of_one_kind (f : nat) (v : value) :
  admits f Deno v Addr = true ->
  exists c props t,
    v = VObject c props /\ get "transport" props = Some (VStr t) /\
    ((In t ["tcp"; "udp"] /\ admits f Deno v NetAddr = true
      /\ forall g, admits g Deno v UnixAddr = false)
     \/ (In t ["unix"; "unixpacket"] /\ admits f Deno v UnixAddr = true
         /\ forall g, admits g Deno v NetAddr = false)).
Proof.
  intros H.
  apply (admits_alias Deno f v ["Addr"] "Addr" (TUnion [NetAddr; UnixAddr])) in H;
    try reflexivity.
  destruct H as [k1 [-> H]]. apply admits_union in H.
  destruct H as [k2 [u [-> [Hu H]]]].
  destruct Hu as [<-|[<-|[]]].
  - destruct (NetAddr_transport _ _ H) as [c [props [t [-> [T Ht]]]]].
    exists c, props, t. split; [reflexivity|]. split; [exact T|]. left.
    split; [exact Ht|]. split; [apply (admits_le Deno k2); [lia|exact H]|].
    intros g. destruct (admits g Deno (VObject c props) UnixAddr) eqn:E; [|reflexivity].
    destruct (UnixAddr_transport _ _ E) as [c' [props' [t' [V [T' Ht']]]]].
    injection V as <- <-. rewrite T in T'. injection T' as <-.
    simpl in Ht, Ht'. intuition congruence.
  - destruct (UnixAddr_transport _ _ H) as [c [props [t [-> [T Ht]]]]].
    exists c, props, t. split; [reflexivity|]. split; [exact T|]. right.
    split; [exact Ht|]. split; [apply (admits_le Deno k2); [lia|exact H]|].
    intros g. destruct (admits g Deno (VObject c props) NetAddr) eqn:E; [|reflexivity].
    destruct (NetAddr_transport _ _ E) as [c' [props' [t' [V [T' Ht']]]]].
    injection V as <- <-. rewrite T in T'. injection T' as <-.
    simpl in Ht, Ht'. intuition congruence.
Qed.

Lemma tcp_addr_is_a_NetAddr :
  admits 5 Deno tcp_addr Addr = true /\
  exists c props t,
    tcp_addr = VObject c props /\ get "transport" props = Some (VStr t) /\
    ((In t ["tcp"; "udp"] /\ admits 5 Deno tcp_addr NetAddr = true
      /\ forall g, admits g Deno tcp_addr UnixAddr = false)
     \/ (In t ["unix"; "unixpacket"] /\ admits 5 Deno tcp_addr UnixAddr = true
         /\ forall g, admits g Deno tcp_addr NetAddr = false)).
Proof.
  split; [vm_compute; reflexivity|]. exact (every_address_is_of_one_kind 5 tcp_addr eq_refl).
Defined.

(** X3: the exit status of a process that reports success has the code 0 and no signal,
    the property being absent or undefined; one that reports failure has a numeric code
    and, if any, a numeric signal.  No value of [ProcessStatus] is without [success] and
    [code]. *)
Theorem successful_status_has_code_zero (f : nat) (v : value) :
  admits f Deno v ProcessStatus = true ->
  exists c props,
    v = VObject c props /\
    ((get "success" props = Some (VBool true) /\ get "code" props = Some (VNum 0)
      /\ (get "signal" props = None \/ get "signal" props = Some VUndefined))
     \/ (get "success" props = Some (VBool false)
         /\ (exists z, get "code" props = Some (VNum z))
         /\ (get "signal" props = None \/ get "signal" props = Some VUndefined
             \/ exists s, get "signal" props = Some (VNum s)))).
Proof.
  intros H. unfold ProcessStatus in H.
  destruct (type_alias "ProcessStatus" Deno) as [u|] eqn:A; [|discriminate].
  apply (admits_alias Deno f v ["Deno"; "ProcessStatus"] "ProcessStatus" u) in H;
    try reflexivity; [|exact A].
  vm_compute in A. injection A as <-.
  destruct H as [k1 [_ H]]. apply admits_union in H.
  destruct H as [k2 [u [_ [Hu H]]]].
  destruct Hu as [<-|[<-|[]]]; as_record H c props F W; exists c, props;
    (split; [reflexivity|]);
    destruct (get "success" props) as [s|] eqn:S;
    destruct (get "code" props) as [z|] eqn:C;
    destruct (get "signal" props) as [g|] eqn:G;
    cbv beta iota in F; conjuncts F; try discriminate; settle; subst;
    first [left; solve [auto] | right; solve [eauto 8]].
Qed.

Lemma exit_ok_has_code_zero :
  admits 4 Deno exit_ok ProcessStatus = true /\
  exists c props,
    exit_ok = VObject c props /\
    ((get "success" props = Some (VBool true) /\ get "code" props = Some (VNum 0)
      /\ (get "signal" props = None \/ get "signal" props = Some VUndefined))
     \/ (get "success" props = Some (VBool false)
         /\ (exists z, get "code" props = Some (VNum z))
         /\ (get "signal" props = None \/ get "signal" props = Some VUndefined
             \/ exists s, get "signal" props = Some (VNum s)))).
Proof.
  split; [vm_compute; reflexivity|]. exact (successful_status_has_code_zero 4 exit_ok eq_refl).
Defined.

(** ** Options that inherit their fields *)

(** X4: the two forms of [listen] take different options: what the form for TCP takes has a
    numeric [port], which [TcpListenOptions] does not declare but inherits from
    [ListenOptions], and a [transport] that is absent, undefined or "tcp"; the form for Unix
    sockets takes none of these values, it requires [transport: "unix"].  Both return a
    [Listener]. *)
Theorem listen_overloads_do_not_overlap (f g : nat) (v : value) :
  admits f Deno v listen_tcp_options = true ->
  (exists c props z,
      v = VObject c props /\ get "port" props = Some (VNum z)
      /\ (get "transport" props = None \/ get "transport" props = Some VUndefined
          \/ get "transport" props = Some (VStr "tcp"))) /\
  admits g Deno v listen_unix_options = false /\
  members_named "port" (interface_members "TcpListenOptions" Deno) = [] /\
  overload_param "listen" "options" = [listen_tcp_options; listen_unix_options] /\
  overload_results "listen" = [Some (TRef ["Listener"] []); Some (TRef ["Listener"] [])].
Proof.
  intros H. as_record H c props F W.
  destruct (get "port" props) as [p|] eqn:P; [|conjuncts F; discriminate].
  assert (T : get "transport" props = None \/ get "transport" props = Some VUndefined
              \/ get "transport" props = Some (VStr "tcp")).
  { destruct (get "transport" props) as [x|]; [right|left; reflexivity].
    conjuncts F. settle; subst; auto. }
  assert (N : exists z, p = VNum z) by (conjuncts F; settle; eauto).
  destruct N as [z ->].
  split; [exists c, props, z; auto|].
  split; [|split; [|split]; reflexivity].
  destruct (admits g Deno (VObject c props) listen_unix_options) eqn:E; [exfalso|reflexivity].
  as_record E c' props' F' W'.
  destruct (get "transport" props) as [x|]; [|conjuncts F'; discriminate].
  conjuncts F'. settle. subst. destruct T as [T|[T|T]]; discriminate.
Qed.

Lemma tcp_listen_options_are_not_unix_options :
  admits 4 Deno (VObject "Object" [("port", VNum 80)]) listen_tcp_options = true /\
  admits 4 Deno (VObject "Object" [("port", VNum 80)]) listen_unix_options = false.
Proof.
  split; [vm_compute; reflexivity|].
  exact (proj1 (proj2 (listen_overloads_do_not_overlap
                         4 4 (VObject "Object" [("port", VNum 80)]) eq_refl))).
Defined.

(** X5: the options of [listenTls] carry a numeric [port], although [ListenTlsOptions]
    declares none: it comes from [ListenOptions] through [TcpListenOptions], two levels up.
    A given [transport] is "tcp", or undefined. *)
Theorem listenTls_options_have_a_port (f : nat) (v : value) :
  admits f Deno v ListenTlsOptions = true ->
  (exists c props z,
      v = VObject c props /\ get "port" props = Some (VNum z)
      /\ (get "transport" props = None \/ get "transport" props = Some VUndefined
          \/ get "transport" props = Some (VStr "tcp"))) /\
  members_named "port" (interface_members "ListenTlsOptions" Deno) = [] /\
  ancestors 2 Deno "ListenTlsOptions" = ["TcpListenOptions"; "ListenOptions"] /\
  overload_param "listenTls" "options" = [ListenTlsOptions].
Proof.
  intros H. split; [|split; [|split]; reflexivity].
  as_record H c props F W.
  destruct (get "port" props) as [p|] eqn:P; [|conjuncts F; discriminate].
  assert (T : get "transport" props = None \/ get "transport" props = Some VUndefined
              \/ get "transport" props = Some (VStr "tcp")).
  { destruct (get "transport" props) as [x|]; [right|left; reflexivity].
    conjuncts F. settle; subst; auto. }
  assert (N : exists z, p = VNum z) by (conjuncts F; settle; eauto).
  destruct N as [z ->]. exists c, props, z. auto.
Qed.

Lemma tls_options_have_a_port :
  admits 4 Deno tls_options ListenTlsOptions = true /\
  exists c props z,
    tls_options = VObject c props /\ get "port" props = Some (VNum z)
    /\ (get "transport" props = None \/ get "transport" props = Some VUndefined
        \/ get "transport" props = Some (VStr "tcp")).
Proof.
  split; [vm_compute; reflexivity|].
  exact (proj1 (listenTls_options_have_a_port 4 tls_options eq_refl)).
Defined.

(** ** The record types of [resolveDns] *)

(** The overload at position [i] is the one, [U] showing that there is no other. *)
Ltac overload_at U i :=
  exists i; eexists; split; [reflexivity|]; split; [reflexivity|];
  let j := fresh "j" in
  let u := fresh "u" in
  let g := fresh "g" in
  let N := fresh "N" in
  let A := fresh "A" in
  intros j u g N A; apply (U i j u g); [simpl; tauto|exact N|exact A].

(** The overload at each position takes only the record types listed with it. *)
Lemma specific_record_type (g j : nat) (u : ty) (s : string) :
  nth_error specific_record_types j = Some u ->
  admits g Deno (VStr s) u = true ->
  In (j, s) [(0, "A"); (0, "AAAA"); (0, "ANAME"); (0, "CNAME"); (0, "NS"); (0, "PTR");
             (1, "CAA"); (2, "MX"); (3, "NAPTR"); (4, "SOA"); (5, "SRV"); (6, "TXT")].
Proof.
  intros N H.
  let l := eval vm_compute in specific_record_types in
  change specific_record_types with l in N.
  do 7 (destruct j as [|j];
        [injection N as <-;
         first [ apply (admits_literals Deno _ _ ["A"; "AAAA"; "ANAME"; "CNAME"; "NS"; "PTR"])
                   in H;
                 destruct H as [t [Ht V]]; injection V as ->; simpl in Ht;
                 repeat (destruct Ht as [<-|Ht]; [simpl; tauto|]); contradiction
               | apply admits_string_literal in H; injection H as ->; simpl; tauto ]|]).
  destruct j; discriminate.
Qed.

(** X6: every record type that the general form of [resolveDns] takes is taken by exactly
    one of the seven specific forms before it, so the specific result type is always known;
    and the general form resolves to the union of the seven specific results. *)
Theorem record_type_selects_one_overload (f : nat) (v : value) :
  admits f Deno v RecordType = true ->
  (exists i t,
      nth_error specific_record_types i = Some t /\ admits f Deno v t = true
      /\ forall j u g,
          nth_error specific_record_types j = Some u -> admits g Deno v u = true -> j = i) /\
  nth_error (overload_param "resolveDns" "recordType") 7 = Some RecordType /\
  nth_error (overload_results "resolveDns") 7
  = Some (Some (TRef ["Promise"] [TUnion specific_record_results])).
Proof.
  intros H. split; [|split; reflexivity].
  apply (admits_alias Deno f v ["RecordType"] "RecordType"
           (TUnion (map TStringLit record_types))) in H; try reflexivity.
  destruct H as [k [-> H]].
  destruct (admits_literals Deno _ _ _ H) as [s [Hs ->]].
  apply admits_union in H. destruct H as [k' [_ [-> _]]].
  assert (U : forall i j u g,
             In (i, s) [(0, "A"); (0, "AAAA"); (0, "ANAME"); (0, "CNAME"); (0, "NS");
                        (0, "PTR"); (1, "CAA"); (2, "MX"); (3, "NAPTR"); (4, "SOA");
                        (5, "SRV"); (6, "TXT")] ->
             nth_error specific_record_types j = Some u ->
             admits g Deno (VStr s) u = true -> j = i).
  { intros i j u g Hi N A. pose proof (specific_record_type g j u s N A) as Hj.
    simpl in Hi, Hj.
    repeat (destruct Hi as [Hi|Hi]; [injection Hi as <- <-|]); try contradiction;
      repeat (destruct Hj as [Hj|Hj]; [injection Hj as <-; try reflexivity; discriminate|]);
      contradiction. }
  let l := eval vm_compute in specific_record_types in
  change specific_record_types with l in U |- *.
  unfold record_types in Hs. simpl in Hs.
  repeat (destruct Hs as [<-|Hs];
          [first [ overload_at U 0 | overload_at U 1 | overload_at U 2 | overload_at U 3
                 | overload_at U 4 | overload_at U 5 | overload_at U 6 ]|]).
  contradiction.
Qed.

Lemma MX_selects_the_third_overload :
  admits 3 Deno (VStr "MX") RecordType = true /\
  exists i t,
    nth_error specific_record_types i = Some t /\ admits 3 Deno (VStr "MX") t = true
    /\ forall j u g,
        nth_error specific_record_types j = Some u ->
        admits g Deno (VStr "MX") u = true -> j = i.
Proof.
  split; [reflexivity|].
  exact (proj1 (record_type_selects_one_overload 3 (VStr "MX") eq_refl)).
Defined.

(** ** Signatures and calls *)

Lemma optional_suffix (ps : list param) :
  forallb (fun q => negb (is_required q)) ps = true ->
  filter is_required ps = [] /\ forall n, existsb is_required (skipn n ps) = false.
Proof.
  induction ps as [|p ps IH]; cbn [forallb filter]; intros H.
  - split; [reflexivity|]. intros [|n]; reflexivity.
  - apply andb_prop in H. destruct H as [Hp H]. destruct (IH H) as [F E].
    destruct (is_required p) eqn:R; [discriminate|]. split; [exact F|].
    intros [|n]; cbn [skipn existsb].
    + rewrite R. apply (E 0).
    + apply E.
Qed.

(** Where the required parameters come first, they are the first ones, as many as there are,
    and beyond them every parameter may be left out. *)
Lemma required_first_split (ps : list param) :
  required_first ps = true ->
  forallb is_required (firstn (length (filter is_required ps)) ps) = true /\
  forall n, length (filter is_required ps) <= n ->
            existsb is_required (skipn n ps) = false.
Proof.
  induction ps as [|p ps IH]; cbn [required_first filter]; intros H.
  - split; [reflexivity|]. intros [|n] _; reflexivity.
  - destruct (is_required p) eqn:R.
    + destruct (IH H) as [F E]. cbn [length firstn forallb]. rewrite R.
      split; [exact F|].
      intros [|n] L; [lia|]. cbn [skipn]. apply E. lia.
    + destruct (optional_suffix ps H) as [F E]. rewrite F. split; [reflexivity|].
      intros [|n] _; cbn [skipn existsb]; [|apply E]. rewrite R. apply (E 0).
Qed.

(** X7: in every signature of the file, of a function, a method, a constructor or a function
    type, the required parameters come first and none is variadic; a leading [this] is no
    parameter of a call.  So a call whose number of arguments fits binds its arguments to
    the first parameters, all the required ones among them, and leaves only optional ones
    without an argument. *)
Theorem arguments_bind_required_parameters (s : signature) (n : nat) :
  In s (all_signatures shim_deno_lib) -> arity_fits n s = true ->
  required_count s <= n <= length (call_params s) /\
  forallb is_required (firstn (required_count s) (call_params s)) = true /\
  existsb is_required (skipn n (call_params s)) = false.
Proof.
  intros Hs Hn.
  assert (W : forallb well_ordered (all_signatures shim_deno_lib) = true)
    by (vm_compute; reflexivity).
  rewrite forallb_forall in W. specialize (W s Hs). unfold well_ordered in W.
  apply andb_prop in W. destruct W as [W V]. apply negb_true_iff in V.
  unfold arity_fits in Hn. rewrite V, orb_false_r in Hn.
  apply andb_prop in Hn. destruct Hn as [L U].
  apply Nat.leb_le in L, U. unfold required_count.
  destruct (required_first_split _ W) as [F E]. auto.
Qed.

(** The handler of [PermissionStatus.onchange], the one signature of the file that declares
    the type of [this], is called with the event alone. *)
Lemma onchange_is_called_with_the_event :
  arity_fits 1 onchange_handler = true /\
  arity_fits 2 onchange_handler = false /\
  required_count onchange_handler <= 1 <= length (call_params onchange_handler).
Proof.
  assert (H : In onchange_handler (all_signatures shim_deno_lib)).
  { apply (nth_error_In _ 170). vm_compute. reflexivity. }
  split; [reflexivity|]. split; [reflexivity|].
  exact (proj1 (arguments_bind_required_parameters _ 1 H eq_refl)).
Defined.

(** ** Names *)

(** X8: every type name written in the file resolves: to a declaration in scope, to a type
    parameter, to a member of the namespace it is qualified with, or to one of twelve names
    of the standard library, each of which is in use.  No reference dangles. *)
Theorem every_written_name_resolves :
  unresolved_refs shim_deno_lib = [] /\
  used_library_names shim_deno_lib = library_names /\
  length (flat_map written_refs (flat_map decl_types file_scope)) = 438.
Proof.
  split; [vm_compute; reflexivity|]. split; vm_compute; reflexivity.
Qed.

Lemma length_nodup (l : list string) : length (nodup string_dec l) <= length l.
Proof.
  induction l as [|x l IH]; simpl; [lia|].
  destruct (in_dec string_dec x l); simpl; lia.
Qed.

Lemma no_duplicates (l : list string) : has_duplicates l = false -> NoDup l.
Proof.
  unfold has_duplicates. intros H. apply negb_false_iff in H. apply Nat.eqb_eq in H.
  induction l as [|x l IH]; [constructor|]. simpl in H.
  destruct (in_dec string_dec x l) as [I|I].
  - pose proof (length_nodup l). lia.
  - simpl in H. constructor; [exact I|]. apply IH. lia.
Qed.

(** X9: a name that the namespace declares more than once is a function with several forms
    or an interface in several parts, never a mix, and none of the 110 interfaces, classes
    and object types of the file declares a property twice, the parts of an interface taken
    together. *)
Theorem merged_declarations_do_not_clash :
  declared_twice Deno
  = ["connect"; "connectTls"; "listen"; "resolveDns"; "run"; "test"; "ConnectTlsOptions";
     "ListenTlsOptions"; "TcpListenOptions"; "TlsConn"; "TlsHandshakeInfo"] /\
  Forall (fun n => is_function n Deno = true \/ only_interfaces n Deno = true)
         (declared_twice Deno) /\
  length (member_lists shim_deno_lib) = 110 /\
  Forall (fun ms => NoDup (instance_fields ms) /\ NoDup (static_fields ms))
         (member_lists shim_deno_lib).
Proof.
  split; [vm_compute; reflexivity|]. split; [|split; [vm_compute; reflexivity|]].
  - assert (H : forallb (fun n => is_function n Deno || only_interfaces n Deno)
                        (declared_twice Deno) = true) by (vm_compute; reflexivity).
    apply Forall_true in H. revert H. apply Forall_impl. intros n H.
    apply orb_prop in H. exact H.
  - assert (H : forallb (fun ms => negb (has_duplicates (instance_fields ms))
                                   && negb (has_duplicates (static_fields ms)))
                        (member_lists shim_deno_lib) = true) by (vm_compute; reflexivity).
    apply Forall_true in H. revert H. apply Forall_impl. intros ms H.
    apply andb_prop in H. destruct H as [A B]. apply negb_true_iff in A, B.
    split; apply no_duplicates; assumption.
Qed.

(** ** Operations and their Sync variants, parameter by parameter *)

(** X10: the Sync variant of a function takes the same parameters as the function, in
    presence and type, and returns what the function promises.  This holds of 25 of the 30
    pairs of the namespace and of the eight pairs of methods of its classes.  The others
    are [readDir], whose result is iterable and no promise; [readFile] and [readTextFile], whose options, for aborting,
    have no place in the Sync variant; and [writeFile] and [writeTextFile], which also
    take the data as a stream where the Sync variant takes it whole. *)
Theorem sync_variants_take_the_same_parameters :
  Forall (fun f => exists a s,
            functions f Deno = [a] /\ functions (f ++ "Sync") Deno = [s] /\
            same_operation a s)
         (filter (fun f => negb (mem f uneven_pairs)) paired_functions) /\
  length (filter (fun f => negb (mem f uneven_pairs)) paired_functions) = 25 /\
  incl uneven_pairs paired_functions /\
  Forall (fun f => exists a s,
            functions f Deno = [a] /\ functions (f ++ "Sync") Deno = [s] /\
            param_shapes a = param_shapes s ++ [(Optional, TRef ["ReadFileOptions"] [])])
         ["readFile"; "readTextFile"] /\
  Forall (fun f => exists T,
            overload_param (f ++ "Sync") "data" = [T] /\
            overload_param f "data" = [TUnion [T; TRef ["ReadableStream"] [T]]])
         ["writeFile"; "writeTextFile"] /\
  Forall (fun cm => exists a s,
            methods (snd cm) (class_members (fst cm) Deno) = [a] /\
            methods (snd cm ++ "Sync") (class_members (fst cm) Deno) = [s] /\
            same_operation a s)
         method_pairs /\
  method_pairs
  = [("FsFile", "write"); ("FsFile", "truncate"); ("FsFile", "read"); ("FsFile", "seek");
     ("FsFile", "stat"); ("Permissions", "query"); ("Permissions", "revoke");
     ("Permissions", "request")].
Proof.
  split; [|split; [vm_compute; reflexivity|]].
  { let l := eval vm_compute in
             (filter (fun f => negb (mem f uneven_pairs)) paired_functions) in
    change (filter (fun f => negb (mem f uneven_pairs)) paired_functions) with l.
    repeat apply Forall_cons; try apply Forall_nil; do 2 eexists;
      (split; [vm_compute; reflexivity|]); (split; [vm_compute; reflexivity|]);
      (split; [reflexivity|]); eexists; split; reflexivity. }
  split; [apply incl_by_mem; vm_compute; reflexivity|].
  split.
  { repeat apply Forall_cons; try apply Forall_nil; do 2 eexists;
      (split; [vm_compute; reflexivity|]); (split; [vm_compute; reflexivity|]);
      reflexivity. }
  split.
  { repeat apply Forall_cons; try apply Forall_nil; eexists;
      (split; [vm_compute; reflexivity|]); vm_compute; reflexivity. }
  split; [|vm_compute; reflexivity].
  let l := eval vm_compute in method_pairs in change method_pairs with l.
  repeat apply Forall_cons; try apply Forall_nil; do 2 eexists;
    (split; [vm_compute; reflexivity|]); (split; [vm_compute; reflexivity|]);
    (split; [reflexivity|]); eexists; split; reflexivity.
Qed.

(** ** Files and streams *)

(** X11: an [FsFile] has every member of [Reader], [ReaderSync], [Writer], [WriterSync],
    [Closer] and [SeekerSync], each with the parameters and the result that the interface
    declares, so it may be given to [copy] as source and as destination.  Of [Seeker] it
    has [seek] with a narrower offset: [number], where the interface takes
    [number | bigint]. *)
Theorem FsFile_offers_the_io_interfaces :
  Forall (fun i => forall m,
            In m (map member_name (interface_members i Deno)) ->
            exists s, method_shapes m (interface_members i Deno) = [s]
                      /\ method_shapes m (class_members "FsFile" Deno) = [s])
         io_interfaces /\
  flat_map (fun i => map member_name (interface_members i Deno)) io_interfaces
  = ["read"; "readSync"; "write"; "writeSync"; "close"; "seekSync"] /\
  map member_name (interface_members "Seeker" Deno) = ["seek"] /\
  method_shapes "seek" (interface_members "Seeker" Deno)
  = [([(Required, TUnion [TNumber; TBigint]); (Required, TRef ["SeekMode"] [])],
      Some (TRef ["Promise"] [TNumber]))] /\
  method_shapes "seek" (class_members "FsFile" Deno)
  = [([(Required, TNumber); (Required, TRef ["SeekMode"] [])],
      Some (TRef ["Promise"] [TNumber]))] /\
  overload_param "copy" "src" = [TRef ["Reader"] []] /\
  overload_param "copy" "dst" = [TRef ["Writer"] []].
Proof.
  split; [|repeat split; vm_compute; reflexivity].
  repeat constructor; intros m Hm; vm_compute in Hm; destruct Hm as [<-|[]];
    eexists; split; vm_compute; reflexivity.
Qed.

(** X12: the three standard streams are resources with a numeric [rid] that can be closed.
    [stdin] can be read and not written, [stdout] and [stderr] can be written and not
    read: of the two parameters of [copy], [stdin] fits the source only and the two others
    the destination only. *)
Theorem standard_streams_read_or_write :
  interfaces_of "stdin" = ["Reader"; "ReaderSync"; "Closer"] /\
  interfaces_of "stdout" = ["Writer"; "WriterSync"; "Closer"] /\
  interfaces_of "stderr" = ["Writer"; "WriterSync"; "Closer"] /\
  Forall (fun n => rid_members (own_members_of n) = [rid_property]
                   /\ length (parts_of n) = 4)
         stream_names /\
  map (fun n => map member_name (own_members_of n)) stream_names
  = [["rid"; "readable"; "setRaw"]; ["rid"; "writable"]; ["rid"; "writable"]] /\
  flat_map (fun i => map member_name (interface_members i Deno))
           ["Reader"; "ReaderSync"; "Writer"; "WriterSync"; "Closer"]
  = ["read"; "readSync"; "write"; "writeSync"; "close"] /\
  overload_param "copy" "src" = [TRef ["Reader"] []] /\
  overload_param "copy" "dst" = [TRef ["Writer"] []].
Proof.
  repeat split; try (vm_compute; reflexivity).
  repeat constructor; vm_compute; reflexivity.
Qed.

(** ** Heritage *)

Section Heritage.

Variable ds : list decl.

Lemma no_interface_no_heritage (n : string) :
  is_interface n ds = false -> interface_extends n ds = [] /\ interface_members n ds = [].
Proof.
  unfold is_interface, interface_extends, interface_members.
  induction ds as [|d l IH]; cbn [existsb flat_map]; intros H; [split; reflexivity|].
  apply orb_false_elim in H. destruct H as [Hd H]. destruct (IH H) as [E M].
  rewrite E, M. destruct d; try (split; reflexivity). rewrite Hd. split; reflexivity.
Qed.

Lemma no_interface_no_parents (n : string) : is_interface n ds = false -> parents ds n = [].
Proof.
  intros H. unfold parents. rewrite (proj1 (no_interface_no_heritage n H)). reflexivity.
Qed.

Lemma no_interface_no_ancestors (n : string) (d : nat) :
  is_interface n ds = false -> ancestors d ds n = [].
Proof.
  intros H. destruct d as [|d]; [reflexivity|]. cbn [ancestors].
  rewrite (no_interface_no_parents n H). reflexivity.
Qed.

Lemma interface_is_named (n : string) : is_interface n ds = true -> In n (interface_names ds).
Proof.
  unfold is_interface, interface_names. intros H. apply existsb_exists in H.
  destruct H as [d [Hd E]]. apply nodup_In. apply in_flat_map. exists d.
  split; [exact Hd|]. destruct d; try discriminate. apply String.eqb_eq in E. subst.
  left. reflexivity.
Qed.

(** Once one more level adds nothing anywhere, no further level does. *)
Lemma ancestors_stable (k : nat) :
  (forall n, ancestors (S k) ds n = ancestors k ds n) ->
  forall j n, ancestors (j + k) ds n = ancestors k ds n.
Proof.
  intros H j. induction j as [|j IH]; intros n; [reflexivity|].
  cbn [Nat.add ancestors]. rewrite <- (H n). cbn [ancestors]. f_equal.
  apply flat_map_ext. exact IH.
Qed.

Lemma same_names_eq (a b : list string) : same_names a b = true -> a = b.
Proof. unfold same_names. destruct (list_eq_dec string_dec a b); [auto|discriminate]. Qed.

(** What holds of every interface by evaluation, and of no interface trivially, holds of
    every name. *)
Lemma settled_everywhere (k : nat) :
  forallb (settled ds k) (interface_names ds) = true ->
  forall n, ancestors (S k) ds n = ancestors k ds n /\ ~ In n (ancestors k ds n).
Proof.
  intros H n. destruct (is_interface n ds) eqn:I.
  - rewrite forallb_forall in H. specialize (H n (interface_is_named n I)).
    unfold settled in H. apply andb_prop in H. destruct H as [E M].
    split; [apply same_names_eq; exact E|].
    apply negb_true_iff in M. intros Hn. apply mem_spec in Hn. congruence.
  - rewrite !(no_interface_no_ancestors n _ I). split; [reflexivity|intros []].
Qed.

End Heritage.

(** X13: the heritage of the interfaces of the namespace has no cycle and is two levels
    deep at most, as from [TcpConn] over [Conn] to [Reader]: looking further up than two
    levels finds nothing more, and no interface is among its own ancestors. *)
Theorem heritage_is_two_levels_deep (n : string) (d : nat) :
  2 <= d ->
  ancestors d Deno n = ancestors 2 Deno n /\ ~ In n (ancestors d Deno n).
Proof.
  intros L.
  assert (S : forallb (settled Deno 2) (interface_names Deno) = true)
    by (vm_compute; reflexivity).
  pose proof (settled_everywhere Deno 2 S) as H.
  assert (E : ancestors d Deno n = ancestors 2 Deno n).
  { replace d with ((d - 2) + 2) by lia.
    apply ancestors_stable. intros m. exact (proj1 (H m)). }
  split; [exact E|]. rewrite E. exact (proj2 (H n)).
Qed.

Lemma TcpConn_has_the_ancestors_of_two_levels :
  2 <= 5 /\
  ancestors 5 Deno "TcpConn" = ancestors 2 Deno "TcpConn" /\
  ~ In "TcpConn" (ancestors 5 Deno "TcpConn").
Proof.
  split; [lia|]. apply (heritage_is_two_levels_deep "TcpConn" 5). lia.
Defined.

(** X14: the interfaces that extend [Conn] are [TcpConn], [TlsConn] and [UnixConn].  Each
    has, besides its own members, those of [Conn] and through it those of [Reader],
    [Writer] and [Closer]; its [rid] is the one of [Conn], a readonly number, and its
    addresses are those of [Conn], of type [Addr]: none narrows them to its transport. *)
Theorem connections_inherit_from_Conn (n : string) :
  In "Conn" (parents Deno n) ->
  In n connections /\
  inherited_members 2 Deno n = interface_members n Deno ++ inherited_members 2 Deno "Conn" /\
  rid_members (inherited_members 2 Deno n) = [rid_property] /\
  map member_name (inherited_members 2 Deno "Conn")
  = ["localAddr"; "remoteAddr"; "rid"; "readable"; "writable"; "closeWrite"; "ref";
     "unref"; "read"; "write"; "close"] /\
  field_type "localAddr" (inherited_members 2 Deno n) = [Addr] /\
  field_type "remoteAddr" (inherited_members 2 Deno n) = [Addr].
Proof.
  intros H.
  assert (I : In n connections).
  { destruct (is_interface n Deno) eqn:I.
    - assert (F : forallb (fun m => negb (mem "Conn" (parents Deno m)) || mem m connections)
                          (interface_names Deno) = true) by (vm_compute; reflexivity).
      rewrite forallb_forall in F. specialize (F n (interface_is_named Deno n I)).
      apply mem_spec in H. rewrite H in F. apply mem_spec. exact F.
    - rewrite (no_interface_no_parents Deno n I) in H. contradiction. }
  split; [exact I|].
  destruct I as [<-|[<-|[<-|[]]]];
    (split; [vm_compute; reflexivity|]); (split; [vm_compute; reflexivity|]);
    (split; [vm_compute; reflexivity|]); split; vm_compute; reflexivity.
Qed.

Lemma UnixConn_inherits_from_Conn :
  In "UnixConn" connections /\
  rid_members (inherited_members 2 Deno "UnixConn") = [rid_property].
Proof.
  assert (H : In "Conn" (parents Deno "UnixConn")) by (vm_compute; auto).
  destruct (connections_inherit_from_Conn "UnixConn" H) as [A [_ [B _]]].
  split; [exact A|exact B].
Defined.

(** ** Options that may be left out *)

(** With no property at all, a record is as its members ask exactly when none of them is
    required. *)
Lemma empty_object_fields (chk : value -> ty -> bool) (ms : list member) :
  is_record ms = true ->
  forallb (field_ok chk []) ms = negb (existsb requires_field ms).
Proof.
  unfold is_record. induction ms as [|m ms IH]; cbn [forallb existsb]; intros H.
  - reflexivity.
  - apply andb_prop in H. destruct H as [P H]. rewrite (IH H).
    destruct m as [mods f pr [u|] init| | | | | |]; try discriminate;
      cbn [field_ok get requires_field]; destruct (is_optional pr); reflexivity.
Qed.

Lemma empty_object_admitted (g : nat) (t : ty) (parts : list (list member)) :
  object_parts Deno t = Some parts -> is_record (concat parts) = true ->
  admits (S g) Deno empty_object t = negb (existsb requires_field (record_members Deno t)).
Proof.
  intros O R. unfold record_members, empty_object. rewrite O.
  rewrite (admits_object Deno g _ _ t parts O), (empty_object_fields _ _ R).
  unfold weak_ok. replace (has_properties "Object" []) with false by reflexivity.
  cbn [negb]. rewrite orb_true_r. cbn [orb]. apply andb_true_r.
Qed.

Lemma record_params_denote_records (f : string) (pr : presence) (t : ty) :
  In (f, pr, t) (record_params Deno) ->
  exists parts, object_parts Deno t = Some parts /\ is_record (concat parts) = true.
Proof.
  unfold record_params. intros H. apply in_flat_map in H. destruct H as [o [_ H]].
  apply in_flat_map in H. destruct H as [p [_ H]].
  destruct (object_parts Deno (ranged (sig_tparams (snd o)) (p_type p))) as [parts|] eqn:O;
    [|contradiction].
  destruct (is_record (concat parts)) eqn:R; [|contradiction].
  destruct H as [H|[]]. injection H as _ _ <-. eauto.
Qed.

(** X15: the empty object is a value of the record that an operation takes exactly when
    the record requires no field.  Where the options may be left out they may as well be
    empty, and where they are required they are not empty, but for six parameters.
    Optional options that must say something once given: those of [symlink] and
    [symlinkSync], the type of the link, of [watchFs], [recursive], and of [setRaw],
    [cbreak].  Required options that may be empty: those of the two forms of [test] whose
    options leave out the name with the function; in the third form a name is required. *)
Theorem options_may_be_left_empty (f : string) (pr : presence) (t : ty) :
  In (f, pr, t) (record_params Deno) ->
  (forall g, admits (S g) Deno empty_object t
             = negb (existsb requires_field (record_members Deno t))) /\
  (pr = Optional -> ~ In f ["symlink"; "symlinkSync"; "watchFs"; "setRaw"] ->
   forall g, admits (S g) Deno empty_object t = true) /\
  (pr = Required -> f <> "test" -> forall g, admits g Deno empty_object t = false) /\
  optional_yet_demanding = ["symlink"; "symlinkSync"; "watchFs"; "setRaw"] /\
  required_yet_free = ["test"; "test"] /\
  map (fun u => map member_name (filter requires_field (record_members Deno u)))
      (overload_param "test" "options")
  = [[]; ["name"]; []] /\
  length (record_params Deno) = 44.
Proof.
  intros H. destruct (record_params_denote_records f pr t H) as [parts [O R]].
  assert (A : forall g, admits (S g) Deno empty_object t
                        = negb (existsb requires_field (record_members Deno t)))
    by (intros g; exact (empty_object_admitted g t parts O R)).
  assert (F : forallb (fun x => let '(n, q, u) := x in
                         let demanding := existsb requires_field (record_members Deno u) in
                         match q with
                         | Optional => negb demanding
                                       || mem n ["symlink"; "symlinkSync"; "watchFs"; "setRaw"]
                         | Required => demanding || (n =? "test")
                         | Rest => true
                         end) (record_params Deno) = true) by (vm_compute; reflexivity).
  rewrite forallb_forall in F. specialize (F _ H). cbv beta iota in F.
  split; [exact A|]. split; [|split; [|repeat split; vm_compute; reflexivity]].
  - intros -> N g. rewrite A. apply orb_prop in F. destruct F as [F|F]; [exact F|].
    apply mem_spec in F. contradiction.
  - intros -> N [|g]; [reflexivity|]. rewrite A. apply orb_prop in F.
    destruct F as [F|F]; [rewrite F; reflexivity|].
    apply String.eqb_eq in F. contradiction.
Qed.

Lemma open_takes_empty_options :
  admits 1 Deno empty_object (TRef ["OpenOptions"] []) = true.
Proof.
  assert (H : In ("open", Optional, TRef ["OpenOptions"] []) (record_params Deno)).
  { vm_compute. repeat (first [left; reflexivity | right]). }
  refine (proj1 (proj2 (options_may_be_left_empty "open" Optional _ H)) eq_refl _ 0).
  vm_compute. intuition discriminate.
Defined.

(** ** Permissions by name *)

(** X16: the name that a permission descriptor carries is a [PermissionName], and the
    options of a test have a field of that name to grant or deny the permission. *)
Theorem descriptor_names_are_permission_names (f : nat) (v : value) :
  admits f Deno v PermissionDescriptor = true ->
  exists c props s,
    v = VObject c props /\ get "name" props = Some (VStr s) /\
    In s permission_names /\
    admits 3 Deno (VStr s) PermissionName = true /\
    In s (map member_name (interface_members "PermissionOptionsObject" Deno)).
Proof.
  intros H.
  destruct (type_alias "PermissionDescriptor" Deno) as [u|] eqn:A; [|discriminate].
  apply (admits_alias Deno f v ["Deno"; "PermissionDescriptor"] "PermissionDescriptor" u)
    in H; try reflexivity; [|exact A].
  vm_compute in A. injection A as <-.
  destruct H as [k1 [_ H]]. apply admits_union in H. destruct H as [k2 [u [_ [Hu H]]]].
  repeat (destruct Hu as [<-|Hu];
          [as_record H c props F W;
           destruct (get "name" props) as [x|] eqn:N; [|conjuncts F; discriminate];
           conjuncts F; settle; subst; exists c, props; eexists;
           (split; [reflexivity|]); (split; [exact N|]);
           (split; [vm_compute; tauto|]); (split; [reflexivity|]); vm_compute; tauto|]).
  contradiction.
Qed.

Lemma net_descriptor_names_a_permission :
  admits 5 Deno net_descriptor PermissionDescriptor = true /\
  exists c props s,
    net_descriptor = VObject c props /\ get "name" props = Some (VStr s) /\
    In s permission_names /\
    admits 3 Deno (VStr s) PermissionName = true /\
    In s (map member_name (interface_members "PermissionOptionsObject" Deno)).
Proof.
  split; [reflexivity|].
  exact (descriptor_names_are_permission_names 5 net_descriptor eq_refl).
Defined.

(** X17: every [PermissionName] makes a permission descriptor by itself: the object that
    carries the name and nothing else is a [PermissionDescriptor], every other field of a
    descriptor being optional. *)
Theorem permission_name_alone_is_a_descriptor (f : nat) (v : value) :
  admits f Deno v PermissionName = true ->
  exists s,
    v = VStr s /\ In s permission_names /\
    admits 4 Deno (named s) PermissionDescriptor = true.
Proof.
  intros H.
  apply (admits_alias Deno f v ["PermissionName"] "PermissionName"
           (TUnion (map TStringLit permission_names))) in H; try reflexivity.
  destruct H as [k [_ H]]. apply admits_literals in H. destruct H as [s [Hs ->]].
  exists s. split; [reflexivity|]. split; [exact Hs|].
  vm_compute in Hs.
  repeat (destruct Hs as [<-|Hs]; [vm_compute; reflexivity|]). contradiction.
Qed.

Lemma hrtime_alone_is_a_descriptor :
  admits 3 Deno (VStr "hrtime") PermissionName = true /\
  exists s,
    VStr "hrtime" = VStr s /\ In s permission_names /\
    admits 4 Deno (named s) PermissionDescriptor = true.
Proof.
  split; [reflexivity|].
  exact (permission_name_alone_is_a_descriptor 3 (VStr "hrtime") eq_refl).
Defined.

(** ** Processes *)

(** X18: the stream of a process that was run with the option "piped" is never null, and
    with any other option, "inherit", "null" or the [rid] of a resource, it may be null.
    This holds of [stdin], [stdout] and [stderr] alike, by the conditional types of the
    three getters of [Process]. *)
Theorem piped_streams_are_never_null (k : string) (opt : ty) :
  In k stream_names -> In opt (run_option k) ->
  exists t,
    stream_type k opt = Some t /\
    (opt = TStringLit "piped" -> forall g, admits g Deno VNull t = false) /\
    (opt <> TStringLit "piped" -> admits 2 Deno VNull t = true).
Proof.
  intros Hk Ho. unfold stream_names in Hk.
  repeat (destruct Hk as [<-|Hk];
          [vm_compute in Ho;
           repeat (destruct Ho as [<-|Ho];
                   [eexists; split; [vm_compute; reflexivity|]; split;
                    [intros E g; first [discriminate E
                                       | destruct g as [|[|g]]; vm_compute; reflexivity]
                    |intros N; first [reflexivity | exfalso; apply N; reflexivity]]|]);
           contradiction|]).
  contradiction.
Qed.

Lemma piped_stdout_is_not_null :
  exists t,
    stream_type "stdout" (TStringLit "piped") = Some t /\
    forall g, admits g Deno VNull t = false.
Proof.
  assert (K : In "stdout" stream_names) by (simpl; tauto).
  assert (O : In (TStringLit "piped") (run_option "stdout")) by (vm_compute; tauto).
  destruct (piped_streams_are_never_null "stdout" (TStringLit "piped") K O)
    as [t [T [P _]]].
  exists t. split; [exact T|exact (P eq_refl)].
Defined.

(** X19: [kill] takes a signal by one of 34 names and nothing else, whereas the method
    [kill] of a [Process] takes any string: what the function takes the method takes as
    well, and not the other way round. *)
Theorem kill_takes_a_signal_by_name (f : nat) (v : value) :
  admits f Deno v Signal = true ->
  (exists s, v = VStr s /\ In s signal_names) /\
  admits 1 Deno v TString = true /\
  (forall s g, ~ In s signal_names -> admits g Deno (VStr s) Signal = false) /\
  length signal_names = 34 /\
  overload_param "kill" "signo" = [Signal] /\
  map sig_params (methods "kill" (class_members "Process" Deno))
  = [[Param "signo" Optional TString]].
Proof.
  assert (A : forall g w, admits g Deno w Signal = true ->
                          exists s, w = VStr s /\ In s signal_names).
  { intros g w H.
    apply (admits_alias Deno g w ["Signal"] "Signal"
             (TUnion (map TStringLit signal_names))) in H; try reflexivity.
    destruct H as [k [_ H]]. apply admits_literals in H. destruct H as [s [Hs ->]].
    eauto. }
  intros H. destruct (A f v H) as [s [-> Hs]].
  split; [eauto|]. split; [reflexivity|]. split; [|repeat split].
  intros s' g N. destruct (admits g Deno (VStr s') Signal) eqn:E; [exfalso|reflexivity].
  destruct (A g _ E) as [s'' [V Hs'']]. injection V as <-. exact (N Hs'').
Qed.

Lemma SIGTERM_is_a_signal :
  admits 3 Deno (VStr "SIGTERM") Signal = true /\
  admits 1 Deno (VStr "SIGTERM") TString = true.
Proof.
  split; [reflexivity|].
  exact (proj1 (proj2 (kill_takes_a_signal_by_name 3 (VStr "SIGTERM") eq_refl))).
Defined.

(** ** Tests *)

(** X20: each of the six forms of [test] takes the test function, and takes it once: on its
    own as [fn], with options that leave [fn] out, or inside a [TestDefinition].  The same
    holds of the name where it is given on its own; and what is given on its own has the
    type of the field of [TestDefinition] it stands for. *)
Theorem forms_of_test_ask_once (s : signature) :
  In s (functions "test" Deno) ->
  asks_once s = true /\
  sig_ret s = Some TVoid /\
  Forall (fun p => field_type (p_name p) (interface_members "TestDefinition" Deno)
                   = [p_type p]) (given_fields s) /\
  (In "fn" (map p_name (given_fields s))
   \/ map p_type (sig_params s) = [TRef ["TestDefinition"] []]).
Proof.
  intros H.
  let l := eval vm_compute in (functions "test" Deno) in
  change (functions "test" Deno) with l in H.
  repeat (destruct H as [<-|H];
          [split; [vm_compute; reflexivity|]; split; [reflexivity|]; split;
           [match goal with
            | |- context [given_fields ?s] =>
                let l := eval vm_compute in (given_fields s) in
                change (given_fields s) with l
            end;
            repeat apply Forall_cons; try apply Forall_nil; vm_compute; reflexivity
           |first [left; vm_compute; tauto | right; reflexivity]]|]).
  contradiction.
Qed.

Lemma test_with_a_definition_asks_once :
  asks_once (Sig [] [Param "t" Required (TRef ["TestDefinition"] [])] (Some TVoid)) = true.
Proof.
  assert (H : In (Sig [] [Param "t" Required (TRef ["TestDefinition"] [])] (Some TVoid))
                 (functions "test" Deno)) by (vm_compute; tauto).
  exact (proj1 (forms_of_test_ask_once _ H)).
Defined.

(** X21: a step of a test is defined as a test is, by the fields of [TestDefinition] but
    [only] and [permissions], each with the same type and presence; and [step] has the
    first three forms of [test], with a definition, with a name and a function and with a
    function alone, resulting in [Promise<boolean>] where [test] results in nothing. *)
Theorem steps_are_defined_as_tests :
  incl (interface_members "TestStepDefinition" Deno) (interface_members "TestDefinition" Deno) /\
  not_for_steps = ["only"; "permissions"] /\
  length (interface_members "TestDefinition" Deno)
  = length (interface_members "TestStepDefinition" Deno) + 2 /\
  map param_shapes step_forms
  = [(Required, TRef ["TestStepDefinition"] [])]
      :: map param_shapes (firstn 2 (tl (functions "test" Deno))) /\
  length (functions "test" Deno) = 6 /\
  map sig_ret step_forms
  = [Some (TRef ["Promise"] [TBoolean]); Some (TRef ["Promise"] [TBoolean]);
     Some (TRef ["Promise"] [TBoolean])].
Proof.
  split.
  - let a := eval vm_compute in (interface_members "TestStepDefinition" Deno) in
    let b := eval vm_compute in (interface_members "TestDefinition" Deno) in
    change (incl a b).
    intros m Hm. simpl in Hm |- *.
    repeat (destruct Hm as [<-|Hm]; [tauto|]). contradiction.
  - repeat split; vm_compute; reflexivity.
Qed.

(** ** Permissions of a test *)

(** X22: the options of a test can set each permission on its own: for every
    [PermissionName] the object that has this one field, with a boolean or with "inherit",
    is a value of [PermissionOptions]. *)
Theorem each_permission_is_set_on_its_own (s : string) (b : bool) :
  In s permission_names ->
  admits 5 Deno (only s (VBool b)) PermissionOptions = true /\
  admits 5 Deno (only s (VStr "inherit")) PermissionOptions = true /\
  In s (map member_name (interface_members "PermissionOptionsObject" Deno)).
Proof.
  intros H. vm_compute in H.
  repeat (destruct H as [<-|H];
          [destruct b; (split; [vm_compute; reflexivity|]);
           (split; [vm_compute; reflexivity|]); vm_compute; tauto|]).
  contradiction.
Qed.

Lemma net_is_denied_on_its_own :
  admits 5 Deno (only "net" (VBool false)) PermissionOptions = true.
Proof.
  assert (H : In "net" permission_names) by (vm_compute; tauto).
  exact (proj1 (each_permission_is_set_on_its_own "net" false H)).
Defined.

(** ** Event listeners *)




(** ** Members declared anew *)

(** X24: an interface of the namespace declares a member of an ancestor anew in two places
    only, [accept] and the iterator of [TlsListener]; both take no parameter and narrow
    the result from [Conn] to [TlsConn], which extends [Conn], so that a [TlsListener]
    may stand for a [Listener]. *)
Theorem TlsListener_narrows_Listener (o : string * string * string) :
  In o (overrides Deno) ->
  fst (fst o) = "TlsListener" /\ snd (fst o) = "Listener" /\
  In (snd o) ["accept"; "[Symbol.asyncIterator]"] /\
  may_stand_for Deno o = true /\
  narrows Deno (TRef ["TlsConn"] []) (TRef ["Conn"] []) = true /\
  narrows Deno (TRef ["Conn"] []) (TRef ["TlsConn"] []) = false.
Proof.
  intros H. vm_compute in H.
  destruct H as [<-|[<-|[]]];
    (split; [reflexivity|]); (split; [reflexivity|]); (split; [simpl; tauto|]);
    (split; [vm_compute; reflexivity|]); split; vm_compute; reflexivity.
Qed.

Lemma accept_of_TlsListener_narrows :
  may_stand_for Deno ("TlsListener", "Listener", "accept") = true.
Proof.
  assert (H : In ("TlsListener", "Listener", "accept") (overrides Deno))
    by (vm_compute; tauto).
  exact (proj1 (proj2 (proj2 (proj2 (TlsListener_narrows_Listener _ H))))).
Defined.
